(** * schematics-agent: the generate / check / repair loop

    A shallow embedding of the Python sources

      - [core/models.py], [core/ingest.py]         the circuit description
      - [kicad/rag.py]                              allowed identifiers per part
      - [kicad/gpt_writer.py]                       the document synthesizer
      - [agents/validator_agent.py]                 the consistency checker
      - [kicad/erc.py], [agents/orchestrator.py]    the convergence loop
      - [kicad/library.py]                          the symbol catalog
      - [agents/architect_agent.py]                 the placement of the parts

    A Python [str] is a Rocq [string]; the character classes below are
    Python's on code points below 128.  A Python exception is a value of
    [exn] carried by [result]; mutable objects (the writer, the files, the
    progress log) live in an explicit [Store].  What the program obtains from
    outside itself (the standard library's JSON codec, [float], pydantic, the
    text-completion service, the similarity search, the symbol catalog and
    the [kicad-cli] tool) is a field of the classes [PyLib] and [World].

    The files are a finite map from path to content.  The calls on the file
    system that the run makes unguarded, and that the system may refuse (the
    [mkdir] of the output and of the dump directory, the writing of the
    output file), and the construction of the clients are fields of [World]
    too, and raise where the world says so.  Reading a file gives the text
    that was written: the translation of carriage returns by Python's text
    mode is not modelled.  The dumps under [gpt_debug] are not in the map:
    no statement below is about a file other than the one it names.  The
    progress callback receives each line and returns or raises; it is taken
    to act on nothing that the run reads. *)

From Stdlib Require Import ZArith Floats String Ascii List Bool Lia.
From stdpp Require Import base gmap strings list pretty.
Import ListNotations.

Local Open Scope string_scope.
Local Open Scope list_scope.
Local Open Scope Z_scope.

(** ** Python values and exceptions *)

Inductive exn : Type :=
| AttributeError
| TypeError
| ValueError
| JSONDecodeError
| ValidationError
| FileNotFoundError
| RetryError
| OSError.

Inductive result (A : Type) : Type :=
| Ok (a : A)
| Raise (e : exn).
Arguments Ok {A} a.
Arguments Raise {A} e.

(** [try: r  except Exception: d] *)
Definition try_except {A} (r : result A) (d : A) : A :=
  match r with Ok a => a | Raise _ => d end.

Definition rbind {A B} (r : result A) (f : A -> result B) : result B :=
  match r with Ok a => f a | Raise e => Raise e end.

Fixpoint rmapM {A B} (f : A -> result B) (l : list A) : result (list B) :=
  match l with
  | [] => Ok []
  | x :: r => rbind (f x) (fun y => rbind (rmapM f r) (fun ys => Ok (y :: ys)))
  end.

Fixpoint rfold {A B} (f : B -> A -> result B) (l : list A) (b : B) : result B :=
  match l with
  | [] => Ok b
  | x :: r => rbind (f b x) (rfold f r)
  end.

Notation "'let*' x ':=' c1 'in' c2" := (rbind c1 (fun x => c2))
  (at level 10, x pattern, c1 at level 100, c2 at level 200).

(** ** Strings *)

Module Py.

Definition dq : ascii := "034"%char.
Definition nl : ascii := "010"%char.

(** ["..."] with the double quotes written out. *)
Definition quoted (s : string) : string := String dq s +:+ String dq "".

Definition in_range (lo hi : nat) (c : ascii) : bool :=
  let n := nat_of_ascii c in (lo <=? n)%nat && (n <=? hi)%nat.

(** [str.isspace] of one character: TAB..CR, FS..US and the blank. *)
Definition isspace (c : ascii) : bool := in_range 9 13 c || in_range 28 32 c.
Definition isdigit (c : ascii) : bool := in_range 48 57 c.
Definition isupper (c : ascii) : bool := in_range 65 90 c.
Definition islower (c : ascii) : bool := in_range 97 122 c.
Definition isalpha (c : ascii) : bool := isupper c || islower c.
(** the class [\w] *)
Definition isword (c : ascii) : bool :=
  isalpha c || isdigit c || Ascii.eqb c "_".

Definition upper_char (c : ascii) : ascii :=
  if islower c then ascii_of_nat (nat_of_ascii c - 32) else c.
Definition lower_char (c : ascii) : ascii :=
  if isupper c then ascii_of_nat (nat_of_ascii c + 32) else c.

Fixpoint smap (f : ascii -> ascii) (s : string) : string :=
  match s with
  | EmptyString => EmptyString
  | String c r => String (f c) (smap f r)
  end.

Definition upper : string -> string := smap upper_char.
Definition lower : string -> string := smap lower_char.

Fixpoint lstrip (s : string) : string :=
  match s with
  | String c r => if isspace c then lstrip r else s
  | EmptyString => EmptyString
  end.
Fixpoint rstrip (s : string) : string :=
  match s with
  | EmptyString => EmptyString
  | String c r =>
      match rstrip r with
      | EmptyString => if isspace c then EmptyString else String c EmptyString
      | r' => String c r'
      end
  end.
Definition strip (s : string) : string := rstrip (lstrip s).

Definition startswith (s p : string) : bool := String.prefix p s.
Fixpoint endswith (s p : string) : bool :=
  String.eqb s p
  || match s with
     | EmptyString => false
     | String _ r => endswith r p
     end.

(** [s.find(sub)], [-1] when absent. *)
Fixpoint find_from (sub s : string) (i : nat) : Z :=
  if String.prefix sub s then Z.of_nat i
  else match s with
       | EmptyString => -1
       | String _ r => find_from sub r (S i)
       end.
Definition find (s sub : string) : Z := find_from sub s 0.

(** [s.rfind(sub)], [-1] when absent. *)
Fixpoint rfind_from (sub s : string) (i : nat) (last : Z) : Z :=
  let last' := if String.prefix sub s then Z.of_nat i else last in
  match s with
  | EmptyString => last'
  | String _ r => rfind_from sub r (S i) last'
  end.
Definition rfind (s sub : string) : Z := rfind_from sub s 0 (-1).

(** [sub in s] *)
Definition contains (sub s : string) : bool := negb (find s sub =? -1).

(** [s[a:b]] for [0 <= a]; [s[:n]] for [0 <= n]. *)
Definition slice (s : string) (a b : Z) : string :=
  String.substring (Z.to_nat a) (Z.to_nat (b - a)) s.
Definition prefix_to (n : Z) (s : string) : string := String.substring 0 (Z.to_nat n) s.

(** [bool(s)] *)
Definition truthy (s : string) : bool :=
  match s with EmptyString => false | _ => true end.

(** [s or d] *)
Definition or_else (s d : string) : string := if truthy s then s else d.

(** [x in l] on strings. *)
Definition mem (x : string) (l : list string) : bool :=
  existsb (String.eqb x) l.

(** [l[:n]] and [l[n:]] with Python's reading of a negative bound. *)
Definition take_to {A} (n : Z) (l : list A) : list A :=
  if 0 <=? n then firstn (Z.to_nat n) l
  else firstn (Z.to_nat (Z.of_nat (length l) + n)) l.
Definition drop_from {A} (n : Z) (l : list A) : list A :=
  if 0 <=? n then skipn (Z.to_nat n) l
  else skipn (Z.to_nat (Z.of_nat (length l) + n)) l.

(** [sorted(set(l))]: insertion into a strictly increasing list. *)
Fixpoint insert_sorted (x : string) (l : list string) : list string :=
  match l with
  | [] => [x]
  | y :: r =>
      match String.compare x y with
      | Lt => x :: l
      | Eq => l
      | Gt => y :: insert_sorted x r
      end
  end.
Definition sorted_set (l : list string) : list string :=
  fold_right insert_sorted [] l.

(** the elements of [l] in order of first occurrence *)
Fixpoint uniq_from (seen : list string) (l : list string) : list string :=
  match l with
  | [] => []
  | x :: r => if mem x seen then uniq_from seen r else x :: uniq_from (x :: seen) r
  end.

End Py.

(** ** Regular expressions

    The patterns of the sources use literals, character classes, greedy
    repetition of a class, optional parts, alternatives, capturing groups
    and the word boundary; [matcher] follows the backtracking order of
    Python's [re]: leftmost start, the longest repetition first. *)

Module Re.

Inductive regex : Type :=
| Lit (s : string)
| Cls (p : ascii -> bool)
| Rep (min : nat) (p : ascii -> bool)
| Opt (r : regex)
| Seq (r1 r2 : regex)
| Alt (r1 r2 : regex)
| Group (i : nat) (r : regex)
| WordB.

Definition captures := list (nat * string).

Record found := { m_start : nat; m_end : nat; m_groups : captures }.

(** [m.group(i)]; [None] when the group took no part in the match. *)
Fixpoint group (i : nat) (c : captures) : option string :=
  match c with
  | [] => None
  | (j, s) :: r => if (i =? j)%nat then Some s else group i r
  end.

Definition cont := option ascii -> list ascii -> nat -> captures -> option (nat * captures).

Definition char_eq (ci : bool) (a b : ascii) : bool :=
  if ci then Ascii.eqb (Py.lower_char a) (Py.lower_char b) else Ascii.eqb a b.

Fixpoint lit (ci : bool) (l : list ascii) (prev : option ascii) (s : list ascii)
  (pos : nat) : option (option ascii * list ascii * nat) :=
  match l with
  | [] => Some (prev, s, pos)
  | a :: l' =>
      match s with
      | c :: s' => if char_eq ci a c then lit ci l' (Some c) s' (S pos) else None
      | [] => None
      end
  end.

Fixpoint rep (p : ascii -> bool) (min count : nat) (prev : option ascii)
  (s : list ascii) (pos : nat)
  (k : option ascii -> list ascii -> nat -> option (nat * captures))
  : option (nat * captures) :=
  let stop := if (min <=? count)%nat then k prev s pos else None in
  match s with
  | c :: s' =>
      if p c then
        match rep p min (S count) (Some c) s' (S pos) k with
        | Some r => Some r
        | None => stop
        end
      else stop
  | [] => stop
  end.

Definition is_word (c : option ascii) : bool :=
  match c with Some a => Py.isword a | None => false end.

Fixpoint matcher (ci : bool) (r : regex) (prev : option ascii) (s : list ascii)
  (pos : nat) (caps : captures) (k : cont) : option (nat * captures) :=
  match r with
  | Lit t =>
      match lit ci (list_ascii_of_string t) prev s pos with
      | Some (prev', s', pos') => k prev' s' pos' caps
      | None => None
      end
  | Cls p =>
      match s with
      | c :: s' => if p c then k (Some c) s' (S pos) caps else None
      | [] => None
      end
  | Rep min p => rep p min 0 prev s pos (fun prev' s' pos' => k prev' s' pos' caps)
  | Opt r1 =>
      match matcher ci r1 prev s pos caps k with
      | Some x => Some x
      | None => k prev s pos caps
      end
  | Seq r1 r2 =>
      matcher ci r1 prev s pos caps
        (fun prev' s' pos' caps' => matcher ci r2 prev' s' pos' caps' k)
  | Alt r1 r2 =>
      match matcher ci r1 prev s pos caps k with
      | Some x => Some x
      | None => matcher ci r2 prev s pos caps k
      end
  | Group i r1 =>
      matcher ci r1 prev s pos caps
        (fun prev' s' pos' caps' =>
           k prev' s' pos'
             ((i, string_of_list_ascii (firstn (pos' - pos) s)) :: caps'))
  | WordB =>
      if xorb (is_word prev) (is_word (hd_error s)) then k prev s pos caps else None
  end.

Definition accept : cont := fun _ _ pos caps => Some (pos, caps).

(** [re.search] from position [pos] of the text, [s] being what is left. *)
Fixpoint search_from (ci : bool) (r : regex) (prev : option ascii)
  (s : list ascii) (pos : nat) : option found :=
  match matcher ci r prev s pos [] accept with
  | Some (e, caps) => Some {| m_start := pos; m_end := e; m_groups := caps |}
  | None =>
      match s with
      | [] => None
      | c :: s' => search_from ci r (Some c) s' (S pos)
      end
  end.

Definition search (ci : bool) (r : regex) (text : string) : option found :=
  search_from ci r None (list_ascii_of_string text) 0.

(** [re.finditer]: the matches from left to right, none overlapping. *)
Fixpoint finditer_from (fuel : nat) (ci : bool) (r : regex) (prev : option ascii)
  (s : list ascii) (pos : nat) : list found :=
  match fuel with
  | O => []
  | S fuel' =>
      match search_from ci r prev s pos with
      | None => []
      | Some m =>
          let e := if (m_start m <? m_end m)%nat then m_end m else S (m_end m) in
          let used := (e - pos)%nat in
          m :: finditer_from fuel' ci r
                 (match used with
                  | O => prev
                  | S u => nth_error s u
                  end)
                 (skipn used s) e
      end
  end.

Definition finditer (r : regex) (text : string) : list found :=
  let s := list_ascii_of_string text in
  finditer_from (S (length s)) false r None s 0.

(** [re.findall] for a pattern with one group: the group of every match. *)
Definition findall1 (r : regex) (text : string) : list string :=
  omap (fun m => group 1 (m_groups m)) (finditer r text).

Definition ws : regex := Rep 1 Py.isspace.
Definition not_dq (c : ascii) : bool := negb (Ascii.eqb c Py.dq).
Definition seq (l : list regex) : regex := fold_right Seq (Lit "") l.

End Re.

(** ** Decoded JSON

    What [json.loads] returns: [JNull] is Python's [None], an object is a
    [dict] in insertion order. *)

#[local] Unset Elimination Schemes.
Inductive JSON : Type :=
| JNull
| JBool (b : bool)
| JInt (n : Z)
| JFloat (x : float)
| JStr (s : string)
| JArr (l : list JSON)
| JObj (kv : list (string * JSON)).
#[local] Set Elimination Schemes.

Module Json.

Fixpoint assoc {V} (k : string) (kv : list (string * V)) : option V :=
  match kv with
  | [] => None
  | (k', v) :: r => if String.eqb k k' then Some v else assoc k r
  end.

(** [k in d] *)
Definition has_key {V} (k : string) (kv : list (string * V)) : bool :=
  match assoc k kv with Some _ => true | None => false end.

(** [d[k] = v] on a dict: the key keeps its place when it is there already. *)
Fixpoint dict_set {V} (k : string) (v : V) (kv : list (string * V)) : list (string * V) :=
  match kv with
  | [] => [(k, v)]
  | (k', v') :: r => if String.eqb k k' then (k, v) :: r else (k', v') :: dict_set k v r
  end.

(** [x.get(k, d)]: only a dict has the method. *)
Definition get_default (x : JSON) (k : string) (d : JSON) : result JSON :=
  match x with
  | JObj kv => Ok (match assoc k kv with Some v => v | None => d end)
  | _ => Raise AttributeError
  end.
Definition get (x : JSON) (k : string) : result JSON := get_default x k JNull.

(** [bool(x)] *)
Definition truthy (x : JSON) : bool :=
  match x with
  | JNull => false
  | JBool b => b
  | JInt n => negb (n =? 0)
  | JFloat f => negb (PrimFloat.eqb f 0%float)
  | JStr s => Py.truthy s
  | JArr l => match l with [] => false | _ => true end
  | JObj kv => match kv with [] => false | _ => true end
  end.

(** [x or d] *)
Definition or_else (x d : JSON) : JSON := if truthy x then x else d.

(** [len(x)] *)
Definition len (x : JSON) : result Z :=
  match x with
  | JStr s => Ok (Z.of_nat (String.length s))
  | JArr l => Ok (Z.of_nat (length l))
  | JObj kv => Ok (Z.of_nat (length kv))
  | _ => Raise TypeError
  end.

(** [for y in x]: the items of a list, the characters of a string, the keys
    of a dict. *)
Definition iter (x : JSON) : result (list JSON) :=
  match x with
  | JArr l => Ok l
  | JStr s => Ok (map (fun c => JStr (String c "")) (list_ascii_of_string s))
  | JObj kv => Ok (map (fun p => JStr (fst p)) kv)
  | _ => Raise TypeError
  end.

(** [x[:n]] for [0 <= n] *)
Definition take (n : nat) (x : JSON) : result JSON :=
  match x with
  | JArr l => Ok (JArr (firstn n l))
  | JStr s => Ok (JStr (Py.prefix_to (Z.of_nat n) s))
  | _ => Raise TypeError
  end.

Definition of_strings (l : list string) : JSON := JArr (map JStr l).

End Json.

(** ** core/models.py *)

Record PartSpec := {
  ref : string;
  type : string;
  symbol : option string;
  value : option string;
  pins : list (string * string);
  position : option (Z * Z);
  rotation : option Z
}.

Record NetSpec := { name : string }.

Record CircuitSpec := {
  title : option string;
  parts : list PartSpec;
  nets : list NetSpec
}.

(** ** The standard library and pydantic *)

Class PyLib := {
  (** [json.loads]; [None] when it raises *)
  json_loads : string -> option JSON;
  (** [json.dumps] *)
  json_dumps : JSON -> string;
  (** [float(s)]; [None] when it raises *)
  float_of : string -> option float;
  (** [str(x)] of a decoded value *)
  str_of : JSON -> string;
  (** [CircuitSpec] built from the keys of a dict: pydantic's validation *)
  circuit_of_dict : list (string * JSON) -> result CircuitSpec
}.

(** ** The collaborators *)

Record Message := { role : string; content : string }.

Record CompletedProcess := { returncode : Z; stdout : string; stderr : string }.

(** One result of [ChromaClient.query]: its document, and the [lib] entry of
    its metadata ([None] when the metadata itself is [None]). *)
Record ChromaHit := { document : option string; metadata_lib : option (option string) }.

Class World := {
  (** [index_symbols()]: the catalog, library by library, in the dict's order *)
  symbol_index : list (string * list string);
  (** [ChromaClient().query(collection, text, n)]; [None] when it raises *)
  chroma_query : string -> string -> Z -> option (list ChromaHit);
  (** the writer's [LLMClient.chat] at its n-th call; [None] when it raises *)
  writer_chat : nat -> list Message -> option string;
  (** the validator's [LLMClient.chat] in iteration n; [None] when it raises *)
  validator_chat : nat -> list Message -> option string;
  (** [shutil.which] finds [kicad-cli] or [kicad-sch], in iteration n *)
  kicad_cli : nat -> bool;
  (** the run with [--format json] in iteration n: the process and the decoded
      report ([JNull] when it cannot be read); [None] when the run raises *)
  erc_json_run : nat -> string -> option (CompletedProcess * JSON);
  (** the plain run in iteration n; [None] when it raises *)
  erc_text_run : nat -> string -> option CompletedProcess;
  (** [LLMClient()]: the construction of the client of the completion service *)
  new_llm_client : result unit;
  (** [out_dir.mkdir(parents=True, exist_ok=True)] *)
  out_dir_mkdir : string -> result unit;
  (** in the n-th call of [write] for an output path:
      [self._debug_dir.mkdir(parents=True, exist_ok=True)] *)
  debug_dir_mkdir : nat -> string -> result unit;
  (** in the n-th call of [write]: [out_path.write_text], after the [mkdir]
      of its directory where the code has one *)
  output_write_text : nat -> string -> result unit;
  (** [progress_cb(msg)], given the lines the callback received before:
      [None] when it returns, its exception when it raises *)
  progress_call : list string -> string -> option exn
}.

(** ** kicad/gpt_writer.py *)

Record GptSchematicWriter := {
  _history : list Message;
  _iter_counter : nat
}.

(** [GptSchematicWriter()] *)
Definition new_writer : GptSchematicWriter :=
  {| _history := []; _iter_counter := 0 |}.

Definition _add_history (self : GptSchematicWriter) (r c : string) : GptSchematicWriter :=
  let h := _history self ++ [ {| role := r; content := c |} ] in
  {| _history := if 10 <? Z.of_nat (length h) then Py.drop_from (-10) h else h;
     _iter_counter := _iter_counter self |}.

(** [s1 "\n" s2 "\n" ...]: every line with its line feed. *)
Definition unlines (l : list string) : string :=
  String.concat "" (map (fun s => s +:+ String Py.nl "") l).

(** The system instructions of [_build_prompt]. *)
Definition writer_system : string :=
  unlines [
    "You are a KiCad 9 schematic generator. Produce a valid KiCad 9 S-expression schematic file strictly from the given LLD JSON.";
    "Constraints:";
    "- Output ONLY the schematic text starting with (kicad_sch ...). No prose, no code fences.";
    "- Use top-level: (kicad_sch (version 20250114) (generator eeschema) ...).";
    "- Include (paper " +:+ Py.quoted "A4" +:+ ") and (title_block (title "
      +:+ Py.quoted "<title>" +:+ ")).";
    "- Library symbols live under (lib_symbols ...). Their names are generic prefixes WITHOUT numbers (e.g., R, C, L, D, Q, Y, U, J, S, or Custom:<name>), and include pins and an outline (rectangle/polyline).";
    "- Placed instances live directly under (kicad_sch) as (symbol ...). For each ref in 'allowed' (input order), CREATE ONE (symbol ...) with: (lib_id <Library:Symbol> chosen ONLY from that ref's allowed list), (at ...), (uuid <GUID>), and sibling properties including (property "
      +:+ Py.quoted "Reference" +:+ " " +:+ Py.quoted "<ref>"
      +:+ "). Every placed instance MUST include a UUID.";
    "- Reference prefix rules (by lib_id category): R (resistors), C (capacitors), L (inductors), J (connectors), S (switches/buttons), D (diodes/LEDs), Q (transistors/MOSFETs), Y (crystals/oscillators), U (ICs/others). Normalize refs to match and number sequentially per prefix based on input order.";
    "- If no suitable real symbol exists, embed a custom symbol in (lib_symbols ...) and reference it via a Custom:<name> lib_id (no numbers in the symbol name).";
    "- Add minimal (sheet_instances ...) bookkeeping expected by KiCad 9.";
    "- STRICTLY follow the provided template schema if given: replicate header, section order, nesting, and formatting. Do not change section names or hierarchy.";
    "- Apply engineering drawing practices: readable spacing, avoid overlaps, consistent orientation."
  ].

Definition _seed_schematic (title : string) : string :=
  "(kicad_sch (version 20250114) (generator eeschema)" +:+ String Py.nl
    "  (paper " +:+ Py.quoted "A4" +:+ ")" +:+ String Py.nl
    "  (title_block (title " +:+ Py.quoted (Py.or_else title "Untitled") +:+ "))"
    +:+ String Py.nl ")" +:+ String Py.nl "".

(** The test of [write]: the stripped text starts with the opening token and
    ends with a closing parenthesis. *)
Definition well_formed (text : string) : bool :=
  Py.startswith (Py.strip text) "(kicad_sch" && Py.endswith (Py.strip text) ")".

Section Writer.
Context {L : PyLib} {W : World}.

Definition _build_prompt (spec_json_text : string)
  (allowed_by_ref : list (string * list string)) (prev_text : option string)
  (issues : option (list string)) (reference_text : option string)
  : string * string :=
  let raw :=
    match json_loads spec_json_text with
    | Some v => v
    | None => JObj [("raw", JStr (Py.prefix_to 4000 spec_json_text))]
    end in
  let payload :=
    [("lld_json", raw);
     ("allowed", JObj (map (fun kv => (fst kv, Json.of_strings (snd kv))) allowed_by_ref));
     ("refs", Json.of_strings (map fst allowed_by_ref))] in
  let payload :=
    match prev_text with
    | Some t => if Py.truthy t
                then Json.dict_set "previous_text" (JStr (Py.prefix_to 12000 t)) payload
                else payload
    | None => payload
    end in
  let payload :=
    match issues with
    | Some (i :: l) => Json.dict_set "issues_to_fix" (Json.of_strings (firstn 100 (i :: l))) payload
    | _ => payload
    end in
  let payload :=
    match reference_text with
    | Some t => if Py.truthy t
                then Json.dict_set "reference_schematic" (JStr (Py.prefix_to 20000 t)) payload
                else payload
    | None => payload
    end in
  (writer_system, json_dumps (JObj payload)).

(** The tail of [generate_text]: the span from the first opening token to
    the last closing parenthesis, or else the stripped reply. *)
Definition extract_document (reply : string) : string :=
  let start := Py.find reply "(kicad_sch" in
  let end_ := Py.rfind reply ")" in
  if negb (start =? -1) && negb (end_ =? -1) && (start <? end_)
  then Py.slice reply start (end_ + 1)
  else Py.strip reply.

Definition generate_text (self : GptSchematicWriter) (spec_json_text : string)
  (allowed_by_ref : list (string * list string)) (prev_text : option string)
  (issues : option (list string)) (reference_text : option string)
  : GptSchematicWriter * (string * string) :=
  let '(system, user) :=
    _build_prompt spec_json_text allowed_by_ref prev_text issues reference_text in
  let self := _add_history self "user" user in
  let messages := {| role := "system"; content := system |} :: _history self in
  let reply := default "" (writer_chat (_iter_counter self) messages) in
  if negb (Py.truthy reply) then (self, ("", ""))
  else
    let self := _add_history self "assistant" reply in
    (self, (extract_document reply, reply)).

(** [write]: the files are a finite map from path to content.  The dumps
    under [gpt_debug] are left out: each is written to a path of its own
    inside [try ... except: pass]. *)
Definition write (self : GptSchematicWriter) (files : gmap string string)
  (spec_json_text : string) (allowed_by_ref : list (string * list string))
  (out_path : string) (prev_text : option string) (issues : option (list string))
  (reference_text : option string) : GptSchematicWriter * gmap string string :=
  let self := {| _history := _history self; _iter_counter := S (_iter_counter self) |} in
  let '(self, (parsed_text, raw_reply)) :=
    generate_text self spec_json_text allowed_by_ref prev_text issues reference_text in
  if well_formed parsed_text then (self, <[out_path := parsed_text]> files)
  else
    match prev_text with
    | Some p =>
        if Py.truthy p && Py.truthy (Py.strip p)
        then (self, <[out_path := p]> files)
        else (self, <[out_path := _seed_schematic "Untitled"]> files)
    | None => (self, <[out_path := _seed_schematic "Untitled"]> files)
    end.

End Writer.

(** ** agents/validator_agent.py *)

Module Pat.
Import Re.

(** The patterns of the sources; in the comments [Q] stands for the double
    quote character. *)

Definition quote : regex := Lit (String Py.dq "").

(** [\(lib_id\s+Q([^Q]+)Q\)] *)
Definition lib_id : regex :=
  seq [Lit "(lib_id"; ws; quote; Group 1 (Rep 1 not_dq); quote; Lit ")"].

(** [\(pin\b] *)
Definition pin : regex := seq [Lit "(pin"; WordB].

(** [\((rectangle|polyline|circle|arc)\b] *)
Definition shape : regex :=
  seq [Lit "(";
       Group 1 (Alt (Lit "rectangle") (Alt (Lit "polyline") (Alt (Lit "circle") (Lit "arc"))));
       WordB].

(** [\(property\s+QReferenceQ\s+Q([A-Za-z]+\d+)Q] *)
Definition reference : regex :=
  seq [Lit "(property"; ws; quote; Lit "Reference"; quote; ws; quote;
       Group 1 (Seq (Rep 1 Py.isalpha) (Rep 1 Py.isdigit)); quote].

Definition digit_or_dot (c : ascii) : bool := Py.isdigit c || Ascii.eqb c ".".
Definition number : regex := Seq (Opt (Lit "-")) (Rep 1 digit_or_dot).

(** [\(at\s+(-?[\d\.]+)\s+(-?[\d\.]+)(?:\s+(-?[\d\.]+))?\)] *)
Definition at_ : regex :=
  seq [Lit "(at"; ws; Group 1 number; ws; Group 2 number;
       Opt (Seq ws (Group 3 number)); Lit ")"].

Definition hex_or_dash (c : ascii) : bool :=
  Py.isdigit c || Py.in_range 97 102 c || Py.in_range 65 70 c || Ascii.eqb c "-".

(** [\(uuid\s+[0-9a-fA-F-]{8,}\)] *)
Definition uuid : regex := seq [Lit "(uuid"; ws; Rep 8 hex_or_dash; Lit ")"].

(** [Found\s+(\d+)\s+violations] *)
Definition found_violations : regex :=
  seq [Lit "Found"; ws; Group 1 (Rep 1 Py.isdigit); ws; Lit "violations"].

(** [\(symbol\s+Q([^Q]+)Q] *)
Definition symbol_name : regex :=
  seq [Lit "(symbol"; ws; quote; Group 1 (Rep 1 not_dq)].

End Pat.

Definition read_text (files : gmap string string) (path : string) : result string :=
  match files !! path with
  | Some text => Ok text
  | None => Raise FileNotFoundError
  end.

Definition _check_missing_embedded_symbols (files : gmap string string)
  (sch_path : string) : result (list string) :=
  match read_text files sch_path with
  | Raise _ => Ok []
  | Ok text =>
      let has_lib_symbols := Py.contains "(lib_symbols" text in
      let used_lib_ids := Re.findall1 Pat.lib_id text in
      match used_lib_ids with
      | _ :: _ =>
          if negb has_lib_symbols then
            let uniq := Py.sorted_set used_lib_ids in
            Ok ["No (lib_symbols ...) block present. Embed symbol definitions for: "
                +:+ String.concat ", " (firstn 20 uniq)]
          else Ok []
      | [] => Ok []
      end
  end.

Definition _check_symbol_pins_and_graphics (files : gmap string string)
  (sch_path : string) : result (list string) :=
  match read_text files sch_path with
  | Raise _ => Ok []
  | Ok text =>
      if negb (Py.contains "(lib_symbols" text) then Ok []
      else
        let pin_count := length (Re.finditer Pat.pin text) in
        let shape_count := length (Re.finditer Pat.shape text) in
        let issues := [] in
        let issues :=
          if (pin_count =? 0)%nat
          then issues ++ ["Embedded symbols lack (pin ...) definitions. Add pins with name/number, (at x y), and length."]
          else issues in
        let issues :=
          if (shape_count =? 0)%nat
          then issues ++ ["Embedded symbols lack basic graphics (rectangle/polyline). Add a body rectangle around the symbol."]
          else issues in
        Ok issues
  end.

Definition sentinel (low : string) : bool :=
  String.eqb low "device:u" || String.eqb low "device:unknown".

Definition _check_invalid_lib_ids_and_sheet (files : gmap string string)
  (sch_path : string) : result (list string) :=
  match read_text files sch_path with
  | Raise _ => Ok []
  | Ok text =>
      let issues := [] in
      let invalids :=
        List.filter (fun m => sentinel (Py.lower (Py.strip m)))
               (Re.findall1 Pat.lib_id text) in
      let issues :=
        match invalids with
        | _ :: _ =>
            issues ++ ["Invalid lib_id(s) found: "
                       +:+ String.concat ", " (Py.sorted_set invalids)
                       +:+ ". Replace with valid symbols or embed their definitions."]
        | [] => issues
        end in
      let issues :=
        if negb (Py.contains "(sheet_instances" text)
        then issues ++ ["Missing (sheet_instances ...) block. Add minimal KiCad 9 sheet bookkeeping to improve compatibility."]
        else issues in
      let issues :=
        if Py.contains "(kicad_sch" text && negb (Py.contains "(version 20250114)" text)
        then issues ++ ["Header version is not KiCad 9 (20250114). Use (version 20250114) (generator eeschema)."]
        else issues in
      Ok issues
  end.

(** A placed instance: [(ref, x, y, rot, lib_id, has_uuid)]. *)
Definition instance : Type := string * float * float * float * string * bool.

Section Extract.
Context {L : PyLib}.

(** The [try] block of [_extract_instances]: three calls of [float]. *)
Definition at_floats (g1 g2 : string) (g3 : option string) : result (float * float * float) :=
  match float_of g1 with
  | None => Raise ValueError
  | Some x =>
      match float_of g2 with
      | None => Raise ValueError
      | Some y =>
          match g3 with
          | Some t =>
              if Py.truthy t then
                match float_of t with
                | Some r => Ok (x, y, r)
                | None => Raise ValueError
                end
              else Ok (x, y, 0%float)
          | None => Ok (x, y, 0%float)
          end
      end
  end.

Definition _extract_instances (files : gmap string string) (sch_path : string)
  : list instance :=
  match read_text files sch_path with
  | Raise _ => []
  | Ok text =>
      fold_left
        (fun instances m =>
           let ref := default "" (Re.group 1 (Re.m_groups m)) in
           let start := Z.max 0 (Z.of_nat (Re.m_start m) - 2000) in
           let end_ := Z.min (Z.of_nat (String.length text)) (Z.of_nat (Re.m_end m) + 2000) in
           let window := Py.slice text start end_ in
           let at_m := Re.search false Pat.at_ window in
           let lib_m := Re.search false Pat.lib_id window in
           let uuid_m := Re.search false Pat.uuid window in
           match at_m, lib_m with
           | Some a, Some l =>
               let '(x, y, rot) :=
                 try_except
                   (at_floats (default "" (Re.group 1 (Re.m_groups a)))
                              (default "" (Re.group 2 (Re.m_groups a)))
                              (Re.group 3 (Re.m_groups a)))
                   (0%float, 0%float, 0%float) in
               let lib_id := default "" (Re.group 1 (Re.m_groups l)) in
               let has_uuid := match uuid_m with Some _ => true | None => false end in
               instances ++ [(ref, x, y, rot, lib_id, has_uuid)]
           | _, _ => instances
           end)
        (Re.finditer Pat.reference text) []
  end.

End Extract.

Definition _desired_prefix_for_lib (lib_id : string) : string :=
  let l := Py.lower lib_id in
  if Py.contains "device:r" l || Py.contains "resistor" l then "R"
  else if Py.contains "device:c" l || Py.contains "capacitor" l then "C"
  else if Py.contains "device:l" l || Py.contains "inductor" l then "L"
  else if Py.contains "connector" l || Py.startswith l "conn" then "J"
  else if Py.contains "switch" l || Py.startswith l "sw" || Py.contains "button" l then "S"
  else if Py.contains "device:d" l || Py.contains "diode" l || Py.contains "led" l then "D"
  else if Py.contains "device:q" l || Py.contains "transistor" l || Py.contains "bjt" l
          || Py.contains "mosfet" l then "Q"
  else if Py.contains "crystal" l || Py.contains "xtal" l || Py.contains "osc" l
          || Py.contains "resonator" l then "Y"
  else "U".

Definition min_spacing : float := 20%float.

Definition too_close_message (ref_i ref_j : string) : string :=
  "Placed instances too close: " +:+ ref_i +:+ " and " +:+ ref_j
  +:+ " (increase spacing >= 20.0).".

(** The test of the inner loop: [dx * dx + dy * dy < min_spacing * min_spacing]
    on Python's floats. *)
Definition too_close (xi yi xj yj : float) : bool :=
  let dx := PrimFloat.sub xi xj in
  let dy := PrimFloat.sub yi yj in
  PrimFloat.ltb (PrimFloat.add (PrimFloat.mul dx dx) (PrimFloat.mul dy dy))
                (PrimFloat.mul min_spacing min_spacing).

(** The first loop nest of [_check_instance_positions_and_refs]:
    [for i in range(len(inst))], [for j in range(i + 1, len(inst))]. *)
Definition spacing_loop (inst : list instance) (issues : list string) : list string :=
  fold_left
    (fun issues i =>
       match inst !! i with
       | Some (ref_i, xi, yi, _, _, _) =>
           fold_left
             (fun issues j =>
                match inst !! j with
                | Some (ref_j, xj, yj, _, _, _) =>
                    if too_close xi yi xj yj
                    then issues ++ [too_close_message ref_i ref_j]
                    else issues
                | None => issues
                end)
             (seq (i + 1) (length inst - (i + 1))) issues
       | None => issues
       end)
    (seq 0 (length inst)) issues.

(** The second loop: prefix and unique id of every instance. *)
Definition naming_loop (inst : list instance) (issues : list string) : list string :=
  fold_left
    (fun issues (it : instance) =>
       let '(ref, _, _, _, lib_id, has_uuid) := it in
       let want_prefix := _desired_prefix_for_lib lib_id in
       let issues :=
         if negb (Py.startswith (Py.upper ref) want_prefix)
         then issues ++ ["Reference prefix mismatch for " +:+ ref
                         +:+ ": expected to start with '" +:+ want_prefix
                         +:+ "' based on lib_id " +:+ lib_id +:+ "."]
         else issues in
       if negb has_uuid
       then issues ++ ["Placed instance " +:+ ref
                       +:+ " is missing (uuid ...). Add a UUID to each (symbol ...) instance."]
       else issues)
    inst issues.

Definition instance_issues (inst : list instance) : list string :=
  naming_loop inst (spacing_loop inst []).

Record ValidatorAgent := { use_llm : bool }.

Definition validator_system : string :=
  unlines [
    "You are a KiCad 9 schematic format validator. Check the text for KiCad 9 S-expression compliance and layout sanity.";
    "Verify: top-level (kicad_sch ...), (paper ...), (title_block ...), symbol blocks with (lib_id ...), (at ...), (uuid ...), (property ...).";
    "Also verify engineering layout basics: placed symbol instances not overlapping based on their (at x y) position and typical symbol sizes; reasonable spacing; consistent orientation."
  ] +:+ "Return ONLY JSON: {issues: string[]} with specific, actionable messages.".

Section Validator.
Context {L : PyLib} {W : World}.

(** [str(x)] *)
Definition py_str (x : JSON) : string :=
  match x with JStr s => s | _ => str_of x end.

(** [call] numbers the iteration in which the service is asked. *)
Definition _check_kicad_text_llm (self : ValidatorAgent) (call : nat)
  (files : gmap string string) (sch_path : string) : result (list string) :=
  if negb (use_llm self) then Ok []
  else
    match read_text files sch_path with
    | Raise _ => Ok ["Cannot read schematic file: " +:+ sch_path]
    | Ok text =>
        let user := Py.prefix_to 10000 text in
        match validator_chat call
                [ {| role := "system"; content := validator_system |};
                  {| role := "user"; content := user |} ] with
        | None => Raise RetryError
        | Some reply =>
            if negb (Py.truthy reply) then Ok []
            else
              let s := Py.find reply "{" in
              let e := Py.rfind reply "}" in
              if negb (s =? -1) && negb (e =? -1) && (s <? e) then
                match json_loads (Py.slice reply s (e + 1)) with
                | None => Ok ["LLM returned non-JSON response for KiCad validation."]
                | Some (JObj kv) =>
                    match Json.assoc "issues" kv with
                    | Some (JArr l) => Ok (map py_str l)
                    | _ => Ok []
                    end
                | Some _ => Ok []
                end
              else Ok []
        end
    end.

Definition _check_instance_positions_and_refs (files : gmap string string)
  (sch_path : string) : result (list string) :=
  Ok (instance_issues (_extract_instances files sch_path)).

Definition validate (self : ValidatorAgent) (call : nat)
  (files : gmap string string) (sch_path : string) : result (list string) :=
  let issues := [] in
  let* i1 := _check_missing_embedded_symbols files sch_path in
  let issues := issues ++ i1 in
  let* i2 := _check_symbol_pins_and_graphics files sch_path in
  let issues := issues ++ i2 in
  let* i3 := _check_invalid_lib_ids_and_sheet files sch_path in
  let issues := issues ++ i3 in
  let* i4 := _check_instance_positions_and_refs files sch_path in
  let issues := issues ++ i4 in
  if use_llm self then
    let* i5 := _check_kicad_text_llm self call files sch_path in
    Ok (issues ++ i5)
  else Ok issues.

End Validator.

(** ** kicad/library.py and kicad/rag.py *)

Section Rag.
Context {W : World}.

Definition search_symbols_by_substrings (substrings : list string)
  : list (string * string) :=
  match substrings with
  | [] => []
  | _ =>
      let lowered := map Py.lower (List.filter Py.truthy substrings) in
      flat_map
        (fun entry : string * list string =>
           let '(lib, syms) := entry in
           flat_map
             (fun name =>
                let nm := Py.lower name in
                if forallb (fun tok => Py.contains tok nm) lowered
                then [(lib, name)] else [])
             syms)
        symbol_index
  end.

Definition _list_if_exists (index : list (string * list string)) (lib : string)
  (symbols : list string) : list string :=
  match Json.assoc lib index with
  | None => []
  | Some names =>
      map (fun s => lib +:+ ":" +:+ s) (List.filter (fun s => Py.mem s names) symbols)
  end.

(** The identifiers one search result contributes. *)
Definition hit_lib_ids (r : ChromaHit) : result (list string) :=
  let doc := default "" (document r) in
  let* pairs :=
    rmapM
      (fun sym =>
         match metadata_lib r with
         | None => Raise AttributeError
         | Some lib => Ok (default "" lib, sym)
         end)
      (Re.findall1 Pat.symbol_name doc) in
  Ok (omap (fun ls : string * string =>
              if Py.truthy (fst ls) then Some (fst ls +:+ ":" +:+ snd ls) else None)
           pairs).

Definition _chroma_search (query : string) (n : Z) : list string :=
  match chroma_query "kicad_symbols" query n with
  | None => []
  | Some results =>
      match rmapM hit_lib_ids results with
      | Raise _ => []
      | Ok lib_ids => Py.take_to n (Py.uniq_from [] (concat lib_ids))
      end
  end.

(** [re.sub(r"[^A-Za-z0-9_]+", "_", text)] *)
Fixpoint sub_non_word (in_run : bool) (text : string) : string :=
  match text with
  | EmptyString => EmptyString
  | String c r =>
      if Py.isword c then String c (sub_non_word false r)
      else if in_run then sub_non_word true r
      else String "_" (sub_non_word true r)
  end.

Definition _sanitize_value_for_custom (value : string) : string :=
  let base :=
    Py.or_else (Py.prefix_to 48 (sub_non_word false (Py.strip value))) "CustomPart" in
  "Custom:" +:+ base.

Definition lib_colon_sym (ls : string * string) : string := fst ls +:+ ":" +:+ snd ls.

Definition _suggest_from_value (value : string) : list string :=
  let value_l := Py.lower value in
  let suggestions := [] in
  let chroma_hits := _chroma_search value 8 in
  let suggestions := suggestions ++ chroma_hits in
  let suggestions :=
    if Py.contains "esp32" value_l
    then suggestions ++ map lib_colon_sym (search_symbols_by_substrings ["esp32"; "wroom"])
    else suggestions in
  let suggestions :=
    if Py.contains "mcp73831" value_l
    then suggestions ++ map lib_colon_sym (search_symbols_by_substrings ["mcp73831"])
    else suggestions in
  let suggestions :=
    if Py.contains "hih" value_l || Py.contains "4030" value_l
    then suggestions ++ map lib_colon_sym (search_symbols_by_substrings ["hih"; "4030"])
    else suggestions in
  suggestions.

(** The loop "De-dup and cap" of [candidates_for_part], with its [break]. *)
Fixpoint dedup_cap (max_per_lib : Z) (candidates : list string)
  (seen : gset string) (result : list string) : list string :=
  match candidates with
  | [] => result
  | lib_id :: rest =>
      let low := Py.lower lib_id in
      if sentinel low then dedup_cap max_per_lib rest seen result
      else if bool_decide (lib_id ∈ seen) then dedup_cap max_per_lib rest seen result
      else
        let seen := {[lib_id]} ∪ seen in
        let result := result ++ [lib_id] in
        if max_per_lib <=? Z.of_nat (length result) then result
        else dedup_cap max_per_lib rest seen result
  end.

Definition candidates_for_part (part : PartSpec) (max_per_lib : Z) : list string :=
  let idx := symbol_index in
  let ptype := Py.upper (type part) in
  let ref_id := Py.upper (ref part) in
  let candidates :=
    if String.eqb ptype "R" || Py.startswith ref_id "R" then
      Py.take_to max_per_lib (_list_if_exists idx "Device" ["R"])
    else if String.eqb ptype "C" || Py.startswith ref_id "C" then
      Py.take_to max_per_lib (_list_if_exists idx "Device" ["C"])
    else if Py.mem ptype ["CONN"; "CONNECTOR"] then
      Py.take_to max_per_lib
        (_list_if_exists idx "Connector_Generic"
           ["Conn_01x02"; "Conn_01x03"; "Conn_01x04"; "Conn_01x06"])
    else if Py.mem ptype ["LED"; "D"] then
      Py.take_to max_per_lib (_list_if_exists idx "Device" ["LED"; "D"])
    else
      match value part with
      | Some v => if Py.truthy v then Py.take_to max_per_lib (_suggest_from_value v) else []
      | None => []
      end in
  let result := dedup_cap max_per_lib candidates ∅ [] in
  match result with
  | [] =>
      match value part with
      | Some v =>
          if Py.truthy v then [_sanitize_value_for_custom v]
          else ["Custom:" +:+ Py.or_else ref_id "Unknown"]
      | None => ["Custom:" +:+ Py.or_else ref_id "Unknown"]
      end
  | _ => result
  end.

(** The dict comprehension [{p.ref: candidates_for_part(p) for p in parts}]. *)
Definition candidates_for_parts (parts : list PartSpec) (max_per_lib : Z)
  : list (string * list string) :=
  fold_left
    (fun table p => Json.dict_set (ref p) (candidates_for_part p max_per_lib) table)
    parts [].

End Rag.

(** ** core/ingest.py *)

Section Ingest.
Context {L : PyLib}.

(** [x.lower()] on a decoded value: only a string has the method. *)
Definition lower_of (x : JSON) : result string :=
  match x with JStr s => Ok (Py.lower s) | _ => Raise AttributeError end.

(** A field declared [Optional[str]], as pydantic 2 validates it. *)
Definition optional_str (x : JSON) : result (option string) :=
  match x with
  | JNull => Ok None
  | JStr s => Ok (Some s)
  | _ => Raise ValidationError
  end.

Definition _map_component_to_partspec (component : JSON) (index : nat)
  : result PartSpec :=
  let* cid := Json.get_default component "id" (JStr ("U" +:+ pretty (index + 1)%nat)) in
  let* cat := Json.get component "category" in
  let* category := lower_of (Json.or_else cat (JStr "")) in
  let* value := Json.get component "value" in
  let cid_s := @py_str L cid in
  let '(type_guess, symbol_guess) :=
    if String.eqb category "passive" then
      if Py.startswith (Py.upper cid_s) "C" then ("C", Some "Device:C")
      else if Py.startswith (Py.upper cid_s) "R" then ("R", Some "Device:R")
      else ("R", Some "Device:R")
    else if Py.mem category ["microcontroller"; "processor"; "mcu"] then
      ("MCU", Some "Device:U")
    else if Py.mem category ["sensor"; "power-protection"; "power-supply"] then
      ("U", Some "Device:U")
    else if String.eqb category "connector" then
      ("Conn", Some "Connector_Generic:Conn_01x02")
    else ("U", None) in
  let* value := optional_str value in
  Ok {| ref := cid_s; type := type_guess; symbol := symbol_guess; value := value;
        pins := []; position := None; rotation := Some 0 |}.

(** The test and the two updates of the net loops:
    [isinstance(name, str) and name and name not in seen]. *)
Definition add_net (acc : list NetSpec * gset string) (name : JSON)
  : list NetSpec * gset string :=
  let '(nets, seen) := acc in
  match name with
  | JStr s =>
      if Py.truthy s && negb (bool_decide (s ∈ seen))
      then (nets ++ [ {| name := s |} ], {[s]} ∪ seen)
      else acc
  | _ => acc
  end.

Definition _convert_pseudo_cad_schema (data : JSON) : result CircuitSpec :=
  let* device := Json.get_default data "device" (JObj []) in
  let* device_name := Json.get device "name" in
  let title := Json.or_else device_name (JStr "Untitled") in
  let* components := Json.get_default data "components" (JArr []) in
  let* components := Json.iter components in
  let parts :=
    fold_left
      (fun parts (ic : nat * JSON) =>
         match _map_component_to_partspec (snd ic) (fst ic) with
         | Ok p => parts ++ [p]
         | Raise _ => parts
         end)
      (imap (fun idx comp => (idx, comp)) components) [] in
  let* net_items := Json.get_default data "nets" (JArr []) in
  let* net_items := Json.iter net_items in
  let* acc :=
    rfold
      (fun acc n =>
         rfold (fun acc key => let* name := Json.get n key in Ok (add_net acc name))
               ["id"; "name"] acc)
      net_items ([], ∅) in
  let* domains := Json.get_default data "powerDomains" (JArr []) in
  let* domains := Json.iter domains in
  let* acc :=
    rfold (fun acc pd => let* name := Json.get pd "name" in Ok (add_net acc name))
          domains acc in
  let '(nets, seen) := acc in
  let nets :=
    if negb (bool_decide ("GND" ∈ seen)) then nets ++ [ {| name := "GND" |} ] else nets in
  let* title := optional_str title in
  Ok {| title := title; parts := parts; nets := nets |}.

Definition default_circuit : CircuitSpec :=
  {| title := Some "Untitled"; parts := []; nets := [] |}.

Definition load_circuit_spec (files : gmap string string) (path : string)
  : result CircuitSpec :=
  let* raw_text := read_text files path in
  match json_loads raw_text with
  | None => Raise JSONDecodeError
  | Some raw =>
      match raw with
      | JObj kv =>
          if Json.has_key "components" kv then _convert_pseudo_cad_schema raw
          else if Json.has_key "parts" kv || Json.has_key "nets" kv then circuit_of_dict kv
          else Ok default_circuit
      | _ => Ok default_circuit
      end
  end.

Definition read_json_text (files : gmap string string) (path : string) : result string :=
  read_text files path.

End Ingest.

(** ** kicad/erc.py *)

Fixpoint int_of_digits (acc : Z) (s : string) : Z :=
  match s with
  | EmptyString => acc
  | String c r => int_of_digits (10 * acc + (Z.of_nat (nat_of_ascii c) - 48)) r
  end.

(** [int(s)] on a text of decimal digits: CPython refuses to convert more
    than 4300 of them ([sys.int_info.default_max_str_digits]). *)
Definition int_of_text (s : string) : result Z :=
  if (4300 <? String.length s)%nat then Raise ValueError
  else Ok (int_of_digits 0 s).

Definition parse_erc_violations (output_text : string) : Z :=
  if negb (Py.truthy output_text) then 0
  else
    match Re.search true Pat.found_violations output_text with
    | Some m => try_except (int_of_text (default "" (Re.group 1 (Re.m_groups m)))) 0
    | None => 0
    end.

Section Erc.
Context {L : PyLib} {W : World}.

Definition run_erc (iteration : nat) (schematic_path : string)
  : option CompletedProcess :=
  if negb (kicad_cli iteration) then None
  else erc_text_run iteration schematic_path.

(** The process and the decoded report; the name of the temporary file, which
    no caller reads, is left out. *)
Definition run_erc_with_json (iteration : nat) (schematic_path : string)
  : option CompletedProcess * JSON :=
  if negb (kicad_cli iteration) then (None, JNull)
  else
    match erc_json_run iteration schematic_path with
    | Some (proc, data) => (Some proc, data)
    | None => (None, JNull)
    end.

(** [designator = ref.get("ref") or ref.get("uuid") or ""] *)
Definition designator_of (r : JSON) : result JSON :=
  let* a := Json.get r "ref" in
  if Json.truthy a then Ok a
  else
    let* b := Json.get r "uuid" in
    Ok (Json.or_else b (JStr "")).

(** [",".join([r for r in refs if r])]: every item has to be a string. *)
Definition join_truthy (refs : list JSON) : result string :=
  let* l :=
    rmapM (fun r => match r with JStr t => Ok t | _ => Raise TypeError end)
          (List.filter Json.truthy refs) in
  Ok (String.concat "," l).

Definition summarize_erc_json (data : JSON) (max_items : nat) : result (list string) :=
  let lines := [] in
  if negb (Json.truthy data) then Ok lines
  else
    let* v := Json.get data "violations" in
    let violations := Json.or_else v (JArr []) in
    let* n := Json.len violations in
    let lines := lines ++ ["ERC JSON violations: " +:+ pretty n] in
    let* shown := Json.take max_items violations in
    let* shown := Json.iter shown in
    rfold
      (fun lines v =>
         let* sev := Json.get_default v "severity" (JStr "?") in
         let* msg := Json.get_default v "message" (JStr "") in
         let* rs := Json.get_default v "references" (JArr []) in
         let* rs := Json.iter (Json.or_else rs (JArr [])) in
         let* refs := rmapM designator_of rs in
         let* where_ := join_truthy refs in
         Ok (lines ++ ["- " +:+ py_str sev +:+ ": " +:+ py_str msg
                       +:+ " [" +:+ where_ +:+ "]"]))
      shown lines.

End Erc.

(** ** agents/orchestrator.py *)

(** What a run mutates: the files, the writer object and the lines handed to
    the progress callback. *)
Record Store := {
  files : gmap string string;
  gpt_generator : GptSchematicWriter;
  progress : list string
}.

(** A computation on the store that returns or raises. *)
Definition M (A : Type) : Type := Store -> result A * Store.

Definition ret {A} (a : A) : M A := fun st => (Ok a, st).
Definition bind {A B} (m : M A) (f : A -> M B) : M B :=
  fun st =>
    match m st with
    | (Ok a, st') => f a st'
    | (Raise e, st') => (Raise e, st')
    end.
Definition lift {A} (r : result A) : M A := fun st => (r, st).
Definition get_store : M Store := fun st => (Ok st, st).

Notation "x <- c1 ;; c2" := (bind c1 (fun x => c2))
  (at level 100, c1 at next level, right associativity).
Notation "c1 ;;; c2" := (bind c1 (fun _ => c2))
  (at level 100, right associativity).

Section Progress.
Context {W : World}.

(** [_emit]: the callback, when there is one, receives the line; what it
    raises goes through.  [progress_cb] says that a callback was given, and
    [progress] keeps the lines it returned from. *)
Definition _emit (progress_cb : bool) (msg : string) : M unit :=
  fun st =>
    if progress_cb then
      match progress_call (progress st) msg with
      | None =>
          (Ok tt,
           {| files := files st; gpt_generator := gpt_generator st;
              progress := progress st ++ [msg] |})
      | Some e => (Raise e, st)
      end
    else (Ok tt, st).

Fixpoint emit_all (progress_cb : bool) (lines : list string) : M unit :=
  match lines with
  | [] => ret tt
  | l :: r => _emit progress_cb l ;;; emit_all progress_cb r
  end.

End Progress.

(** The locals the loop carries from one iteration to the next and leaves
    behind. *)
Record Locals := {
  prev_text : option string;
  issues : list string;
  erc_rc : option Z;
  erc_violations : option Z;
  erc_summary_lines : list string
}.

(** What is fixed before the loop starts. *)
Record Setup := {
  raw_text : string;
  allowed : list (string * list string);
  expected_refs : list string;
  validator : ValidatorAgent;
  reference_text : option string;
  sch_path : string
}.

(** [s.split("/")], with [cur] the component being read. *)
Fixpoint path_components (cur s : string) : list string :=
  match s with
  | EmptyString => [cur]
  | String c r =>
      if Ascii.eqb c "/" then cur :: path_components "" r
      else path_components (cur +:+ String c "") r
  end.

(** [str(PurePosixPath(s))]: the root is kept (two leading slashes are a root
    of their own, three or more are one), empty components and [.] are
    dropped, and the empty path is [.]. *)
Definition posix_str (s : string) : string :=
  let root :=
    if Py.startswith s "//" && negb (Py.startswith s "///") then "//"
    else if Py.startswith s "/" then "/"
    else "" in
  let parts :=
    List.filter (fun x => Py.truthy x && negb (String.eqb x "."))
                (path_components "" s) in
  Py.or_else (root +:+ String.concat "/" parts) ".".

(** [str(a / b)] on paths: an absolute [b] replaces [a]. *)
Definition path_join (a b : string) : string :=
  posix_str
    (if Py.startswith b "/" then b
     else if negb (Py.truthy a) || Py.endswith a "/" then a +:+ b
     else a +:+ "/" +:+ b).

(** [s.replace(' ', '_')] *)
Definition spaces_to_underscores : string -> string :=
  Py.smap (fun c => if Ascii.eqb c " " then "_"%char else c).

(** The acceptance test of line 142. *)
Definition accepted (issues : list string) (erc_rc erc_violations : option Z) : bool :=
  match issues with [] => true | _ => false end
  && match erc_rc with Some rc => rc =? 0 | None => false end
  && match erc_violations with Some v => v =? 0 | None => false end.

Section Orchestrator.
Context {L : PyLib} {W : World}.

(** Lines 81 to 93: the writer persists a document, which is read back.
    [write] above is the call on a file system that lets it through; the two
    steps of it that can raise are decided here, where the call is made:
    the [mkdir] of the dump directory, which comes after the counter is
    moved and before the service is asked, and the writing of the output,
    which comes last. *)
Definition generating (cfg : Setup) (loc : Locals) : M (option string) :=
  fun st =>
    let self := gpt_generator st in
    let n := S (_iter_counter self) in
    match debug_dir_mkdir n (sch_path cfg) with
    | Raise e =>
        (Raise e,
         {| files := files st;
            gpt_generator := {| _history := _history self; _iter_counter := n |};
            progress := progress st |})
    | Ok _ =>
        let '(g, f) :=
          write self (files st) (raw_text cfg) (allowed cfg) (sch_path cfg)
                (prev_text loc) (Some (issues loc)) (reference_text cfg) in
        match output_write_text n (sch_path cfg) with
        | Raise e =>
            (Raise e, {| files := files st; gpt_generator := g; progress := progress st |})
        | Ok _ =>
            (Ok (f !! sch_path cfg),
             {| files := f; gpt_generator := g; progress := progress st |})
        end
    end.

(** Lines 95 to 113: the consistency checker, then the cross-check that every
    expected reference is placed. *)
Definition checking (cfg : Setup) (progress_cb : bool) (iteration : nat)
  (prev_text : option string) : M (list string) :=
  _emit progress_cb "GPT Validator: checking KiCad 9 compliance and layout..." ;;;
  st <- get_store ;;
  issues <- lift (validate (validator cfg) iteration (files st) (sch_path cfg)) ;;
  match issues with
  | _ :: _ => emit_all progress_cb (map (fun iss => "Issue: " +:+ iss) issues)
  | [] => _emit progress_cb "No issues detected by GPT validator."
  end ;;;
  let missing_refs :=
    match prev_text with
    | Some t =>
        if Py.truthy t then
          let found_refs := Re.findall1 Pat.reference t in
          List.filter (fun r => negb (Py.mem r found_refs)) (expected_refs cfg)
        else []
    | None => []
    end in
  match missing_refs with
  | _ :: _ =>
      let msg := "Missing placed instances for refs: " +:+ String.concat ", " missing_refs in
      _emit progress_cb msg ;;;
      ret (issues ++ [msg])
  | [] => ret issues
  end.

(** Lines 115 to 140: exit status, violation count and summary lines. *)
Definition rule_checking (cfg : Setup) (progress_cb : bool) (iteration : nat)
  : M (option Z * option Z * list string) :=
  _emit progress_cb "Running ERC (JSON, if available)..." ;;;
  let '(erc_proc, erc_json) := run_erc_with_json iteration (sch_path cfg) in
  r <- match erc_proc with
       | Some proc =>
           lines <- lift (summarize_erc_json erc_json 15) ;;
           emit_all progress_cb lines ;;;
           ret (Some (returncode proc), None, lines)
       | None =>
           match run_erc iteration (sch_path cfg) with
           | Some erc =>
               let rc := returncode erc in
               let count :=
                 parse_erc_violations (stdout erc +:+ String Py.nl "" +:+ stderr erc) in
               _emit progress_cb ("ERC exit code: " +:+ pretty rc) ;;;
               (if Py.truthy (stdout erc)
                then _emit progress_cb (Py.strip (stdout erc)) else ret tt) ;;;
               (if Py.truthy (stderr erc)
                then _emit progress_cb (Py.strip (stderr erc)) else ret tt) ;;;
               ret (Some rc, Some count, [])
           | None => ret (None, None, [])
           end
       end ;;
  let '(erc_rc, erc_violations, erc_summary_lines) := r in
  let erc_violations :=
    match erc_json, erc_violations with
    | JNull, _ => erc_violations
    | _, Some _ => erc_violations
    | _, None =>
        try_except
          (let* v := Json.get erc_json "violations" in
           let* n := Json.len (Json.or_else v (JArr [])) in
           Ok (Some n))
          None
    end in
  ret (erc_rc, erc_violations, erc_summary_lines).

(** Lines 146 to 153: the feedback record, added to the history. *)
Definition feedback (loc : Locals) : JSON :=
  let fb := [("validator_feedback", Json.of_strings (issues loc))] in
  let fb :=
    match erc_rc loc with
    | Some rc => Json.dict_set "erc_returncode" (JInt rc) fb
    | None => fb
    end in
  let fb :=
    match erc_violations loc with
    | Some v => Json.dict_set "erc_violations" (JInt v) fb
    | None => fb
    end in
  let fb :=
    match erc_summary_lines loc with
    | _ :: _ => Json.dict_set "erc_summary" (Json.of_strings (erc_summary_lines loc)) fb
    | [] => fb
    end in
  JObj fb.

Definition add_feedback (loc : Locals) : M unit :=
  fun st =>
    (Ok tt,
     {| files := files st;
        gpt_generator := _add_history (gpt_generator st) "user" (json_dumps (feedback loc));
        progress := progress st |}).

(** The body of the loop; the flag says that the iteration left by [break]. *)
Definition iteration_body (cfg : Setup) (progress_cb : bool) (iteration : nat)
  (loc : Locals) : M (bool * Locals) :=
  _emit progress_cb
    ("GPT Generator: writing schematic (iteration " +:+ pretty iteration
     +:+ ") from LLD JSON + RAG...") ;;;
  prev <- generating cfg loc ;;
  found <- checking cfg progress_cb iteration prev ;;
  r <- rule_checking cfg progress_cb iteration ;;
  let '(rc, violations, summary) := r in
  let loc' :=
    {| prev_text := prev; issues := found; erc_rc := rc;
       erc_violations := violations; erc_summary_lines := summary |} in
  if accepted found rc violations then
    _emit progress_cb "Schematic accepted (no GPT issues, ERC exit 0, violations 0)." ;;;
    ret (true, loc')
  else
    add_feedback loc' ;;;
    ret (false, loc').

(** [for iteration in range(first, first + n)] *)
Fixpoint iterate (cfg : Setup) (progress_cb : bool) (n : nat) (iteration : nat)
  (loc : Locals) : M (bool * Locals) :=
  match n with
  | O => ret (false, loc)
  | S n' =>
      r <- iteration_body cfg progress_cb iteration loc ;;
      if fst r then ret r
      else iterate cfg progress_cb n' (S iteration) (snd r)
  end.

Definition first_locals : Locals :=
  {| prev_text := None; issues := []; erc_rc := None; erc_violations := None;
     erc_summary_lines := [] |}.

(** Lines 30 to 77.  Clearing [gpt_debug], which is guarded, is left out
    with the dumps; [GptSchematicWriter()] builds a client, and so does
    [ValidatorAgent(use_llm=True)]. *)
Definition setup (json_path out_dir : string) (validator_use_llm : bool) : M Setup :=
  lift (out_dir_mkdir out_dir) ;;;
  st <- get_store ;;
  circuit <- lift (load_circuit_spec (files st) json_path) ;;
  raw <- lift (read_json_text (files st) json_path) ;;
  let allowed := candidates_for_parts (parts circuit) 10 in
  lift new_llm_client ;;;
  (if validator_use_llm then lift new_llm_client else ret tt) ;;;
  let reference_text :=
    match files st !! "kicad_sch_min_symbol_template.kicad_sch" with
    | Some t => Some t
    | None =>
        match files st !! path_join out_dir "demo_project.kicad_sch" with
        | Some t => Some t
        | None => files st !! "output/demo_project.kicad_sch"
        end
    end in
  let name :=
    spaces_to_underscores
      (match title circuit with
       | Some t => Py.or_else t "design"
       | None => "design"
       end) +:+ ".kicad_sch" in
  (fun st =>
     (Ok {| raw_text := raw; allowed := allowed; expected_refs := map fst allowed;
            validator := {| use_llm := validator_use_llm |};
            reference_text := reference_text;
            sch_path := path_join out_dir name |},
      {| files := files st; gpt_generator := new_writer; progress := progress st |})).

Definition run_orchestration (json_path out_dir : string) (max_iters : Z)
  (progress_cb : bool) (validator_use_llm : bool) : M string :=
  cfg <- setup json_path out_dir validator_use_llm ;;
  iterate cfg progress_cb (Z.to_nat max_iters) 1 first_locals ;;;
  ret (sch_path cfg).

End Orchestrator.

(** ** kicad/library.py: the catalog and the resolution of one identifier *)






(** [lib in index and sym in index[lib]] *)
Definition in_index (index : list (string * list string)) (lib sym : string) : bool :=
  match Json.assoc lib index with
  | Some names => Py.mem sym names
  | None => false
  end.

Section Library.
Context {W : World}.

Definition resolve_lib_id (preferred : option string) (part_type : string)
  (value : option string) : string :=
  let qualified :=
    match preferred with
    | Some p => Py.truthy p && Py.contains ":" p
    | None => false
    end in
  if qualified then default "" preferred
  else
    let index := symbol_index in
    let candidates := [] in
    let t := Py.upper part_type in
    let candidates :=
      if String.eqb t "R" then candidates ++ [("Device", "R")]
      else if String.eqb t "C" then candidates ++ [("Device", "C")]
      else if Py.mem t ["L"] then candidates ++ [("Device", "L")]
      else if Py.mem t ["LED"] then candidates ++ [("Device", "LED")]
      else if Py.mem t ["CONN"; "CONNECTOR"] then
        candidates ++ map (fun sym => ("Connector_Generic", sym))
                          ["Conn_01x02"; "Conn_01x03"; "Conn_01x04"]
      else if Py.mem t ["MCU"; "U"] then candidates ++ [("Device", "U")]
      else candidates in
    let candidates :=
      match value with
      | Some v =>
          if Py.truthy v
          then candidates ++ map (fun lib => (lib, v)) ["Device"; "Connector_Generic"]
          else candidates
      | None => candidates
      end in
    match List.find (fun ls : string * string => in_index index (fst ls) (snd ls))
                    candidates with
    | Some (lib, sym) => lib +:+ ":" +:+ sym
    | None =>
        match preferred with
        | Some p =>
            if Py.truthy p && in_index index "Device" p then "Device" +:+ ":" +:+ p
            else "Device:Unknown"
        | None => "Device:Unknown"
        end
    end.

End Library.

(** ** agents/architect_agent.py *)

Module Design.

(** [True] and [False] are integers too: what [isinstance(rot, int)] lets
    through is kept as it is. *)
Inductive int_or_bool : Type :=
| Int (n : Z)
| Bool (b : bool).

(** [core/models.py]: [PlacedPart] and [GeneratedDesign]. *)
Record PlacedPart := {
  ref : string;
  symbol : string;
  value : option string;
  position : Z * Z;
  rotation : int_or_bool;
  pins : list (string * string);
  bbox : Z * Z * Z * Z
}.

Record GeneratedDesign := {
  title : string;
  parts : list PlacedPart;
  nets : list string
}.

End Design.

Module Architect.
Record ArchitectAgent := { use_llm : bool }.
End Architect.

Definition DEFAULT_SYMBOL_MAP : list (string * string) :=
  [("R", "Device:R"); ("C", "Device:C"); ("L", "Device:L"); ("LED", "Device:LED");
   ("D", "Device:D"); ("Q", "Device:Q_NPN_BCE"); ("U", "Device:U"); ("MCU", "Device:U");
   ("Conn", "Connector_Generic:Conn_01x04")].

(** [s.partition(":")] *)
Fixpoint partition_colon (s : string) : string * string * string :=
  match s with
  | EmptyString => ("", "", "")
  | String c r =>
      if Ascii.eqb c ":" then ("", ":", r)
      else let '(head, sep, tail) := partition_colon r in (String c head, sep, tail)
  end.

Definition _grid_position (index : nat) : Z * Z :=
  let cols := 6 in
  let spacing_x := 30 in
  let spacing_y := 25 in
  let margin_x := 50 in
  let margin_y := 50 in
  let x := margin_x + (Z.of_nat index mod cols) * spacing_x in
  let y := margin_y + (Z.of_nat index / cols) * spacing_y in
  (x, y).

(** [bool(x)] and the JSON value of a rotation. *)
Definition rotation_json (r : Design.int_or_bool) : JSON :=
  match r with Design.Int n => JInt n | Design.Bool b => JBool b end.

(** The unknown-net issue quotes the net between apostrophes. *)
Definition apostrophe : string := "'".

(** The heuristic fallback of [revise_design]: parts are moved apart when an
    issue mentions an overlap, and nets that an issue calls unknown are
    added. *)
Definition shift_parts (parts : list Design.PlacedPart) : list Design.PlacedPart :=
  imap
    (fun idx part =>
       let '(x, y) := Design.position part in
       let nx := x + (Z.of_nat idx mod 3) * 10 in
       let ny := y + (Z.of_nat idx mod 3) * 8 in
       let '(bx, by_, bw, bh) := Design.bbox part in
       {| Design.ref := Design.ref part; Design.symbol := Design.symbol part;
          Design.value := Design.value part; Design.position := (nx, ny);
          Design.rotation := Design.rotation part; Design.pins := Design.pins part;
          Design.bbox := (nx - bw / 2, ny - bh / 2, bw, bh) |})
    parts.

Definition add_unknown_nets (issues : list string) (nets : list string) : list string :=
  fold_left
    (fun nets iss =>
       if Py.contains "unknown net" (Py.lower iss) then
         let start := Py.find iss apostrophe in
         let end_ := Py.rfind iss apostrophe in
         if (0 <=? start) && (start <? end_) then
           let net := Py.slice iss (start + 1) end_ in
           if Py.truthy net && negb (Py.mem net nets) then nets ++ [net] else nets
         else nets
       else nets)
    issues nets.

Definition heuristic_revision (updated : Design.GeneratedDesign) (issues : list string)
  : Design.GeneratedDesign :=
  let any_overlap := existsb (fun i => Py.contains "overlap" (Py.lower i)) issues in
  let parts := if any_overlap then shift_parts (Design.parts updated)
               else Design.parts updated in
  {| Design.title := Design.title updated; Design.parts := parts;
     Design.nets := add_unknown_nets issues (Design.nets updated) |}.

(** An item of the reply's [parts] that the dict comprehension keeps, and
    whether its key can be hashed. *)
Definition is_entry (p : JSON) : bool :=
  match p with JObj kv => Json.has_key "ref" kv | _ => false end.

Definition hashable_ref (p : JSON) : bool :=
  match p with
  | JObj kv =>
      match Json.assoc "ref" kv with
      | Some (JArr _) | Some (JObj _) => false
      | _ => true
      end
  | _ => true
  end.

(** [by_ref.get(r)] for a string [r]: the last kept item whose [ref] is [r]. *)
Definition entry_for (entries : list JSON) (r : string) : option (list (string * JSON)) :=
  fold_left
    (fun found p =>
       match p with
       | JObj kv =>
           match Json.assoc "ref" kv with
           | Some (JStr s) => if String.eqb s r then Some kv else found
           | _ => found
           end
       | _ => found
       end)
    entries None.

Section Architect.
Context {L : PyLib} {W : World}.

(** [int(x)] on a decoded value. *)
Variable int_of : JSON -> result Z.

(** [self.llm.chat(prompt, temperature=0.1, max_tokens=900)]; [None] when it
    raises. *)
Variable architect_chat : list Message -> option string.

Definition _choose_symbol (part_type : string) (fallback_symbol : option string)
  (value : option string) : string :=
  let given := match fallback_symbol with Some f => Py.truthy f | None => false end in
  if given then resolve_lib_id fallback_symbol part_type value
  else
    let guess := default "Device:U" (Json.assoc part_type DEFAULT_SYMBOL_MAP) in
    let '(lib, _, sym) := partition_colon guess in
    resolve_lib_id (if Py.truthy sym then Some sym else None) part_type value.

Definition _extract_json (text : string) : option JSON :=
  if negb (Py.truthy text) then None
  else
    let start := Py.find text "{" in
    let end_ := Py.rfind text "}" in
    if negb (start =? -1) && negb (end_ =? -1) && (start <? end_)
    then json_loads (Py.slice text start (end_ + 1))
    else None.

(** The body of the loop over the parts, for a part the reply has an entry
    for. *)
Definition apply_entry (entry : list (string * JSON))
  (allowed_by_ref : list (string * list string)) (p : Design.PlacedPart)
  : result Design.PlacedPart :=
  let get k := default JNull (Json.assoc k entry) in
  let sel := Json.or_else (get "lib_id") (get "symbol") in
  let allowed := default [] (Json.assoc (Design.ref p) allowed_by_ref) in
  let symbol :=
    match allowed with
    | first :: _ =>
        match sel with
        | JStr s => if Py.mem s allowed then s else first
        | _ => first
        end
    | [] =>
        match sel with
        | JStr s => s
        | _ => Design.symbol p
        end
    end in
  let pos := Json.or_else (get "position") (get "pos") in
  let* placed :=
    match pos with
    | JArr [a; b] =>
        let* x := int_of a in
        let* y := int_of b in
        let '(bx, by_, bw, bh) := Design.bbox p in
        let '(bw, bh) := if (bw =? 0) || (bh =? 0) then (18, 10) else (bw, bh) in
        Ok ((x, y), (x - bw / 2, y - bh / 2, bw, bh))
    | _ => Ok (Design.position p, Design.bbox p)
    end in
  let rot := Json.or_else (get "rotation") (get "rot") in
  let rotation :=
    match rot with
    | JInt n => Design.Int n
    | JBool b => Design.Bool b
    | _ => Design.rotation p
    end in
  Ok {| Design.ref := Design.ref p; Design.symbol := symbol;
        Design.value := Design.value p; Design.position := fst placed;
        Design.rotation := rotation; Design.pins := Design.pins p;
        Design.bbox := snd placed |}.

Definition _apply_positions_and_symbols_from_json (design : Design.GeneratedDesign)
  (data : JSON) (allowed_by_ref : list (string * list string))
  : result Design.GeneratedDesign :=
  let* listed := Json.get_default data "parts" (JArr []) in
  let* items := Json.iter listed in
  let entries := List.filter is_entry items in
  if negb (forallb hashable_ref entries) then Raise TypeError
  else
    let* parts :=
      rmapM
        (fun p =>
           match entry_for entries (Design.ref p) with
           | Some entry => apply_entry entry allowed_by_ref p
           | None => Ok p
           end)
        (Design.parts design) in
    let* nets := Json.get data "nets" in
    let nets :=
      match nets with
      | JArr l =>
          fold_left
            (fun acc n =>
               match n with
               | JStr s => if Py.mem s acc then acc else acc ++ [s]
               | _ => acc
               end)
            l (Design.nets design)
      | _ => Design.nets design
      end in
    Ok {| Design.title := Design.title design; Design.parts := parts;
          Design.nets := nets |}.

Definition _base_design (circuit : CircuitSpec) : Design.GeneratedDesign :=
  let placed_parts :=
    imap
      (fun idx part =>
         let position :=
           match position part with
           | Some p => p
           | None => _grid_position idx
           end in
         let symbol := _choose_symbol (type part) (symbol part) (value part) in
         let bbox_w := 18 in
         let bbox_h := 10 in
         let bbox := (fst position - bbox_w / 2, snd position - bbox_h / 2, bbox_w, bbox_h) in
         {| Design.ref := ref part; Design.symbol := symbol; Design.value := value part;
            Design.position := position;
            Design.rotation := Design.Int (default 0 (rotation part));
            Design.pins := pins part; Design.bbox := bbox |})
      (parts circuit) in
  let nets := map name (nets circuit) in
  let nets :=
    fold_left
      (fun nets p =>
         fold_left
           (fun nets net =>
              if Py.truthy net && negb (Py.mem net nets) then nets ++ [net] else nets)
           (map snd (Design.pins p)) nets)
      placed_parts nets in
  {| Design.title :=
       match title circuit with
       | Some t => Py.or_else t "Untitled"
       | None => "Untitled"
       end;
     Design.parts := placed_parts; Design.nets := nets |}.

(** What the prompts say of a part. *)
Definition part_json (allowed : list (string * list string)) (p : Design.PlacedPart)
  : JSON :=
  JObj [("ref", JStr (Design.ref p));
        ("current_lib_id", JStr (Design.symbol p));
        ("value", match Design.value p with Some v => JStr v | None => JNull end);
        ("position", JArr [JInt (fst (Design.position p)); JInt (snd (Design.position p))]);
        ("rotation", rotation_json (Design.rotation p));
        ("allowed", Json.of_strings (default [] (Json.assoc (Design.ref p) allowed)))].

Definition produce_system : string :=
  unlines [
    "You are an EDA assistant. Choose a valid KiCad 9 symbol from the allowed list for each part and improve placement.";
    "Return ONLY JSON with key 'parts': array of objects {ref, lib_id, position:[x,y], rotation?}."
  ] +:+ "Rules: lib_id MUST be one of the allowed candidates for that ref. Do not invent symbols.".

Definition revise_system : string :=
  unlines [
    "You are an EDA assistant. Fix reported issues by adjusting positions and selecting ONLY allowed KiCad symbols."
  ] +:+ "Return ONLY JSON: {parts:[{ref, lib_id, position:[x,y], rotation?}], nets?:string[]}.".

(** The [try] block the two methods share: the reply of the service, the
    object found in it and its application; [None] when any of them fails or
    the object is empty. *)
Definition from_reply (prompt : list Message) (design : Design.GeneratedDesign)
  (allowed : list (string * list string)) : option Design.GeneratedDesign :=
  match architect_chat prompt with
  | None => None
  | Some reply =>
      match _extract_json reply with
      | Some data =>
          if Json.truthy data then
            match _apply_positions_and_symbols_from_json design data allowed with
            | Ok d => Some d
            | Raise _ => None
            end
          else None
      | None => None
      end
  end.

Definition produce_design (self : Architect.ArchitectAgent) (circuit : CircuitSpec)
  : Design.GeneratedDesign :=
  let base := _base_design circuit in
  if negb (Architect.use_llm self) then base
  else
    let allowed := candidates_for_parts (parts circuit) 5 in
    let prompt :=
      [ {| role := "system"; content := produce_system |};
        {| role := "user";
           content :=
             json_dumps
               (JObj [("title", JStr (Design.title base));
                      ("parts", JArr (map (part_json allowed) (Design.parts base)))]) |} ] in
    default base (from_reply prompt base allowed).

Definition revise_design (self : Architect.ArchitectAgent)
  (design : Design.GeneratedDesign) (issues : list string) : Design.GeneratedDesign :=
  let updated := design in
  let revised :=
    if Architect.use_llm self then
      let dummy_parts :=
        map (fun p => {| ref := Design.ref p; type := ""; symbol := None;
                         value := Design.value p; pins := []; position := None;
                         rotation := None |})
            (Design.parts updated) in
      let allowed := candidates_for_parts dummy_parts 5 in
      let prompt :=
        [ {| role := "system"; content := revise_system |};
          {| role := "user";
             content :=
               json_dumps
                 (JObj [("issues", Json.of_strings issues);
                        ("current",
                         JObj [("title", JStr (Design.title updated));
                               ("parts", JArr (map (part_json allowed) (Design.parts updated)));
                               ("nets", Json.of_strings (Design.nets updated))])]) |} ] in
      from_reply prompt updated allowed
    else None in
  match revised with
  | Some d => d
  | None => heuristic_revision updated issues
  end.

End Architect.

(** ** Stand-ins for the examples

    A codec for the JSON texts the examples use (objects, arrays, strings
    with the short escapes, integers and the three literals; anything else
    is refused), [float] for plain decimals of at most fifteen digits, and
    the validation of the native shape for string fields. *)

Module Demo.

Definition json_space (c : ascii) : bool :=
  Ascii.eqb c " " || Py.in_range 9 10 c || Py.in_range 13 13 c.

Fixpoint skip_ws (s : list ascii) : list ascii :=
  match s with
  | c :: r => if json_space c then skip_ws r else s
  | [] => []
  end.

Fixpoint span (p : ascii -> bool) (s : list ascii) : list ascii * list ascii :=
  match s with
  | c :: r => if p c then let '(a, b) := span p r in (c :: a, b) else ([], s)
  | [] => ([], [])
  end.

(** The characters of a string up to its closing quote. *)
Fixpoint string_body (s : list ascii) : option (string * list ascii) :=
  match s with
  | [] => None
  | c :: r =>
      if Ascii.eqb c Py.dq then Some ("", r)
      else if Ascii.eqb c "\" then
        match r with
        | e :: r' =>
            let out :=
              if Ascii.eqb e "n" then Some Py.nl
              else if Ascii.eqb e "t" then Some "009"%char
              else if Ascii.eqb e "r" then Some "013"%char
              else if Ascii.eqb e Py.dq || Ascii.eqb e "\" || Ascii.eqb e "/" then Some e
              else None in
            match out, string_body r' with
            | Some o, Some (t, rest) => Some (String o t, rest)
            | _, _ => None
            end
        | [] => None
        end
      else if (nat_of_ascii c <? 32)%nat then None
      else
        match string_body r with
        | Some (t, rest) => Some (String c t, rest)
        | None => None
        end
  end.

Definition integer (neg : bool) (s : list ascii) : option (JSON * list ascii) :=
  let '(ds, rest) := span Py.isdigit s in
  let follows :=
    match rest with
    | c :: _ => Ascii.eqb c "." || Ascii.eqb c "e" || Ascii.eqb c "E"
    | [] => false
    end in
  match ds with
  | [] => None
  | d :: more =>
      if follows || (Ascii.eqb d "0" && match more with [] => false | _ => true end)
      then None
      else
        let n := int_of_digits 0 (string_of_list_ascii ds) in
        Some (JInt (if neg then - n else n), rest)
  end.

Definition literal (word : string) (v : JSON) (s : list ascii)
  : option (JSON * list ascii) :=
  let w := list_ascii_of_string word in
  if String.prefix word (string_of_list_ascii s)
  then Some (v, skipn (length w) s) else None.

Fixpoint decode_value (fuel : nat) (s : list ascii) : option (JSON * list ascii) :=
  match fuel with
  | O => None
  | S f =>
      match skip_ws s with
      | [] => None
      | c :: r =>
          if Ascii.eqb c Py.dq then
            match string_body r with
            | Some (t, rest) => Some (JStr t, rest)
            | None => None
            end
          else if Ascii.eqb c "[" then
            match skip_ws r with
            | c' :: r' =>
                if Ascii.eqb c' "]" then Some (JArr [], r') else decode_items f r []
            | [] => None
            end
          else if Ascii.eqb c "{" then
            match skip_ws r with
            | c' :: r' =>
                if Ascii.eqb c' "}" then Some (JObj [], r') else decode_members f r []
            | [] => None
            end
          else if Ascii.eqb c "-" then integer true r
          else if Py.isdigit c then integer false (c :: r)
          else if Ascii.eqb c "n" then literal "null" JNull (c :: r)
          else if Ascii.eqb c "t" then literal "true" (JBool true) (c :: r)
          else if Ascii.eqb c "f" then literal "false" (JBool false) (c :: r)
          else None
      end
  end
with decode_items (fuel : nat) (s : list ascii) (acc : list JSON)
  : option (JSON * list ascii) :=
  match fuel with
  | O => None
  | S f =>
      match decode_value f s with
      | Some (v, r) =>
          match skip_ws r with
          | c :: r' =>
              if Ascii.eqb c "," then decode_items f r' (acc ++ [v])
              else if Ascii.eqb c "]" then Some (JArr (acc ++ [v]), r')
              else None
          | [] => None
          end
      | None => None
      end
  end
with decode_members (fuel : nat) (s : list ascii) (acc : list (string * JSON))
  : option (JSON * list ascii) :=
  match fuel with
  | O => None
  | S f =>
      match skip_ws s with
      | q :: r =>
          if Ascii.eqb q Py.dq then
            match string_body r with
            | Some (k, r1) =>
                match skip_ws r1 with
                | c :: r2 =>
                    if Ascii.eqb c ":" then
                      match decode_value f r2 with
                      | Some (v, r3) =>
                          match skip_ws r3 with
                          | c' :: r4 =>
                              if Ascii.eqb c' ","
                              then decode_members f r4 (Json.dict_set k v acc)
                              else if Ascii.eqb c' "}"
                              then Some (JObj (Json.dict_set k v acc), r4)
                              else None
                          | [] => None
                          end
                      | None => None
                      end
                    else None
                | [] => None
                end
            | None => None
            end
          else None
      | [] => None
      end
  end.

Definition loads (text : string) : option JSON :=
  let s := list_ascii_of_string text in
  match decode_value (S (length s)) s with
  | Some (v, rest) => match skip_ws rest with [] => Some v | _ => None end
  | None => None
  end.

Definition hex_digit (n : nat) : ascii :=
  if (n <? 10)%nat then ascii_of_nat (48 + n) else ascii_of_nat (87 + n).

Fixpoint escape (s : string) : string :=
  match s with
  | EmptyString => EmptyString
  | String c r =>
      let n := nat_of_ascii c in
      (if Ascii.eqb c Py.dq then String "\" (String Py.dq "")
       else if Ascii.eqb c "\" then "\\"
       else if (n =? 10)%nat then "\n"
       else if (n =? 13)%nat then "\r"
       else if (n =? 9)%nat then "\t"
       else if (n <? 32)%nat
       then "\u00" +:+ String (hex_digit (n / 16)) (String (hex_digit (n mod 16)) "")
       else String c "") +:+ escape r
  end.

Fixpoint dumps (x : JSON) : string :=
  match x with
  | JNull => "null"
  | JBool b => if b then "true" else "false"
  | JInt n => pretty n
  | JFloat _ => "NaN"
  | JStr s => Py.quoted (escape s)
  | JArr l => "[" +:+ String.concat ", " (map dumps l) +:+ "]"
  | JObj kv =>
      "{" +:+ String.concat ", "
                (map (fun p => Py.quoted (escape (fst p)) +:+ ": " +:+ dumps (snd p)) kv)
      +:+ "}"
  end.

Definition str (x : JSON) : string :=
  match x with
  | JNull => "None"
  | JBool b => if b then "True" else "False"
  | JInt n => pretty n
  | JStr s => s
  | _ => dumps x
  end.

Definition float_of_Z (n : Z) : float :=
  PrimFloat.of_uint63 (Uint63.of_Z n).

(** [float(s)] for [-?digits], [-?digits.digits], [-?digits.] and [-?.digits]. *)
Definition to_float (s : string) : option float :=
  let l := list_ascii_of_string s in
  let '(neg, l) :=
    match l with
    | c :: r => if Ascii.eqb c "-" then (true, r) else (false, l)
    | [] => (false, l)
    end in
  let '(ip, rest) := span Py.isdigit l in
  let frac :=
    match rest with
    | [] => Some []
    | c :: r =>
        if Ascii.eqb c "." then
          let '(fp, rest') := span Py.isdigit r in
          match rest' with [] => Some fp | _ => None end
        else None
    end in
  match frac with
  | None => None
  | Some fp =>
      if (length ip + length fp =? 0)%nat || (15 <? length ip + length fp)%nat then None
      else
        let m := int_of_digits 0 (string_of_list_ascii (ip ++ fp)) in
        let v := PrimFloat.div (float_of_Z m) (float_of_Z (10 ^ Z.of_nat (length fp))) in
        Some (if neg then PrimFloat.opp v else v)
  end.

Definition req_str (kv : list (string * JSON)) (k : string) : result string :=
  match Json.assoc k kv with
  | Some (JStr s) => Ok s
  | _ => Raise ValidationError
  end.

Definition opt_str (kv : list (string * JSON)) (k : string) : result (option string) :=
  match Json.assoc k kv with
  | None | Some JNull => Ok None
  | Some (JStr s) => Ok (Some s)
  | Some _ => Raise ValidationError
  end.

Definition items (kv : list (string * JSON)) (k : string) : result (list JSON) :=
  match Json.assoc k kv with
  | None => Ok []
  | Some (JArr l) => Ok l
  | Some _ => Raise ValidationError
  end.

Definition part_of (x : JSON) : result PartSpec :=
  match x with
  | JObj kv =>
      let* r := req_str kv "ref" in
      let* t := req_str kv "type" in
      let* sy := opt_str kv "symbol" in
      let* v := opt_str kv "value" in
      match Json.assoc "pins" kv, Json.assoc "position" kv, Json.assoc "rotation" kv with
      | None, None, None =>
          Ok {| ref := r; type := t; symbol := sy; value := v; pins := [];
                position := None; rotation := Some 0 |}
      | _, _, _ => Raise ValidationError
      end
  | _ => Raise ValidationError
  end.

Definition net_of (x : JSON) : result NetSpec :=
  match x with
  | JObj kv => let* n := req_str kv "name" in Ok {| name := n |}
  | _ => Raise ValidationError
  end.

Definition circuit (kv : list (string * JSON)) : result CircuitSpec :=
  let* t := opt_str kv "title" in
  let* ps := items kv "parts" in
  let* ps := rmapM part_of ps in
  let* ns := items kv "nets" in
  let* ns := rmapM net_of ns in
  Ok {| title := t; parts := ps; nets := ns |}.

Definition lib : PyLib :=
  {| json_loads := loads; json_dumps := dumps; float_of := to_float;
     str_of := str; circuit_of_dict := circuit |}.


(** No catalog, no similarity search, no completion service, no [kicad-cli]. *)
Definition offline : World :=
  {| symbol_index := [];
     chroma_query := fun _ _ _ => None;
     writer_chat := fun _ _ => None;
     validator_chat := fun _ _ => None;
     kicad_cli := fun _ => false;
     erc_json_run := fun _ _ => None;
     erc_text_run := fun _ _ => None;
     new_llm_client := Ok tt;
     out_dir_mkdir := fun _ => Ok tt;
     debug_dir_mkdir := fun _ _ => Ok tt;
     output_write_text := fun _ _ => Ok tt;
     progress_call := fun _ _ => None |}.

(** A small document the consistency checker has nothing to say about. *)
Definition clean_document : string :=
  "(kicad_sch (version 20250114) (generator eeschema) (sheet_instances))".




(** A catalog with the generic devices, and a similarity search that offers
    the generic IC first. *)
Definition bench : World :=
  {| symbol_index :=
       [("Device", ["R"; "C"; "LED"; "D"; "U"]);
        ("Connector_Generic", ["Conn_01x02"; "Conn_01x04"]);
        ("RF_Module", ["ESP32-WROOM-32"])];
     chroma_query := fun _ _ _ =>
       Some [ {| document := Some ("(symbol " +:+ Py.quoted "U" +:+ " (symbol "
                                   +:+ Py.quoted "NE555" +:+ ")");
                 metadata_lib := Some (Some "Device") |} ];
     writer_chat := fun _ _ => None;
     validator_chat := fun _ _ => None;
     kicad_cli := fun _ => false;
     erc_json_run := fun _ _ => None;
     erc_text_run := fun _ _ => None;
     new_llm_client := Ok tt;
     out_dir_mkdir := fun _ => Ok tt;
     debug_dir_mkdir := fun _ _ => Ok tt;
     output_write_text := fun _ _ => Ok tt;
     progress_call := fun _ _ => None |}.

End Demo.

(** * Vocabulary of the statements *)

Section Vocabulary.
Context {L : PyLib} {W : World}.

(** An entry of the history, from its role and content. *)
Definition message_of (e : string * string) : Message :=
  {| role := fst e; content := snd e |}.

(** [n] calls of [_add_history], one per entry. *)
Definition add_all (self : GptSchematicWriter) (entries : list (string * string))
  : GptSchematicWriter :=
  fold_left (fun w e => _add_history w (fst e) (snd e)) entries self.

(** The [n] most recent items of [l], oldest first. *)
Definition last_n {A} (n : nat) (l : list A) : list A :=
  skipn (length l - n) l.

(** The document [generate_text] extracts from what the service call gave
    ([None]: the call raised, which [generate_text] reads as an empty reply). *)
Definition candidate_of (reply : option string) : string :=
  match reply with
  | Some r => if Py.truthy r then extract_document r else ""
  | None => ""
  end.

(** [prev_text and prev_text.strip()] *)
Definition non_blank (prev : option string) : bool :=
  match prev with
  | Some p => Py.truthy p && Py.truthy (Py.strip p)
  | None => false
  end.

(** The policy in the words of the specification: the candidate when it is
    well-formed, else the previous document when there is a non-blank one,
    else the seed. *)
Definition write_policy (candidate : string) (prev : option string) : string :=
  if well_formed candidate then candidate
  else if non_blank prev then default "" prev
  else _seed_schematic "Untitled".

(** The conversation [write] sends to the service. *)
Definition request_of (self : GptSchematicWriter) (spec : string)
  (allowed : list (string * list string)) (prev : option string)
  (found : option (list string)) (reference : option string) : list Message :=
  let '(system, user) := _build_prompt spec allowed prev found reference in
  {| role := "system"; content := system |}
  :: _history (_add_history self "user" user).

(** The string without its first [n] characters. *)
Fixpoint sdrop (n : nat) (s : string) : string :=
  match n, s with
  | O, _ => s
  | S n', String _ r => sdrop n' r
  | S _, EmptyString => EmptyString
  end.

(** The float of a small natural number, the grid of the integers below [n],
    and the exact test on integers: the squared Euclidean distance is below
    the square of 20. *)
Definition float_of_nat (n : nat) : float :=
  PrimFloat.of_uint63 (Uint63.of_Z (Z.of_nat n)).

Definition exactly_closer (xi yi xj yj : nat) : bool :=
  let dx := Z.of_nat xi - Z.of_nat xj in
  let dy := Z.of_nat yi - Z.of_nat yj in
  dx * dx + dy * dy <? 20 * 20.

(** The exact value of a float that is a number: [m * 2 ^ e]. *)
Definition dyadic (f : float) : option (Z * Z) :=
  match Prim2SF f with
  | S754_zero _ => Some (0, 0)
  | S754_finite s m e => Some (if s then Z.neg m else Z.pos m, e)
  | _ => None
  end.

(** The same value counted in units of [2 ^ (-1074)], the smallest positive
    binary64 number: an integer for every float that is a number. *)
Definition in_smallest_units (f : float) : option Z :=
  match dyadic f with
  | Some (m, e) => if 0 <=? e + 1074 then Some (m * 2 ^ (e + 1074)) else None
  | None => None
  end.

(** The Euclidean distance of two positions is strictly below 20, in exact
    arithmetic on the values of the floats. *)
Definition exactly_below_spacing (xi yi xj yj : float) : bool :=
  match in_smallest_units xi, in_smallest_units yi,
        in_smallest_units xj, in_smallest_units yj with
  | Some a, Some b, Some c, Some d =>
      (a - c) * (a - c) + (b - d) * (b - d) <? 400 * 2 ^ (2 * 1074)
  | _, _, _, _ => false
  end.

Definition agrees_on_grid (n : nat) : bool :=
  forallb (fun xi => forallb (fun yi => forallb (fun xj => forallb (fun yj =>
    Bool.eqb (too_close (float_of_nat xi) (float_of_nat yi)
                        (float_of_nat xj) (float_of_nat yj))
             (exactly_closer xi yi xj yj))
    (seq 0 n)) (seq 0 n)) (seq 0 n)) (seq 0 n).

(** The validator with the completion service disabled. *)
Definition heuristic : ValidatorAgent := {| use_llm := false |}.

(** The heuristic checker on what reading the document gave: its text, or
    nothing when it cannot be read. *)
Definition check_text (content : option string) : result (list string) :=
  validate heuristic 0
    (match content with Some text => {[ "document" := text ]} | None => ∅ end)
    "document".

(** The unordered pairs of a list, every earlier item with every later one. *)
Fixpoint pairs {A} (l : list A) : list (A * A) :=
  match l with
  | [] => []
  | x :: r => map (pair x) r ++ pairs r
  end.

(** The reference and the position of an instance. *)
Definition ref_of (it : instance) : string :=
  let '(r, _, _, _, _, _) := it in r.
Definition x_of (it : instance) : float :=
  let '(_, x, _, _, _, _) := it in x.
Definition y_of (it : instance) : float :=
  let '(_, _, y, _, _, _) := it in y.

(** The two instances of a pair are closer than the minimum spacing. *)
Definition closer_than_spacing (p : instance * instance) : bool :=
  too_close (x_of (fst p)) (y_of (fst p)) (x_of (snd p)) (y_of (snd p)).

(** The issue about a pair. *)
Definition spacing_issue (p : instance * instance) : string :=
  too_close_message (ref_of (fst p)) (ref_of (snd p)).

(** A resistor with a unique id, placed at [(x, y)]. *)
Definition placed (r : string) (x y : float) : instance :=
  (r, x, y, 0%float, "Device:R", true).

(** An identifier that is neither of the two sentinels, whatever its case. *)
Definition not_sentinel (lib_id : string) : Prop :=
  Py.lower lib_id <> "device:u" /\ Py.lower lib_id <> "device:unknown".

(** What the loop of [candidates_for_part] keeps true of [seen] and [result]. *)
Record dedup_inv (cap : Z) (seen : gset string) (result : list string) : Prop := {
  inv_seen : forall x, x ∈ seen <-> In x result;
  inv_nodup : NoDup result;
  inv_valid : Forall not_sentinel result
}.

(** One more name, unless it is there already. *)
Definition step (acc : list string) (x : string) : list string :=
  if Py.mem x acc then acc else acc ++ [x].

(** The names of [l] in the order of their first occurrence. *)
Definition first_occurrences (l : list string) : list string :=
  fold_left step l [].

(** The name an entry declares under [key]: a non-empty string. *)
Definition declared_name (n : JSON) (key : string) : option string :=
  match n with
  | JObj kv =>
      match Json.assoc key kv with
      | Some (JStr s) => if Py.truthy s then Some s else None
      | _ => None
      end
  | _ => None
  end.

(** The names a list of entries declares under [keys], entry by entry. *)
Definition declared_names (keys : list string) (entries : list JSON) : list string :=
  flat_map (fun n => omap (declared_name n) keys) entries.

(** The entries under key [k] of the input. *)
Definition entries_of (data : JSON) (k : string) : list JSON :=
  match data with
  | JObj kv =>
      match Json.assoc k kv with
      | Some v => try_except (Json.iter v) []
      | None => []
      end
  | _ => []
  end.

(** All the names of the input in the order the conversion scans them: the
    nets first, [id] before [name], then the power domains. *)
Definition scanned_names (data : JSON) : list string :=
  declared_names ["id"; "name"] (entries_of data "nets")
  ++ declared_names ["name"] (entries_of data "powerDomains").

(** An object, and a list of objects (or no entry at all). *)
Definition is_object (x : JSON) : bool :=
  match x with JObj _ => true | _ => false end.

Definition objects (x : option JSON) : bool :=
  match x with
  | None => true
  | Some (JArr l) => forallb is_object l
  | Some _ => false
  end.

(** An input of the pseudo-CAD shape whose fields have the expected kinds. *)
Definition well_shaped (data : JSON) : bool :=
  match data with
  | JObj kv =>
      match Json.assoc "device" kv with
      | None => true
      | Some (JObj d) =>
          match Json.assoc "name" d with
          | None | Some (JStr _) => true
          | Some v => negb (Json.truthy v)
          end
      | Some _ => false
      end
      && match Json.assoc "components" kv with
         | None | Some (JArr _) => true
         | Some _ => false
         end
      && objects (Json.assoc "nets" kv)
      && objects (Json.assoc "powerDomains" kv)
  | _ => false
  end.

(** The names of a list of nets. *)
Definition names (nets : list NetSpec) : list string := map name nets.

(** The set [seen] holds the names of the nets collected so far. *)
Definition seen_ok (acc : list NetSpec * gset string) : Prop :=
  forall x, x ∈ snd acc <-> In x (names (fst acc)).

(** A decoded input of neither accepted shape. *)
Definition unrecognized (raw : JSON) : bool :=
  match raw with
  | JObj kv =>
      negb (Json.has_key "components" kv || Json.has_key "parts" kv || Json.has_key "nets" kv)
  | _ => true
  end.

(** The store with other progress lines. *)
Definition with_progress (st : Store) (p : list string) : Store :=
  {| files := files st; gpt_generator := gpt_generator st; progress := p |}.

(** The message of lines 104 to 113 about expected references that are not
    placed, when there is one. *)
Definition missing_refs_message (cfg : Setup) (prev : option string) : list string :=
  match prev with
  | Some t =>
      if Py.truthy t then
        match List.filter (fun r => negb (Py.mem r (Re.findall1 Pat.reference t)))
                          (expected_refs cfg) with
        | [] => []
        | m => ["Missing placed instances for refs: " +:+ String.concat ", " m]
        end
      else []
  | None => []
  end.

(** What [checking] returns: the issues of the checker, then that message. *)
Definition combined_issues (cfg : Setup) (iteration : nat)
  (fs : gmap string string) (prev : option string) : result (list string) :=
  let* found := validate (validator cfg) iteration fs (sch_path cfg) in
  Ok (found ++ missing_refs_message cfg prev).

(** What [rule_checking] returns: exit status, violation count, summary. *)
Definition erc_outcome (iteration : nat) (path : string)
  : result (option Z * option Z * list string) :=
  if negb (kicad_cli iteration) then Ok (None, None, [])
  else
    match erc_json_run iteration path with
    | Some (proc, report) =>
        let* lines := summarize_erc_json report 15 in
        Ok (Some (returncode proc),
            match report with
            | JNull => None
            | _ =>
                try_except
                  (let* v := Json.get report "violations" in
                   let* n := Json.len (Json.or_else v (JArr [])) in
                   Ok (Some n))
                  None
            end,
            lines)
    | None =>
        match erc_text_run iteration path with
        | Some erc =>
            Ok (Some (returncode erc),
                Some (parse_erc_violations
                        (stdout erc +:+ String Py.nl "" +:+ stderr erc)),
                [])
        | None => Ok (None, None, [])
        end
    end.

(** One iteration without its progress lines: the result, and the files and
    the writer it leaves. *)
Definition iteration_outcome (cfg : Setup) (iteration : nat) (loc : Locals)
  (fs : gmap string string) (g : GptSchematicWriter)
  : result (bool * Locals) * gmap string string * GptSchematicWriter :=
  let n := S (_iter_counter g) in
  match debug_dir_mkdir n (sch_path cfg) with
  | Raise e => (Raise e, fs, {| _history := _history g; _iter_counter := n |})
  | Ok _ =>
      let '(g1, f1) :=
        write g fs (raw_text cfg) (allowed cfg) (sch_path cfg)
              (prev_text loc) (Some (issues loc)) (reference_text cfg) in
      match output_write_text n (sch_path cfg) with
      | Raise e => (Raise e, fs, g1)
      | Ok _ =>
          let prev := f1 !! sch_path cfg in
          match combined_issues cfg iteration f1 prev with
          | Raise e => (Raise e, f1, g1)
          | Ok found =>
              match erc_outcome iteration (sch_path cfg) with
              | Raise e => (Raise e, f1, g1)
              | Ok (rc, violations, summary) =>
                  let loc' :=
                    {| prev_text := prev; issues := found; erc_rc := rc;
                       erc_violations := violations; erc_summary_lines := summary |} in
                  if accepted found rc violations then (Ok (true, loc'), f1, g1)
                  else (Ok (false, loc'), f1,
                        _add_history g1 "user" (json_dumps (feedback loc')))
              end
          end
      end
  end.

(** No call to a collaborator raises inside an iteration: the completion
    service of the validator answers when it is enabled, and every JSON
    report of the rule checker can be summarised. *)
Definition collaborators_total (cfg : Setup) : Prop :=
  (use_llm (validator cfg) = true ->
     forall i msgs, exists reply, validator_chat i msgs = Some reply)
  /\ (forall i proc report,
        erc_json_run i (sch_path cfg) = Some (proc, report) ->
        exists lines, summarize_erc_json report 15 = Ok lines).

(** The callback raises [e] on some line. *)
Definition callback_raises (cb : bool) (e : exn) : Prop :=
  cb = true /\ exists received msg, progress_call received msg = Some e.

(** The callback, if there is one, returns from every call. *)
Definition callback_returns (cb : bool) : Prop :=
  cb = true -> forall received msg, progress_call received msg = None.

(** The file system lets every call of [write] through: the dump directory
    can be made and the output written. *)
Definition file_system_accepts (cfg : Setup) : Prop :=
  forall n,
    debug_dir_mkdir n (sch_path cfg) = Ok tt
    /\ output_write_text n (sch_path cfg) = Ok tt.

End Vocabulary.

(** * Concrete runs *)

Module Cases.

Definition key (k : string) : string := Py.quoted k +:+ ": ".

(** A board in the pseudo-CAD shape: one resistor, a net given twice and a
    power domain that repeats it. *)
Definition board_text : string :=
  "{" +:+ key "device" +:+ "{" +:+ key "name" +:+ Py.quoted "My board" +:+ "}, "
  +:+ key "components" +:+ "[{" +:+ key "id" +:+ Py.quoted "R1" +:+ ", "
  +:+ key "category" +:+ Py.quoted "passive" +:+ "}], "
  +:+ key "nets" +:+ "[{" +:+ key "id" +:+ Py.quoted "VCC" +:+ ", "
  +:+ key "name" +:+ Py.quoted "VCC" +:+ "}, {" +:+ key "id" +:+ Py.quoted "N1" +:+ "}], "
  +:+ key "powerDomains" +:+ "[{" +:+ key "name" +:+ Py.quoted "VCC" +:+ "}, {"
  +:+ key "name" +:+ Py.quoted "3V3" +:+ "}]}".

(** The store of a run that starts with the input file alone. *)
Definition store_of (input : string) : Store :=
  {| files := {[ "spec.json" := input ]}; gpt_generator := new_writer; progress := [] |}.

(** What [setup] fixes for the board, and for an input of no accepted shape. *)
Definition board_setup : Setup :=
  {| raw_text := board_text;
     allowed := [("R1", ["Custom:R1"])];
     expected_refs := ["R1"];
     validator := heuristic;
     reference_text := None;
     sch_path := "out/My_board.kicad_sch" |}.


Definition sheet_issue : string :=
  "Missing (sheet_instances ...) block. Add minimal KiCad 9 sheet bookkeeping to improve compatibility.".

(** The locals after an iteration on the board without any collaborator, and
    after one with the silent checker. *)
Definition rejected_locals : Locals :=
  {| prev_text := Some (_seed_schematic "Untitled");
     issues := [sheet_issue; "Missing placed instances for refs: R1"];
     erc_rc := None; erc_violations := None; erc_summary_lines := [] |}.


Definition part (r t : string) (v : option string) : PartSpec :=
  {| ref := r; type := t; symbol := None; value := v; pins := [];
     position := None; rotation := Some 0 |}.

Definition four_parts : list PartSpec :=
  [part "R1" "R" None; part "U1" "MCU" (Some "esp32 module");
   part "X1" "X" None; part "J1" "Conn" None].

(** A drawing with two placed resistors more than 2000 characters apart, so
    that each is found with its own position: the first at (20, 0), the
    second at (0.000000000000001, 0), which is less than 20 away. *)
Definition blanks (n : nat) : string := string_of_list_ascii (repeat " "%char n).

Definition resistor (r x y : string) : string :=
  "(symbol (lib_id " +:+ Py.quoted "Device:R" +:+ ") (at " +:+ x +:+ " " +:+ y
  +:+ ") (uuid 12345678-aaaa) (property " +:+ Py.quoted "Reference" +:+ " "
  +:+ Py.quoted r +:+ "))".

Definition far_apart : string :=
  "(kicad_sch (version 20250114) " +:+ resistor "R1" "20" "0" +:+ blanks 2000
  +:+ resistor "R2" ".000000000000001" "0" +:+ ")".

Definition drawing : gmap string string := {[ "a.kicad_sch" := far_apart ]}.

(** The float that [float] reads from [.000000000000001]: the binary64
    number nearest to 10 ^ (-15), which is positive. *)
Definition tiny : float := 0x1.203af9ee75616p-50%float.

End Cases.

(** * Vocabulary of the further properties *)

(** What the searches of [_extract_instances] find first in a text: the
    position and the rotation, the library identifier and whether a unique
    id is there; nothing when the text has no position or no library
    identifier. *)
Definition first_placement {L : PyLib} (text : string)
  : option (float * float * float * string * bool) :=
  match Re.search false Pat.at_ text, Re.search false Pat.lib_id text with
  | Some a, Some l =>
      let '(x, y, rot) :=
        try_except
          (at_floats (default "" (Re.group 1 (Re.m_groups a)))
                     (default "" (Re.group 2 (Re.m_groups a)))
                     (Re.group 3 (Re.m_groups a)))
          (0%float, 0%float, 0%float) in
      Some (x, y, rot, default "" (Re.group 1 (Re.m_groups l)),
            match Re.search false Pat.uuid text with Some _ => true | None => false end)
  | _, _ => None
  end.

(** The last character read: the last of [l] when it has one, else [prev]. *)
Definition last_read (prev : option ascii) (l : list ascii) : option ascii :=
  fold_left (fun _ c => Some c) l prev.

(** A text without the letter F in either case, and a text of digits. *)
Definition no_f (s : string) : bool :=
  forallb (fun c => negb (Re.char_eq true "F" c)) (list_ascii_of_string s).

Definition digits (s : string) : bool :=
  forallb Py.isdigit (list_ascii_of_string s).

(** Every character of [s] is a letter, a digit or an underscore. *)
Definition word_only (s : string) : bool :=
  forallb Py.isword (list_ascii_of_string s).

(** A text field of a report: absent, null or a string. *)
Definition text_or_none (x : option JSON) : bool :=
  match x with
  | None | Some JNull | Some (JStr _) => true
  | Some _ => false
  end.

(** An entry of [references]: an object whose [ref] and [uuid] are texts. *)
Definition reference_ok (r : JSON) : bool :=
  match r with
  | JObj kv => text_or_none (Json.assoc "ref" kv) && text_or_none (Json.assoc "uuid" kv)
  | _ => false
  end.

(** A violation: an object whose [references], when given, list such entries. *)
Definition violation_ok (v : JSON) : bool :=
  match v with
  | JObj kv =>
      match Json.assoc "references" kv with
      | None | Some JNull => true
      | Some (JArr rs) => forallb reference_ok rs
      | Some _ => false
      end
  | _ => false
  end.

(** A report as the rule checker writes it: an object whose [violations],
    when given, list violations. *)
Definition report_ok (data : JSON) : bool :=
  match data with
  | JObj kv =>
      match Json.assoc "violations" kv with
      | None | Some JNull => true
      | Some (JArr vs) => forallb violation_ok vs
      | Some _ => false
      end
  | _ => false
  end.

(** The designator of a well-formed entry: its [ref], else its [uuid], else
    the empty string. *)
Definition designator_text (r : JSON) : string :=
  match r with
  | JObj kv =>
      match Json.assoc "ref" kv with
      | Some (JStr (String c s)) => String c s
      | _ => match Json.assoc "uuid" kv with
             | Some (JStr s) => s
             | _ => ""
             end
      end
  | _ => ""
  end.

(** The conversation the validator sends about a text. *)
Definition validator_request (text : string) : list Message :=
  [ {| role := "system"; content := validator_system |};
    {| role := "user"; content := Py.prefix_to 10000 text |} ].

(** The seed that [write] falls back on. *)
Definition seed : string := _seed_schematic "Untitled".

(** A computation that only adds progress lines, and adds none without a
    callback. *)
Definition reports {A} (cb : bool) (m : M A) : Prop :=
  forall st, exists lines,
    progress (snd (m st)) = progress st ++ lines /\ (cb = false -> lines = []).

(** Two stores with the same files and the same writer. *)
Definition same_state (a b : Store) : Prop :=
  files a = files b /\ gpt_generator a = gpt_generator b.

(** The guesses of [_map_component_to_partspec]: type and symbol. *)
Definition guesses : list (string * option string) :=
  [("C", Some "Device:C"); ("R", Some "Device:R"); ("MCU", Some "Device:U");
   ("U", Some "Device:U"); ("Conn", Some "Connector_Generic:Conn_01x02"); ("U", None)].

(** A component whose fields have the kinds the mapping needs: an object
    whose category is a string or empty and whose value is a string or
    nothing. *)
Definition component_ok (comp : JSON) : bool :=
  match comp with
  | JObj kv =>
      match Json.assoc "category" kv with
      | None | Some (JStr _) => true
      | Some v => negb (Json.truthy v)
      end
      && match Json.assoc "value" kv with
         | None | Some JNull | Some (JStr _) => true
         | Some _ => false
         end
  | _ => false
  end.

(** One more net, unless it is empty or there already. *)
Definition add_pin_net (nets : list string) (net : string) : list string :=
  if Py.truthy net && negb (Py.mem net nets) then nets ++ [net] else nets.

(** The nets the pins of a circuit's parts are tied to, part by part. *)
Definition pin_nets (circuit : CircuitSpec) : list string :=
  flat_map (fun part => map snd (pins part)) (parts circuit).

(** The entries of a reply: what the dict comprehension keeps of its [parts]. *)
Definition reply_entries (data : JSON) : list JSON :=
  List.filter is_entry (entries_of data "parts").

(** A position the reply gives: two integers, or nothing that is applied. *)
Definition position_ok (pos : JSON) : bool :=
  match pos with
  | JArr [JInt _; JInt _] => true
  | JArr [_; _] => false
  | _ => true
  end.

(** An item of the reply's [parts] that can be applied: its reference can be
    hashed and its position, if it has one, is a pair of integers. *)
Definition entry_ok (p : JSON) : bool :=
  match p with
  | JObj kv =>
      hashable_ref p
      && position_ok (Json.or_else (default JNull (Json.assoc "position" kv))
                                   (default JNull (Json.assoc "pos" kv)))
  | _ => true
  end.

(** A reply that can be applied: an object whose [parts], when given, list
    such items. *)
Definition reply_ok (data : JSON) : bool :=
  match data with
  | JObj kv =>
      match Json.assoc "parts" kv with
      | None => true
      | Some (JArr items) => forallb entry_ok items
      | Some _ => false
      end
  | _ => false
  end.

(** What the service can change: a design with the same title, the same
    parts under the same references, values and pins, the same nets and maybe
    more, in which every symbol is the one it was or one of the candidates
    of its reference. *)
Definition revision_of (allowed : list (string * list string))
  (design d : Design.GeneratedDesign) : Prop :=
  Design.title d = Design.title design
  /\ map Design.ref (Design.parts d) = map Design.ref (Design.parts design)
  /\ map Design.value (Design.parts d) = map Design.value (Design.parts design)
  /\ map Design.pins (Design.parts d) = map Design.pins (Design.parts design)
  /\ (exists extra, Design.nets d = Design.nets design ++ extra)
  /\ (forall i p,
        Design.parts design !! i = Some p ->
        exists p',
          Design.parts d !! i = Some p'
          /\ (Design.symbol p' = Design.symbol p
              \/ forall first rest,
                   Json.assoc (Design.ref p) allowed = Some (first :: rest) ->
                   In (Design.symbol p') (first :: rest))).


(** The float test of the checker on the default positions of the first [n]
    parts: no two of them are too close. *)
Definition grid_clear (n : nat) : bool :=
  forallb
    (fun i =>
       forallb
         (fun j =>
            (i =? j)%nat
            || negb (too_close
                       (float_of_nat (Z.to_nat (fst (_grid_position i))))
                       (float_of_nat (Z.to_nat (snd (_grid_position i))))
                       (float_of_nat (Z.to_nat (fst (_grid_position j))))
                       (float_of_nat (Z.to_nat (snd (_grid_position j))))))
         (seq 0 n))
    (seq 0 n).

(** The text under a key of a payload, and the items under it. *)
Definition text_at (payload : list (string * JSON)) (k : string) : option string :=
  match Json.assoc k payload with Some (JStr s) => Some s | _ => None end.

Definition items_at (payload : list (string * JSON)) (k : string) : option (list JSON) :=
  match Json.assoc k payload with Some (JArr l) => Some l | _ => None end.

(** [bool(t)] for an optional text. *)
Definition given (t : option string) : bool :=
  match t with Some s => Py.truthy s | None => false end.

Section MoreVocabulary.
Context {L : PyLib} {W : World}.

(** The completion service of the writer is offline: every call raises or
    gives the empty reply of [LLMClient.chat] without a client. *)
Definition writer_offline : Prop :=
  forall i msgs, writer_chat i msgs = None \/ writer_chat i msgs = Some "".

(** What the component at a position maps to; nothing when mapping raises. *)
Definition mapped (ic : nat * JSON) : option PartSpec :=
  match _map_component_to_partspec (snd ic) (fst ic) with
  | Ok p => Some p
  | Raise _ => None
  end.

(** The reference a component gets: its [id] as a string, or [U] and its
    position counted from 1. *)
Definition reference_of (index : nat) (comp : JSON) : string :=
  match comp with
  | JObj kv =>
      match Json.assoc "id" kv with
      | Some v => py_str v
      | None => "U" +:+ pretty (index + 1)%nat
      end
  | _ => ""
  end.

(** The payload that [_build_prompt] serialises. *)
Definition prompt_payload (spec_json_text : string)
  (allowed_by_ref : list (string * list string)) (prev_text : option string)
  (issues : option (list string)) (reference_text : option string)
  : list (string * JSON) :=
  let raw :=
    match json_loads spec_json_text with
    | Some v => v
    | None => JObj [("raw", JStr (Py.prefix_to 4000 spec_json_text))]
    end in
  let payload :=
    [("lld_json", raw);
     ("allowed", JObj (map (fun kv => (fst kv, Json.of_strings (snd kv))) allowed_by_ref));
     ("refs", Json.of_strings (map fst allowed_by_ref))] in
  let payload :=
    match prev_text with
    | Some t => if Py.truthy t
                then Json.dict_set "previous_text" (JStr (Py.prefix_to 12000 t)) payload
                else payload
    | None => payload
    end in
  let payload :=
    match issues with
    | Some (i :: l) => Json.dict_set "issues_to_fix" (Json.of_strings (firstn 100 (i :: l))) payload
    | _ => payload
    end in
  let payload :=
    match reference_text with
    | Some t => if Py.truthy t
                then Json.dict_set "reference_schematic" (JStr (Py.prefix_to 20000 t)) payload
                else payload
    | None => payload
    end in
  payload.

(** What [candidates_for_part] falls back on when nothing is left. *)
Definition custom_fallback (part : PartSpec) : list string :=
  match value part with
  | Some v =>
      if Py.truthy v then [_sanitize_value_for_custom v]
      else ["Custom:" +:+ Py.or_else (Py.upper (ref part)) "Unknown"]
  | None => ["Custom:" +:+ Py.or_else (Py.upper (ref part)) "Unknown"]
  end.

End MoreVocabulary.

(** * Further concrete inputs *)

Module Samples.

(** A document with two placed instances, a resistor and a capacitor, far
    from each other. *)
Definition two_instances : string :=
  "(kicad_sch (version 20250114) (lib_symbols (symbol " +:+ Py.quoted "R"
  +:+ " (pin x) (rectangle))) (symbol (lib_id " +:+ Py.quoted "Device:R"
  +:+ ") (at 10 10 0) (uuid 12345678-aaaa) (property " +:+ Py.quoted "Reference"
  +:+ " " +:+ Py.quoted "R1" +:+ ")) (symbol (lib_id " +:+ Py.quoted "Device:C"
  +:+ ") (at 100 100 0) (uuid 12345678-bbbb) (property " +:+ Py.quoted "Reference"
  +:+ " " +:+ Py.quoted "C2" +:+ ")) (sheet_instances))".

Definition sheet : gmap string string := {[ "a.kicad_sch" := two_instances ]}.

(** The board of [Cases], decoded. *)
Definition board : JSON := default JNull (Demo.loads Cases.board_text).

(** [int(x)] on integers and booleans. *)
Definition int_of (x : JSON) : result Z :=
  match x with
  | JInt n => Ok n
  | JBool b => Ok (Z.b2z b)
  | JStr _ => Raise ValueError
  | _ => Raise TypeError
  end.

(** What the board converts to. *)
Definition board_circuit : CircuitSpec :=
  {| title := Some "My board";
     parts := [{| ref := "R1"; type := "R"; symbol := Some "Device:R"; value := None;
                  pins := []; position := None; rotation := Some 0 |}];
     nets := [{| name := "VCC" |}; {| name := "N1" |}; {| name := "3V3" |};
              {| name := "GND" |}] |}.

(** A reply that moves the resistor and asks for a symbol that is not among
    its candidates. *)
Definition reply : JSON :=
  JObj [("parts",
         JArr [JObj [("ref", JStr "R1"); ("position", JArr [JInt 120; JInt 80]);
                     ("symbol", JStr "Device:C")]])].

End Samples.

(** * Properties *)

(** ** The rolling history *)

Lemma last_n_length {A} (n : nat) (l : list A) :
  (length (last_n n l) <= n)%nat.
Proof. unfold last_n. rewrite length_skipn. lia. Qed.

Lemma add_history_last_n self r c :
  _history (_add_history self r c)
  = last_n 10 (_history self ++ [ {| role := r; content := c |} ]).
Proof.
  unfold _add_history, last_n, Py.drop_from. cbn [_history].
  set (h := _history self ++ _).
  destruct (Z.ltb_spec 10 (Z.of_nat (length h))) as [Hlt | Hge].
  - change (0 <=? -10) with false. cbv iota.
    f_equal. lia.
  - replace (length h - 10)%nat with 0%nat by lia. reflexivity.
Qed.

Lemma last_n_snoc {A} (n : nat) (l : list A) (x : A) :
  (1 <= n)%nat -> last_n n (last_n n l ++ [x]) = last_n n (l ++ [x]).
Proof.
  intros Hn. unfold last_n.
  rewrite !length_app, length_skipn. cbn [length].
  destruct (Nat.le_gt_cases (length l) n) as [Hle | Hgt].
  - replace (length l - n)%nat with 0%nat by lia. cbn [skipn].
    rewrite Nat.sub_0_r. reflexivity.
  - replace (length l - (length l - n) + 1 - n)%nat with 1%nat by lia.
    replace (length l + 1 - n)%nat with (S (length l - n)) by lia.
    rewrite !skipn_app, !length_skipn.
    replace (S (length l - n) - length l)%nat with 0%nat by lia.
    replace (1 - (length l - (length l - n)))%nat with 0%nat by lia.
    cbn [skipn]. f_equal.
    rewrite skipn_skipn. reflexivity.
Qed.

Lemma add_all_last_n entries : forall self,
  (length (_history self) <= 10)%nat ->
  _history (add_all self entries)
  = last_n 10 (_history self ++ map message_of entries).
Proof.
  induction entries as [| e entries IH]; intros self Hlen.
  - cbn. rewrite app_nil_r. unfold last_n.
    replace (length (_history self) - 10)%nat with 0%nat by lia. reflexivity.
  - cbn [add_all fold_left map]. change (fold_left _ entries ?w) with (add_all w entries).
    rewrite IH.
    + rewrite add_history_last_n.
      change ({| role := fst e; content := snd e |}) with (message_of e).
      replace (_history self ++ message_of e :: map message_of entries)
        with ((_history self ++ [message_of e]) ++ map message_of entries)
        by (rewrite <- app_assoc; reflexivity).
      generalize (_history self ++ [message_of e]) as h.
      generalize (map message_of entries) as t.
      induction t as [| y t IHt] using rev_ind; intros h.
      * rewrite !app_nil_r. unfold last_n at 1.
        pose proof (last_n_length 10 h).
        replace (length (last_n 10 h) - 10)%nat with 0%nat by lia. reflexivity.
      * rewrite !app_assoc. rewrite <- (last_n_snoc 10 (h ++ t)) by lia.
        rewrite <- IHt. rewrite last_n_snoc by lia. reflexivity.
    + rewrite add_history_last_n. apply last_n_length.
Qed.

(** C6.  The history of the writer is a sliding window of the ten most recent
    entries.  One addition never leaves more than ten entries and keeps the
    ten most recent ones of the entries it had, followed by the new one; a
    new writer that received any sequence of additions holds the ten most
    recent of them, oldest first; after twelve additions these are the third
    to the twelfth; and a call of [generate_text], which adds the request and
    the reply, leaves at most ten entries whatever the service answers. *)
Theorem history_sliding_window :
  (forall self r c, (length (_history (_add_history self r c)) <= 10)%nat)
  /\ (forall self r c,
        _history (_add_history self r c)
        = last_n 10 (_history self ++ [ {| role := r; content := c |} ]))
  /\ (forall entries,
        _history (add_all new_writer entries) = last_n 10 (map message_of entries)
        /\ (length (_history (add_all new_writer entries)) <= 10)%nat)
  /\ (forall e1 e2 e3 e4 e5 e6 e7 e8 e9 e10 e11 e12,
        _history (add_all new_writer [e1; e2; e3; e4; e5; e6; e7; e8; e9; e10; e11; e12])
        = map message_of [e3; e4; e5; e6; e7; e8; e9; e10; e11; e12])
  /\ (forall (L : PyLib) (W : World) self spec allowed prev found reference,
        (length (_history (fst (generate_text self spec allowed prev found reference)))
         <= 10)%nat).
Proof.
  split; [| split; [| split; [| split]]].
  - intros. rewrite add_history_last_n. apply last_n_length.
  - apply add_history_last_n.
  - intros entries. split.
    + rewrite add_all_last_n by (cbn; lia). reflexivity.
    + rewrite add_all_last_n by (cbn; lia). apply last_n_length.
  - intros. reflexivity.
  - intros. unfold generate_text.
    destruct (_build_prompt _ _ _ _ _) as [system user].
    destruct (negb _); cbn [fst];
      rewrite add_history_last_n; apply last_n_length.
Qed.

(** ** The write policy *)

Section WritePolicy.
Context {L : PyLib} {W : World}.

Lemma generate_text_candidate self spec allowed prev found reference :
  fst (snd (generate_text self spec allowed prev found reference))
  = candidate_of (writer_chat (_iter_counter self)
                    (request_of self spec allowed prev found reference)).
Proof.
  unfold generate_text, request_of, candidate_of.
  destruct (_build_prompt spec allowed prev found reference) as [system user].
  cbn [_add_history _iter_counter].
  destruct (writer_chat _ _) as [r |].
  - change (default "" (Some r)) with r.
    destruct (Py.truthy r); reflexivity.
  - reflexivity.
Qed.

Lemma generate_text_counter self spec allowed prev found reference :
  _iter_counter (fst (generate_text self spec allowed prev found reference))
  = _iter_counter self.
Proof.
  unfold generate_text.
  destruct (_build_prompt spec allowed prev found reference) as [system user].
  destruct (negb _); reflexivity.
Qed.

Lemma write_files self files spec allowed out_path prev found reference :
  snd (write self files spec allowed out_path prev found reference)
  = <[out_path :=
        write_policy
          (candidate_of
             (writer_chat (S (_iter_counter self))
                (request_of self spec allowed prev found reference)))
          prev]> files.
Proof.
  unfold write, write_policy, non_blank.
  set (self1 := {| _history := _history self; _iter_counter := S (_iter_counter self) |}).
  pose proof (generate_text_candidate self1 spec allowed prev found reference) as Hc.
  change (request_of self1 spec allowed prev found reference)
    with (request_of self spec allowed prev found reference) in Hc.
  change (_iter_counter self1) with (S (_iter_counter self)) in Hc.
  rewrite <- Hc.
  destruct (generate_text self1 spec allowed prev found reference)
    as [self2 [parsed raw]].
  cbn [fst snd].
  destruct (well_formed parsed); [reflexivity |].
  destruct prev as [p |]; [| reflexivity].
  destruct (Py.truthy p && Py.truthy (Py.strip p)); reflexivity.
Qed.

Lemma write_counter self files spec allowed out_path prev found reference :
  _iter_counter (fst (write self files spec allowed out_path prev found reference))
  = S (_iter_counter self).
Proof.
  unfold write.
  set (self1 := {| _history := _history self; _iter_counter := S (_iter_counter self) |}).
  pose proof (generate_text_counter self1 spec allowed prev found reference) as Hc.
  destruct (generate_text self1 spec allowed prev found reference)
    as [self2 [parsed raw]].
  cbn [fst] in Hc.
  destruct (well_formed parsed); [exact Hc |].
  destruct prev as [p |]; [| exact Hc].
  destruct (Py.truthy p && Py.truthy (Py.strip p)); exact Hc.
Qed.

End WritePolicy.

Lemma prefix_split p : forall s,
  String.prefix p s = true -> exists t, s = p +:+ t.
Proof.
  induction p as [| c p IH]; intros s H.
  - exists s. reflexivity.
  - destruct s as [| d s]; [discriminate H |]. cbn in H.
    destruct (ascii_dec c d) as [-> | Hne]; [| discriminate H].
    destruct (IH s H) as [t ->]. exists t. reflexivity.
Qed.

Lemma find_from_found sub : forall s i r,
  Py.find_from sub s i = r -> r <> -1 ->
  exists k, r = Z.of_nat (i + k) /\ String.prefix sub (sdrop k s) = true.
Proof.
  induction s as [| c s IH]; intros i r H Hr; cbn [Py.find_from] in H.
  - destruct (String.prefix sub "") eqn:Hp; [| congruence].
    exists 0%nat. rewrite Nat.add_0_r. split; [congruence | exact Hp].
  - destruct (String.prefix sub (String c s)) eqn:Hp.
    + exists 0%nat. rewrite Nat.add_0_r. split; [congruence | exact Hp].
    + destruct (IH (S i) r H Hr) as (k & -> & Hk).
      exists (S k). split; [f_equal; lia | exact Hk].
Qed.

Lemma rfind_from_found sub : forall s i last r,
  Py.rfind_from sub s i last = r ->
  r = last
  \/ exists k, r = Z.of_nat (i + k) /\ String.prefix sub (sdrop k s) = true.
Proof.
  induction s as [| c s IH]; intros i last r H; cbn [Py.rfind_from] in H.
  - destruct (String.prefix sub "") eqn:Hp; [| left; congruence].
    right. exists 0%nat. rewrite Nat.add_0_r. split; [congruence | exact Hp].
  - destruct (String.prefix sub (String c s)) eqn:Hp.
    + destruct (IH (S i) (Z.of_nat i) r H) as [-> | (k & -> & Hk)].
      * right. exists 0%nat. rewrite Nat.add_0_r. split; [reflexivity | exact Hp].
      * right. exists (S k). split; [f_equal; lia | exact Hk].
    + destruct (IH (S i) last r H) as [-> | (k & -> & Hk)]; [left; reflexivity |].
      right. exists (S k). split; [f_equal; lia | exact Hk].
Qed.

Lemma substring_sdrop : forall a n s,
  String.substring a n s = String.substring 0 n (sdrop a s).
Proof.
  induction a as [| a IH]; intros n s; [reflexivity |].
  destruct s as [| c s]; cbn [sdrop].
  - destruct n; reflexivity.
  - cbn [String.substring]. apply IH.
Qed.

Lemma sdrop_add : forall a b s, sdrop (a + b) s = sdrop b (sdrop a s).
Proof.
  induction a as [| a IH]; intros b s; [reflexivity |].
  destruct s as [| c s]; cbn [sdrop Nat.add].
  - destruct b; reflexivity.
  - apply IH.
Qed.

(** The first [S k] characters, when the one at index [k] is [c]. *)
Lemma substring_last c : forall k s t,
  sdrop k s = String c t ->
  String.substring 0 (S k) s = String.substring 0 k s +:+ String c "".
Proof.
  induction k as [| k IH]; intros s t H.
  - cbn in H. subst s. destruct t; reflexivity.
  - destruct s as [| d s]; [discriminate H |].
    cbn [sdrop] in H.
    change (String.substring 0 (S (S k)) (String d s))
      with (String d (String.substring 0 (S k) s)).
    rewrite (IH s t H). reflexivity.
Qed.

Lemma substring_app p : forall n t,
  String.substring 0 (String.length p + n) (p +:+ t) = p +:+ String.substring 0 n t.
Proof.
  induction p as [| c p IH]; intros n t; [reflexivity |].
  change (String c (String.substring 0 (String.length p + n) (p +:+ t))
          = String c (p +:+ String.substring 0 n t)).
  rewrite IH. reflexivity.
Qed.

Lemma sdrop_app p : forall t, sdrop (String.length p) (p +:+ t) = t.
Proof. induction p as [| c p IH]; intros t; [reflexivity | apply IH]. Qed.

Lemma rstrip_closing : forall w, Py.rstrip (w +:+ ")") = w +:+ ")".
Proof.
  induction w as [| c w IH]; [reflexivity |].
  change (String c w +:+ ")") with (String c (w +:+ ")")).
  change (Py.rstrip (String c (w +:+ ")")))
    with (match Py.rstrip (w +:+ ")") with
          | EmptyString => if Py.isspace c then EmptyString else String c EmptyString
          | r' => String c r'
          end).
  rewrite IH.
  destruct (w +:+ ")") eqn:E; [| reflexivity].
  destruct w; discriminate E.
Qed.

Lemma endswith_closing : forall w, Py.endswith (w +:+ ")") ")" = true.
Proof.
  induction w as [| c w IH]; [reflexivity |].
  change (String c w +:+ ")") with (String c (w +:+ ")")).
  change (Py.endswith (String c (w +:+ ")")) ")")
    with (String.eqb (String c (w +:+ ")")) ")" || Py.endswith (w +:+ ")") ")").
  rewrite IH. apply orb_true_r.
Qed.

Lemma append_assoc a : forall b c, (a +:+ b) +:+ c = a +:+ (b +:+ c).
Proof.
  induction a as [| x a IH]; intros b c; [reflexivity |].
  change (String x ((a +:+ b) +:+ c) = String x (a +:+ (b +:+ c))).
  rewrite IH. reflexivity.
Qed.

Lemma prefix_app p : forall t, String.prefix p (p +:+ t) = true.
Proof.
  induction p as [| c p IH]; intros t; [destruct t; reflexivity |].
  change (String c p +:+ t) with (String c (p +:+ t)).
  cbn [String.prefix]. destruct (ascii_dec c c) as [_ | Hne]; [apply IH | congruence].
Qed.

Lemma well_formed_span w : well_formed ("(kicad_sch" +:+ w +:+ ")") = true.
Proof.
  assert (El : Py.lstrip ("(kicad_sch" +:+ w +:+ ")") = ("(kicad_sch" +:+ w) +:+ ")")
    by reflexivity.
  unfold well_formed, Py.strip.
  rewrite El, rstrip_closing, endswith_closing.
  unfold Py.startswith. rewrite append_assoc, prefix_app. reflexivity.
Qed.

(** A reply with the opening token and a closing parenthesis after it gives a
    well-formed candidate. *)
Lemma extract_document_span reply :
  Py.find reply "(kicad_sch" <> -1 ->
  Py.find reply "(kicad_sch" < Py.rfind reply ")" ->
  well_formed (extract_document reply) = true.
Proof.
  intros Hs Hlt. unfold extract_document.
  destruct (find_from_found "(kicad_sch" reply 0 _ eq_refl Hs) as (a & Ha & Hpre).
  destruct (rfind_from_found ")" reply 0 (-1) _ eq_refl) as [He | (e & He & Hclose)].
  { unfold Py.find, Py.rfind in *. lia. }
  unfold Py.find, Py.rfind in *. rewrite Ha, He in *. cbn [Nat.add] in *.
  replace (negb (Z.of_nat a =? -1) && negb (Z.of_nat e =? -1) && (Z.of_nat a <? Z.of_nat e))
    with true
    by (symmetry; rewrite !andb_true_iff, !negb_true_iff, !Z.eqb_neq, Z.ltb_lt; lia).
  unfold Py.slice. rewrite substring_sdrop.
  replace (Z.to_nat (Z.of_nat e + 1 - Z.of_nat a)) with (S (e - a)) by lia.
  rewrite Nat2Z.id.
  destruct (prefix_split _ _ Hpre) as [t Ht].
  destruct (prefix_split _ _ Hclose) as [t2 Ht2]. cbn [String.append] in Ht2.
  assert (Hd : sdrop (e - a) (sdrop a reply) = String ")" t2).
  { rewrite <- sdrop_add. replace (a + (e - a))%nat with e by lia. exact Ht2. }
  rewrite Ht in Hd |- *.
  assert (Hlen : (10 <= e - a)%nat).
  { destruct (e - a)%nat as [| [| [| [| [| [| [| [| [| [| d]]]]]]]]]] eqn:Ed;
      try (cbn in Hd; discriminate Hd); lia. }
  rewrite (substring_last ")" _ _ t2 Hd).
  replace (e - a)%nat with (String.length "(kicad_sch" + (e - a - 10))%nat
    by (cbn [String.length]; lia).
  rewrite substring_app.
  rewrite append_assoc. apply well_formed_span.
Qed.

Lemma find_truthy r : Py.find r "(kicad_sch" <> -1 -> Py.truthy r = true.
Proof. destruct r; [intros H; exfalso; apply H; reflexivity | reflexivity]. Qed.

Lemma well_formed_non_blank p :
  well_formed p = true -> non_blank (Some p) = true.
Proof.
  unfold well_formed, non_blank, Py.startswith. intros H.
  apply andb_prop in H as [H _].
  destruct (Py.strip p) eqn:Hs; [discriminate |].
  destruct p; [discriminate |]. reflexivity.
Qed.

(** C3.  Whatever the service replies (or if the call raises), [write] leaves
    every other file alone and persists at [out_path] exactly one of three
    documents: the candidate extracted from the reply when that is
    well-formed; otherwise the previous document, unchanged, when there is a
    non-blank one; otherwise the seed, which holds the header, the paper size
    and the title block.  A candidate that is not well-formed is never what
    gets written, and when the previous document is well-formed (or there is
    none) so is the document persisted.  A reply that holds the opening token
    and a closing parenthesis after it always gives a well-formed candidate,
    the span from the one to the other, and that span is what is written. *)
Theorem write_persists_one_of_three :
  forall (L : PyLib) (W : World) self files spec allowed out_path prev found reference,
    let reply :=
      writer_chat (S (_iter_counter self))
        (request_of self spec allowed prev found reference) in
    let candidate := candidate_of reply in
    let files' := snd (write self files spec allowed out_path prev found reference) in
    exists doc,
      files' = <[out_path := doc]> files
      /\ doc = write_policy candidate prev
      /\ ((well_formed candidate = true /\ doc = candidate)
          \/ (well_formed candidate = false /\ non_blank prev = true /\ prev = Some doc)
          \/ (well_formed candidate = false /\ non_blank prev = false
              /\ doc = _seed_schematic "Untitled"))
      /\ ((forall p, prev = Some p -> well_formed p = true) -> well_formed doc = true)
      /\ (forall r,
            reply = Some r ->
            Py.find r "(kicad_sch" <> -1 ->
            Py.find r "(kicad_sch" < Py.rfind r ")" ->
            doc = Py.slice r (Py.find r "(kicad_sch") (Py.rfind r ")" + 1)
            /\ well_formed doc = true)
      /\ _seed_schematic "Untitled"
         = "(kicad_sch (version 20250114) (generator eeschema)" +:+ String Py.nl
             "  (paper " +:+ Py.quoted "A4" +:+ ")" +:+ String Py.nl
             "  (title_block (title " +:+ Py.quoted "Untitled" +:+ "))" +:+ String Py.nl
             ")" +:+ String Py.nl "".
Proof.
  intros. exists (write_policy candidate prev).
  split; [apply write_files |]. split; [reflexivity |].
  split; [| split; [| split; [| reflexivity]]].
  - unfold write_policy.
    destruct (well_formed candidate) eqn:Hwf; [left; auto |].
    right. destruct (non_blank prev) eqn:Hnb.
    + left. split; [reflexivity |]. split; [reflexivity |].
      destruct prev; [reflexivity | discriminate].
    + right. auto.
  - intros Hprev. unfold write_policy.
    destruct (well_formed candidate) eqn:Hwf; [exact Hwf |].
    destruct prev as [p |].
    + rewrite (well_formed_non_blank p) by (apply Hprev; reflexivity).
      apply Hprev. reflexivity.
    + cbn [non_blank]. vm_compute. reflexivity.
  - intros r Hr Hfound Hlt.
    assert (Hc : candidate = extract_document r).
    { unfold candidate, candidate_of. rewrite Hr, (find_truthy r Hfound). reflexivity. }
    pose proof (extract_document_span r Hfound Hlt) as Hwf.
    unfold write_policy. rewrite Hc, Hwf. split; [| exact Hwf].
    unfold extract_document.
    replace (negb (Py.find r "(kicad_sch" =? -1) && negb (Py.rfind r ")" =? -1)
             && (Py.find r "(kicad_sch" <? Py.rfind r ")"))
      with true; [reflexivity |].
    symmetry. rewrite !andb_true_iff, !negb_true_iff, !Z.eqb_neq, Z.ltb_lt.
    assert (-1 <= Py.find r "(kicad_sch").
    { destruct (find_from_found "(kicad_sch" r 0 _ eq_refl Hfound) as (k & Hk & _).
      unfold Py.find. lia. }
    lia.
Qed.

(** ** The consistency checker on an unreadable file, and as a function of
    the text *)

Lemma read_text_agree (files1 files2 : gmap string string) p1 p2 :
  files1 !! p1 = files2 !! p2 -> read_text files1 p1 = read_text files2 p2.
Proof. unfold read_text. intros ->. reflexivity. Qed.

Lemma extract_agree {L : PyLib} (files1 files2 : gmap string string) p1 p2 :
  files1 !! p1 = files2 !! p2 ->
  _extract_instances files1 p1 = _extract_instances files2 p2.
Proof.
  intros H. unfold _extract_instances.
  rewrite (read_text_agree _ _ _ _ H). reflexivity.
Qed.

Lemma validate_agree {L : PyLib} (W1 W2 : World) i1 i2
  (files1 files2 : gmap string string) p1 p2 :
  files1 !! p1 = files2 !! p2 ->
  validate (W := W1) heuristic i1 files1 p1 = validate (W := W2) heuristic i2 files2 p2.
Proof.
  intros H. unfold validate, _check_missing_embedded_symbols,
    _check_symbol_pins_and_graphics, _check_invalid_lib_ids_and_sheet,
    _check_instance_positions_and_refs.
  rewrite (read_text_agree _ _ _ _ H), (extract_agree _ _ _ _ H).
  reflexivity.
Qed.

Lemma probes_never_raise {L : PyLib} (files : gmap string string) p :
  (exists l, _check_missing_embedded_symbols files p = Ok l)
  /\ (exists l, _check_symbol_pins_and_graphics files p = Ok l)
  /\ (exists l, _check_invalid_lib_ids_and_sheet files p = Ok l)
  /\ (exists l, _check_instance_positions_and_refs files p = Ok l).
Proof.
  unfold _check_missing_embedded_symbols, _check_symbol_pins_and_graphics,
    _check_invalid_lib_ids_and_sheet, _check_instance_positions_and_refs.
  destruct (read_text files p) as [text | e].
  - repeat split; eauto.
    + destruct (Re.findall1 Pat.lib_id text); [eauto |].
      destruct (negb _); eauto.
    + destruct (negb _); eauto.
  - repeat split; eauto.
Qed.

Lemma validate_heuristic_ok {L : PyLib} {W : World} i (files : gmap string string) p :
  exists l, validate heuristic i files p = Ok l.
Proof.
  destruct (probes_never_raise files p) as ([l1 H1] & [l2 H2] & [l3 H3] & [l4 H4]).
  unfold validate. rewrite H1, H2, H3, H4. cbn. eauto.
Qed.

(** C4, as the code has it.  When the file cannot be read every probe of the
    heuristic checker, the completeness probe included, returns no issue, and
    so does the checker as a whole; the line that says the file cannot be
    read comes from the probe that asks the completion service, which runs
    only when that service is enabled.  On every input, readable or not, the
    heuristic checker returns a list and never raises. *)
Theorem unreadable_file_yields_no_issue :
  forall (L : PyLib) (W : World) (files : gmap string string) (path : string),
    (files !! path = None ->
       _check_missing_embedded_symbols files path = Ok []
       /\ _check_symbol_pins_and_graphics files path = Ok []
       /\ _check_invalid_lib_ids_and_sheet files path = Ok []
       /\ _check_instance_positions_and_refs files path = Ok []
       /\ (forall i, validate heuristic i files path = Ok [])
       /\ (forall i, _check_kicad_text_llm {| use_llm := true |} i files path
                     = Ok ["Cannot read schematic file: " +:+ path]))
    /\ (forall i, exists found, validate heuristic i files path = Ok found).
Proof.
  intros L W files path. split.
  - intros Hnone.
    assert (Hr : read_text files path = Raise FileNotFoundError)
      by (unfold read_text; rewrite Hnone; reflexivity).
    unfold validate, _check_missing_embedded_symbols, _check_symbol_pins_and_graphics,
      _check_invalid_lib_ids_and_sheet, _check_instance_positions_and_refs,
      _check_kicad_text_llm, _extract_instances.
    rewrite Hr. cbn. repeat split; reflexivity.
  - intros i. apply validate_heuristic_ok.
Qed.

(** C9.  With the completion service disabled the consistency checker is a
    function of the text of the document alone: two runs that read the same
    content (or both fail to read) return the same issues in the same order,
    whatever the path, the other files, the iteration and the collaborators
    are; the run reads the files and changes none. *)
Theorem validate_is_a_function_of_the_text :
  forall (L : PyLib) (W1 W2 : World) (i1 i2 : nat)
         (files1 files2 : gmap string string) (p1 p2 : string),
    files1 !! p1 = files2 !! p2 ->
    validate (W := W1) heuristic i1 files1 p1
    = validate (W := W2) heuristic i2 files2 p2
    /\ validate (W := W1) heuristic i1 files1 p1 = check_text (files1 !! p1)
    /\ exists found, check_text (files1 !! p1) = Ok found.
Proof.
  intros L W1 W2 i1 i2 files1 files2 p1 p2 H.
  split; [apply validate_agree; exact H |]. split.
  - unfold check_text. apply validate_agree.
    destruct (files1 !! p1) as [t |].
    + rewrite lookup_singleton_eq. reflexivity.
    + rewrite lookup_empty. reflexivity.
  - unfold check_text. apply validate_heuristic_ok.
Qed.

(** ** Placement sanity *)

Lemma fold_left_snoc_acc {A} (f : A -> list string) (l : list A) : forall acc,
  fold_left (fun acc x => acc ++ f x) l acc = acc ++ flat_map f l.
Proof.
  induction l as [| x l IH]; intros acc; cbn.
  - rewrite app_nil_r. reflexivity.
  - rewrite IH, <- app_assoc. reflexivity.
Qed.

(** A loop over the indexes [a, a + k) of a list visits its items in order. *)
Lemma fold_indexes {A B} (f : B -> A -> B) (l : list A) : forall k a acc,
  (a + k = length l)%nat ->
  fold_left
    (fun acc j => match l !! j with Some x => f acc x | None => acc end)
    (seq a k) acc
  = fold_left f (skipn a l) acc.
Proof.
  induction k as [| k IH]; intros a acc Hlen.
  - rewrite skipn_all2 by lia. reflexivity.
  - cbn [seq fold_left].
    destruct (l !! a) as [x |] eqn:Hx.
    + rewrite IH by lia. rewrite (drop_S l x a Hx). reflexivity.
    + apply lookup_ge_None in Hx. lia.
Qed.

Lemma spacing_inner (xi : instance) (rest : list instance) (acc : list string) :
  fold_left
    (fun acc (it : instance) =>
       let '(ref_j, xj, yj, _, _, _) := it in
       if too_close (x_of xi) (y_of xi) xj yj
       then acc ++ [too_close_message (ref_of xi) ref_j]
       else acc)
    rest acc
  = acc ++ map spacing_issue (List.filter closer_than_spacing (map (pair xi) rest)).
Proof.
  revert acc. induction rest as [| it rest IH]; intros acc.
  - cbn. rewrite app_nil_r. reflexivity.
  - destruct it as [[[[[rj xj] yj] rotj] libj] uj].
    cbn [fold_left map List.filter].
    change (closer_than_spacing (xi, (rj, xj, yj, rotj, libj, uj)))
      with (too_close (x_of xi) (y_of xi) xj yj).
    destruct (too_close (x_of xi) (y_of xi) xj yj).
    + rewrite IH. cbn [map].
      change (spacing_issue (xi, (rj, xj, yj, rotj, libj, uj)))
        with (too_close_message (ref_of xi) rj).
      rewrite <- app_assoc. reflexivity.
    + apply IH.
Qed.

Lemma spacing_outer (inst : list instance) : forall k a acc,
  (a + k = length inst)%nat ->
  fold_left
    (fun issues i =>
       match inst !! i with
       | Some (ref_i, xi, yi, _, _, _) =>
           fold_left
             (fun issues j =>
                match inst !! j with
                | Some (ref_j, xj, yj, _, _, _) =>
                    if too_close xi yi xj yj
                    then issues ++ [too_close_message ref_i ref_j]
                    else issues
                | None => issues
                end)
             (seq (i + 1) (length inst - (i + 1))) issues
       | None => issues
       end)
    (seq a k) acc
  = acc ++ map spacing_issue (List.filter closer_than_spacing (pairs (skipn a inst))).
Proof.
  induction k as [| k IH]; intros a acc Hlen.
  - rewrite skipn_all2 by lia. cbn. rewrite app_nil_r. reflexivity.
  - cbn [seq fold_left].
    destruct (inst !! a) as [it |] eqn:Hit.
    + rewrite (drop_S inst it a Hit). cbn [pairs].
      destruct it as [[[[[ri xi] yi] roti] libi] ui].
      rewrite IH by lia.
      pose proof (fold_indexes
                 (fun issues (it : instance) =>
                    let '(ref_j, xj, yj, _, _, _) := it in
                    if too_close xi yi xj yj
                    then issues ++ [too_close_message ri ref_j]
                    else issues)
                 inst (length inst - (a + 1)) (a + 1) acc) as Hinner.
      cbv beta in Hinner. cbv beta iota. unfold instance in *.
      rewrite Hinner by lia. clear Hinner.
      rewrite (spacing_inner (ri, xi, yi, roti, libi, ui)).
      rewrite List.filter_app, List.map_app, <- app_assoc.
      rewrite Nat.add_1_r. reflexivity.
    + apply lookup_ge_None in Hit. unfold instance in *. lia.
Qed.

Lemma spacing_loop_pairs inst acc :
  spacing_loop inst acc
  = acc ++ map spacing_issue (List.filter closer_than_spacing (pairs inst)).
Proof.
  unfold spacing_loop. rewrite (spacing_outer inst (length inst) 0 acc) by lia.
  reflexivity.
Qed.

Lemma naming_loop_acc inst : forall acc,
  naming_loop inst acc = acc ++ naming_loop inst [].
Proof.
  unfold naming_loop.
  induction inst as [| it inst IH]; intros acc.
  - cbn. rewrite app_nil_r. reflexivity.
  - cbn [fold_left]. rewrite IH. symmetry. rewrite IH. symmetry.
    destruct it as [[[[[r x] y] rot] lib_id] has_uuid].
    destruct (negb (Py.startswith (Py.upper r) (_desired_prefix_for_lib lib_id)));
      destruct (negb has_uuid); cbn [app];
      rewrite <- ?app_assoc; reflexivity.
Qed.

Lemma forallb_below (f : nat -> bool) (n : nat) :
  forallb f (seq 0 n) = true -> forall i, (i < n)%nat -> f i = true.
Proof.
  intros H i Hi. rewrite forallb_forall in H. apply H. apply in_seq. lia.
Qed.

Lemma agrees_on_grid_sound n :
  agrees_on_grid n = true ->
  forall xi yi xj yj : nat,
    (xi < n)%nat -> (yi < n)%nat -> (xj < n)%nat -> (yj < n)%nat ->
    too_close (float_of_nat xi) (float_of_nat yi) (float_of_nat xj) (float_of_nat yj)
    = exactly_closer xi yi xj yj.
Proof.
  unfold agrees_on_grid. intros H xi yi xj yj Hxi Hyi Hxj Hyj.
  pose proof (forallb_below _ _ H xi Hxi) as H1. cbv beta in H1.
  pose proof (forallb_below _ _ H1 yi Hyi) as H2. cbv beta in H2.
  pose proof (forallb_below _ _ H2 xj Hxj) as H3. cbv beta in H3.
  pose proof (forallb_below _ _ H3 yj Hyj) as H4. cbv beta in H4.
  apply Bool.eqb_prop in H4. exact H4.
Qed.

Lemma grid_agreement : agrees_on_grid 25 = true.
Proof. vm_compute. reflexivity. Qed.

(** C7, as the code has it.  The placement probe returns, for the
    unordered pairs of the instances it extracts from the file, in the order
    of the two loops, one issue naming both references for every pair that
    is closer than the minimum spacing, and no issue for any other pair; the
    issues about prefixes and unique ids follow.  A pair is closer than the
    spacing when the sum of the squares of its coordinate differences,
    computed on Python's floats as the code computes it, is strictly below
    the square of 20: this is not always the Euclidean distance being below
    20.  Two instances at (0,0) and (5,5) give exactly one such issue, which
    names both references; at (0,0) and (100,100), which is above, and at
    (0,0) and (20,0), which is at the threshold, they give none.  On the
    grid of the integer positions from 0 to 24 the test on floats is the
    exact one: the squared Euclidean distance is below 400. *)
Theorem spacing_issue_per_close_pair :
  (forall (L : PyLib) (files : gmap string string) (path : string),
     _check_instance_positions_and_refs files path
     = Ok (map spacing_issue
               (List.filter closer_than_spacing (pairs (_extract_instances files path)))
           ++ naming_loop (_extract_instances files path) []))
  /\ (forall inst : list instance,
     instance_issues inst
     = map spacing_issue (List.filter closer_than_spacing (pairs inst))
       ++ naming_loop inst []
     /\ spacing_loop inst []
        = map spacing_issue (List.filter closer_than_spacing (pairs inst))
     /\ length (spacing_loop inst [])
        = length (List.filter closer_than_spacing (pairs inst)))
  /\ (forall a b : instance,
        instance_issues [a; b]
        = (if too_close (x_of a) (y_of a) (x_of b) (y_of b)
           then [too_close_message (ref_of a) (ref_of b)] else [])
          ++ naming_loop [a; b] [])
  /\ instance_issues [placed "R1" 0 0; placed "R2" 5 5]
     = ["Placed instances too close: R1 and R2 (increase spacing >= 20.0)."]
  /\ instance_issues [placed "R1" 0 0; placed "R2" 100 100] = []
  /\ instance_issues [placed "R1" 0 0; placed "R2" 20 0] = []
  /\ (forall xi yi xj yj : nat,
        (xi < 25)%nat -> (yi < 25)%nat -> (xj < 25)%nat -> (yj < 25)%nat ->
        too_close (float_of_nat xi) (float_of_nat yi) (float_of_nat xj) (float_of_nat yj)
        = exactly_closer xi yi xj yj).
Proof.
  assert (H : forall inst : list instance,
             instance_issues inst
             = map spacing_issue (List.filter closer_than_spacing (pairs inst))
               ++ naming_loop inst []).
  { intros inst. unfold instance_issues.
    rewrite naming_loop_acc, spacing_loop_pairs. reflexivity. }
  split; [| split; [| split; [| split; [| split; [| split]]]]].
  - intros L files path. unfold _check_instance_positions_and_refs.
    rewrite H. reflexivity.
  - intros inst. split; [apply H |].
    rewrite spacing_loop_pairs. cbn [app].
    split; [reflexivity |]. apply length_map.
  - intros a b. rewrite H. cbn [pairs map app List.filter].
    unfold closer_than_spacing. cbn [fst snd].
    destruct (too_close _ _ _ _); reflexivity.
  - vm_compute. reflexivity.
  - vm_compute. reflexivity.
  - vm_compute. reflexivity.
  - exact (agrees_on_grid_sound 25 grid_agreement).
Qed.

(** ** The allowed-identifier table *)

Lemma sentinel_false lib_id : sentinel (Py.lower lib_id) = false -> not_sentinel lib_id.
Proof.
  unfold sentinel, not_sentinel. intros H.
  apply orb_false_elim in H as [H1 H2].
  apply String.eqb_neq in H1; apply String.eqb_neq in H2. auto.
Qed.

Lemma custom_not_sentinel s : not_sentinel ("Custom:" +:+ s).
Proof. apply sentinel_false. reflexivity. Qed.

Section Table.
Context {W : World}.

Lemma dedup_cap_inv cap candidates : forall seen result,
  dedup_inv cap seen result ->
  Z.of_nat (length result) < Z.max 1 cap ->
  let r := dedup_cap cap candidates seen result in
  NoDup r /\ Forall not_sentinel r /\ Z.of_nat (length r) <= Z.max 1 cap.
Proof.
  induction candidates as [| lib_id rest IH]; intros seen result Hinv Hlen; cbn [dedup_cap].
  - destruct Hinv. repeat split; [assumption | assumption | lia].
  - destruct (sentinel (Py.lower lib_id)) eqn:Hs; [apply IH; assumption |].
    case_bool_decide as Hseen; [apply IH; assumption |].
    assert (Hinv' : dedup_inv cap ({[lib_id]} ∪ seen) (result ++ [lib_id])).
    { destruct Hinv as [Hseen' Hnd Hval]. constructor.
      - intros x. rewrite elem_of_union, elem_of_singleton, in_app_iff, Hseen'.
        cbn. intuition congruence.
      - apply NoDup_app. repeat split; [exact Hnd | | apply NoDup_singleton].
        intros x Hx Hx'. apply list_elem_of_singleton in Hx'. subst x.
        apply Hseen. apply Hseen'. apply list_elem_of_In. exact Hx.
      - apply Forall_app. split; [exact Hval |].
        constructor; [apply sentinel_false; exact Hs | constructor]. }
    assert (Hl : length (result ++ [lib_id]) = S (length result))
      by (rewrite length_app; cbn; lia).
    destruct (Z.leb_spec cap (Z.of_nat (length (result ++ [lib_id])))) as [Hfull | Hroom].
    + destruct Hinv'. repeat split; [assumption | assumption | lia].
    + apply IH; [exact Hinv' | lia].
Qed.

Lemma candidates_for_part_valid (part : PartSpec) (cap : Z) :
  let l := candidates_for_part part cap in
  l <> [] /\ NoDup l /\ Forall not_sentinel l /\ Z.of_nat (length l) <= Z.max 1 cap.
Proof.
  unfold candidates_for_part.
  match goal with
  | |- context [dedup_cap cap ?c ∅ []] => set (cands := c)
  end.
  destruct (dedup_cap_inv cap cands ∅ []) as (Hnd & Hval & Hlen).
  { constructor; [| constructor | constructor].
    intros x. rewrite elem_of_empty. cbn. tauto. }
  { cbn. lia. }
  cbv zeta in Hnd, Hval, Hlen.
  destruct (dedup_cap cap cands ∅ []) as [| c l] eqn:Hr.
  - assert (Hone : forall s, let l := ["Custom:" +:+ s] in
                   l <> [] /\ NoDup l /\ Forall not_sentinel l
                   /\ Z.of_nat (length l) <= Z.max 1 cap).
    { intros s. cbv zeta. repeat split.
      - discriminate.
      - apply NoDup_singleton.
      - constructor; [apply custom_not_sentinel | constructor].
      - cbn. lia. }
    destruct (value part) as [v |]; [destruct (Py.truthy v) |]; apply Hone.
  - repeat split; [discriminate | assumption | assumption | assumption].
Qed.

Lemma dict_set_fresh {V} (k : string) (v : V) (table : list (string * V)) :
  ~ In k (map fst table) -> Json.dict_set k v table = table ++ [(k, v)].
Proof.
  induction table as [| [k' v'] table IH]; intros Hk; cbn [Json.dict_set].
  - reflexivity.
  - cbn in Hk. destruct (String.eqb_spec k k') as [-> | Hne]; [tauto |].
    rewrite IH by tauto. reflexivity.
Qed.

Lemma candidates_for_parts_map (cap : Z) (parts : list PartSpec) : forall table,
  NoDup (map fst table ++ map ref parts) ->
  fold_left
    (fun table p => Json.dict_set (ref p) (candidates_for_part p cap) table)
    parts table
  = table ++ map (fun p => (ref p, candidates_for_part p cap)) parts.
Proof.
  induction parts as [| p parts IH]; intros table Hnd; cbn [fold_left map].
  - rewrite app_nil_r. reflexivity.
  - rewrite dict_set_fresh.
    + rewrite IH.
      * rewrite <- app_assoc. reflexivity.
      * rewrite List.map_app. cbn [map fst]. rewrite <- app_assoc. exact Hnd.
    + apply NoDup_app in Hnd as (_ & Hdisj & _).
      intros Hin. apply (Hdisj (ref p)); [apply list_elem_of_In; exact Hin |].
      cbn [map]. left.
Qed.

End Table.

(** C5.  For parts with distinct references and a cap of at least one, the
    table has exactly one key per part, in the order of the parts; its value
    at a reference is [candidates_for_part] of that part, which is never
    empty, holds no more entries than the cap, holds none twice and holds
    neither sentinel in any case of letters.  (Under a cap below one every
    value has exactly one entry.) *)
Theorem candidates_table_is_total_and_valid :
  forall (W : World) (parts : list PartSpec) (max_per_lib : Z),
    NoDup (map ref parts) ->
    1 <= max_per_lib ->
    let table := candidates_for_parts parts max_per_lib in
    map fst table = map ref parts
    /\ length table = length parts
    /\ table = map (fun p => (ref p, candidates_for_part p max_per_lib)) parts
    /\ Forall
         (fun entry : string * list string =>
            snd entry <> []
            /\ Z.of_nat (length (snd entry)) <= max_per_lib
            /\ NoDup (snd entry)
            /\ Forall not_sentinel (snd entry))
         table.
Proof.
  intros W parts cap Hnd Hcap table.
  assert (Ht : table = map (fun p => (ref p, candidates_for_part p cap)) parts).
  { subst table. unfold candidates_for_parts.
    rewrite candidates_for_parts_map by exact Hnd. reflexivity. }
  rewrite Ht. split; [| split; [| split]].
  - rewrite List.map_map. reflexivity.
  - apply length_map.
  - reflexivity.
  - apply List.Forall_forall. intros entry Hin.
    apply in_map_iff in Hin as (p & <- & _). cbn [snd].
    destruct (candidates_for_part_valid p cap) as (Hne & Hnd' & Hval & Hlen).
    repeat split; [exact Hne | lia | exact Hnd' | exact Hval].
Qed.

(** ** Loading the circuit *)

Lemma mem_In x l : Py.mem x l = true <-> In x l.
Proof.
  unfold Py.mem. rewrite existsb_exists. split.
  - intros (y & Hy & Heq). apply String.eqb_eq in Heq. subst. exact Hy.
  - intros H. exists x. split; [exact H | apply String.eqb_refl].
Qed.

Lemma step_nodup acc x : NoDup acc -> NoDup (step acc x).
Proof.
  intros H. unfold step. destruct (Py.mem x acc) eqn:Hm; [exact H |].
  apply NoDup_app. repeat split; [exact H | | apply NoDup_singleton].
  intros y Hy Hy'. apply list_elem_of_singleton in Hy'. subst y.
  apply list_elem_of_In, mem_In in Hy. congruence.
Qed.

Lemma fold_step_nodup l : forall acc, NoDup acc -> NoDup (fold_left step l acc).
Proof.
  induction l as [| x l IH]; intros acc H; cbn; [exact H |].
  apply IH, step_nodup, H.
Qed.

Lemma fold_step_incl l : forall acc x, In x acc -> In x (fold_left step l acc).
Proof.
  induction l as [| y l IH]; intros acc x H; cbn; [exact H |].
  apply IH. unfold step. destruct (Py.mem y acc); [exact H |].
  apply in_or_app. left. exact H.
Qed.

Lemma fold_step_last l x : forall acc, In x (fold_left step (l ++ [x]) acc).
Proof.
  intros acc. rewrite fold_left_app. cbn. unfold step at 1.
  destruct (Py.mem x _) eqn:Hm; [apply mem_In; exact Hm |].
  apply in_or_app. right. left. reflexivity.
Qed.

Lemma add_net_step acc (v : JSON) :
  seen_ok acc ->
  seen_ok (add_net acc v)
  /\ names (fst (add_net acc v))
     = match v with
       | JStr s => if Py.truthy s then step (names (fst acc)) s else names (fst acc)
       | _ => names (fst acc)
       end.
Proof.
  destruct acc as [nets seen]. unfold seen_ok. cbn [fst snd]. intros Hok.
  destruct v as [| b | n | x | s | l | kv]; cbn [add_net];
    try (split; [exact Hok | reflexivity]).
  destruct (Py.truthy s) eqn:Ht; cbn [andb]; [| split; [exact Hok | reflexivity]].
  unfold step. case_bool_decide as Hin; cbn [negb fst snd].
  - apply Hok in Hin. apply mem_In in Hin as ->.
    split; [exact Hok | reflexivity].
  - assert (Hm : Py.mem s (names nets) = false).
    { destruct (Py.mem s (names nets)) eqn:Hm; [| reflexivity].
      apply mem_In, Hok in Hm. contradiction. }
    rewrite Hm. unfold names. rewrite List.map_app. cbn [map name]. split; [| reflexivity].
    intros x. rewrite elem_of_union, elem_of_singleton, in_app_iff, Hok.
    cbn. unfold names. intuition congruence.
Qed.

Lemma scan_keys (n : JSON) (keys : list string) : forall acc acc',
  seen_ok acc ->
  rfold (fun acc key => let* nm := Json.get n key in Ok (add_net acc nm)) keys acc
  = Ok acc' ->
  seen_ok acc'
  /\ names (fst acc') = fold_left step (omap (declared_name n) keys) (names (fst acc)).
Proof.
  induction keys as [| key keys IH]; intros acc acc' Hok H; cbn [rfold] in H.
  - injection H as <-. split; [exact Hok | reflexivity].
  - destruct n as [| | | | | | kv]; try discriminate.
    cbn [Json.get Json.get_default rbind] in H.
    set (v := match Json.assoc key kv with Some v => v | None => JNull end) in H.
    destruct (add_net_step acc v Hok) as [Hok' Hn].
    destruct (IH _ _ Hok' H) as [Hok'' Hn'].
    split; [exact Hok'' |]. rewrite Hn', Hn.
    change (omap (declared_name (JObj kv)) (key :: keys))
      with (match declared_name (JObj kv) key with
            | Some y => y :: omap (declared_name (JObj kv)) keys
            | None => omap (declared_name (JObj kv)) keys
            end).
    cbn [declared_name].
    subst v. destruct (Json.assoc key kv) as [[| | | | s | |] |]; try reflexivity.
    destruct (Py.truthy s); reflexivity.
Qed.

Lemma scan_entries (keys : list string) (entries : list JSON) : forall acc acc',
  seen_ok acc ->
  rfold
    (fun acc n =>
       rfold (fun acc key => let* nm := Json.get n key in Ok (add_net acc nm)) keys acc)
    entries acc
  = Ok acc' ->
  seen_ok acc'
  /\ names (fst acc') = fold_left step (declared_names keys entries) (names (fst acc)).
Proof.
  induction entries as [| n entries IH]; intros acc acc' Hok H; cbn [rfold] in H.
  - injection H as <-. split; [exact Hok | reflexivity].
  - destruct (rfold _ keys acc) as [acc1 | e] eqn:H1; [| discriminate].
    cbn [rbind] in H.
    destruct (scan_keys n keys acc acc1 Hok H1) as [Hok1 Hn1].
    destruct (IH acc1 acc' Hok1 H) as [Hok' Hn'].
    split; [exact Hok' |].
    unfold declared_names. cbn [flat_map]. rewrite fold_left_app, <- Hn1. exact Hn'.
Qed.

Lemma scan_objects (keys : list string) (entries : list JSON) : forall acc,
  forallb is_object entries = true ->
  exists acc',
    rfold
      (fun acc n =>
         rfold (fun acc key => let* nm := Json.get n key in Ok (add_net acc nm)) keys acc)
      entries acc
    = Ok acc'.
Proof.
  induction entries as [| n entries IH]; intros acc H; cbn [rfold].
  - eauto.
  - cbn [forallb] in H. apply andb_prop in H as [Hn H].
    destruct n as [| | | | | | kv]; try discriminate.
    assert (Hk : forall acc, exists acc1,
               rfold (fun acc key => let* nm := Json.get (JObj kv) key in Ok (add_net acc nm))
                     keys acc = Ok acc1).
    { clear. induction keys as [| key keys IHk]; intros acc; cbn [rfold]; [eauto |].
      cbn [Json.get Json.get_default rbind]. apply IHk. }
    destruct (Hk acc) as [acc1 ->]. cbn [rbind]. apply IH. exact H.
Qed.

Lemma scan_single (entries : list JSON) (acc : list NetSpec * gset string) :
  rfold (fun acc pd => let* nm := Json.get pd "name" in Ok (add_net acc nm)) entries acc
  = rfold
      (fun acc n =>
         rfold (fun acc key => let* nm := Json.get n key in Ok (add_net acc nm))
               ["name"] acc)
      entries acc.
Proof.
  revert acc. induction entries as [| n entries IH]; intros acc; cbn [rfold]; [reflexivity |].
  destruct (Json.get n "name") as [v | e]; cbn [rbind]; [apply IH | reflexivity].
Qed.

Lemma entries_of_iter kv k d v items :
  Json.get_default (JObj kv) k (JArr d) = Ok v ->
  Json.iter v = Ok items ->
  d = [] ->
  entries_of (JObj kv) k = items.
Proof.
  intros Hg Hi ->. cbn in Hg. injection Hg as <-.
  unfold entries_of. destruct (Json.assoc k kv) as [v |].
  - rewrite Hi. reflexivity.
  - cbn in Hi. injection Hi as <-. reflexivity.
Qed.

Ltac step_ok H x E :=
  match type of H with
  | rbind ?r _ = Ok _ =>
      destruct r as [x | ?] eqn:E; [cbn [rbind] in H | discriminate H]
  end.

Section PseudoCad.
Context {L : PyLib}.

Lemma convert_nets (data : JSON) (c : CircuitSpec) :
  _convert_pseudo_cad_schema data = Ok c ->
  names (nets c) = first_occurrences (scanned_names data ++ ["GND"]).
Proof.
  unfold _convert_pseudo_cad_schema. intros H.
  destruct data as [| | | | | | kv]; try discriminate H.
  step_ok H device Hdev. step_ok H device_name Hname.
  step_ok H comps Hcomps. step_ok H components Hcomponents.
  step_ok H netv Hnetv. step_ok H net_items Hnets.
  step_ok H acc1 Hscan1.
  step_ok H domv Hdomv. step_ok H domains Hdoms.
  step_ok H acc2 Hscan2.
  destruct acc2 as [nets2 seen2].
  step_ok H t Ht. injection H as <-. cbn [nets].
  rewrite scan_single in Hscan2.
  destruct (scan_entries ["id"; "name"] net_items ([], ∅) acc1) as [Hok1 Hn1];
    [intros x; cbn; rewrite elem_of_empty; tauto | exact Hscan1 |].
  destruct (scan_entries ["name"] domains acc1 (nets2, seen2) Hok1 Hscan2) as [Hok2 Hn2].
  cbn [fst] in Hn2. cbn [fst names map] in Hn1.
  unfold first_occurrences, scanned_names.
  rewrite (entries_of_iter kv "nets" [] netv net_items Hnetv Hnets eq_refl).
  rewrite (entries_of_iter kv "powerDomains" [] domv domains Hdomv Hdoms eq_refl).
  rewrite !fold_left_app.
  change (names []) with (@nil string) in Hn1.
  rewrite <- Hn1, <- Hn2. cbn [fold_left]. unfold step.
  case_bool_decide as Hgnd; cbn [negb].
  - apply Hok2 in Hgnd. cbn [fst] in Hgnd. apply mem_In in Hgnd as ->. reflexivity.
  - destruct (Py.mem "GND" (names nets2)) eqn:Hm.
    + apply mem_In in Hm. apply Hok2 in Hm. contradiction.
    + unfold names. rewrite List.map_app. reflexivity.
Qed.

Lemma convert_total (data : JSON) :
  well_shaped data = true -> exists c, _convert_pseudo_cad_schema data = Ok c.
Proof.
  unfold well_shaped, _convert_pseudo_cad_schema. intros H.
  destruct data as [| | | | | | kv]; try discriminate H.
  apply andb_prop in H as [H Hdoms]. apply andb_prop in H as [H Hnets].
  apply andb_prop in H as [Hdev Hcomps].
  cbn [Json.get_default rbind].
  assert (Htitle : exists t,
             (let* device_name :=
                Json.get (match Json.assoc "device" kv with Some v => v | None => JObj [] end)
                         "name" in
              let* t := optional_str (Json.or_else device_name (JStr "Untitled")) in
              Ok t) = Ok t).
  { destruct (Json.assoc "device" kv) as [[| | | | | | d] |]; try discriminate Hdev.
    - cbn [Json.get Json.get_default rbind].
      destruct (Json.assoc "name" d) as [v |]; [| cbn; eauto].
      unfold Json.or_else.
      destruct v; cbn in Hdev |- *; try (destruct (Json.truthy _); discriminate || eauto);
        eauto.
      all: try (match goal with
                | H : negb ?b = true |- _ => destruct b eqn:?; [discriminate H | cbn; eauto]
                end).
      destruct (Py.truthy s); cbn; eauto.
    - cbn. eauto. }
  destruct Htitle as [t Ht].
  destruct (Json.get _ "name") as [device_name | e]; [| discriminate Ht].
  cbn [rbind] in Ht |- *.
  destruct (optional_str _) as [t' | e]; [| discriminate Ht].
  assert (Hiter : forall o, match o with None | Some (JArr _) => true | Some _ => false end = true ->
            exists l, Json.iter (match o with Some v => v | None => JArr [] end) = Ok l).
  { intros [[| | | | | | ?] |] Ho; try discriminate Ho; cbn; eauto. }
  destruct (Hiter _ Hcomps) as [components ->]. cbn [rbind].
  assert (Hobj : forall o, objects o = true ->
            exists l, Json.iter (match o with Some v => v | None => JArr [] end) = Ok l
                      /\ forallb is_object l = true).
  { intros [[| | | | | | ?] |] Ho; try discriminate Ho; cbn; eauto. }
  destruct (Hobj _ Hnets) as (net_items & -> & Hn). cbn [rbind].
  destruct (scan_objects ["id"; "name"] net_items ([], ∅) Hn) as [acc1 ->]. cbn [rbind].
  destruct (Hobj _ Hdoms) as (domains & -> & Hd). cbn [rbind].
  rewrite scan_single.
  destruct (scan_objects ["name"] domains acc1 Hd) as [[nets2 seen2] ->]. cbn [rbind].
  eauto.
Qed.

End PseudoCad.

(** C10.  Whenever the conversion of a pseudo-CAD input returns a circuit, the
    names of its nets are the names the input declares, each kept at its
    first occurrence in the order of the scan (the nets first, [id] before
    [name], then the power domains), followed by GND when no entry supplied
    it; so no name occurs twice and GND is always among them.  The conversion
    does return a circuit when the fields of the input have the expected
    kinds. *)
Theorem pseudo_cad_nets_unique_with_ground :
  forall (L : PyLib) (data : JSON),
    (forall c,
       _convert_pseudo_cad_schema data = Ok c ->
       names (nets c) = first_occurrences (scanned_names data ++ ["GND"])
       /\ names (nets c)
          = first_occurrences (scanned_names data)
            ++ (if Py.mem "GND" (first_occurrences (scanned_names data))
                then [] else ["GND"])
       /\ NoDup (names (nets c))
       /\ In "GND" (names (nets c)))
    /\ (well_shaped data = true -> exists c, _convert_pseudo_cad_schema data = Ok c).
Proof.
  intros L data. split; [| apply convert_total].
  intros c Hc. rewrite (convert_nets data c Hc).
  split; [reflexivity |]. split; [| split].
  - unfold first_occurrences. rewrite fold_left_app. cbn [fold_left].
    unfold step at 1.
    destruct (Py.mem "GND" _); [rewrite app_nil_r |]; reflexivity.
  - apply fold_step_nodup. constructor.
  - apply fold_step_last.
Qed.

(** C8, as the code has it.  Loading fails when the file cannot be read and
    when its content is not JSON ([json.loads] raises and nothing catches
    it).  For a content that decodes, loading yields the empty default circuit
    (title "Untitled", no parts, no nets) whenever the decoded value is not an
    object or is an object with none of the keys [components], [parts] and
    [nets]; so a circuit other than the default comes only from the native or
    the pseudo-CAD shape, whose conversion or validation decides the
    result. *)
Theorem load_default_on_unrecognized_shape :
  forall (L : PyLib) (files : gmap string string) (path : string),
    match files !! path with
    | None => load_circuit_spec files path = Raise FileNotFoundError
    | Some text =>
        match json_loads text with
        | None => load_circuit_spec files path = Raise JSONDecodeError
        | Some raw =>
            (unrecognized raw = true -> load_circuit_spec files path = Ok default_circuit)
            /\ (forall c,
                  load_circuit_spec files path = Ok c ->
                  c <> default_circuit -> unrecognized raw = false)
            /\ (forall kv,
                  raw = JObj kv -> unrecognized raw = false ->
                  load_circuit_spec files path
                  = if Json.has_key "components" kv
                    then _convert_pseudo_cad_schema raw
                    else circuit_of_dict kv)
        end
    end
    /\ default_circuit = {| title := Some "Untitled"; parts := []; nets := [] |}.
Proof.
  intros L files path. split; [| reflexivity].
  unfold load_circuit_spec, read_text.
  destruct (files !! path) as [text |]; [| reflexivity].
  cbn [rbind]. destruct (json_loads text) as [raw |]; [| reflexivity].
  assert (Hun : unrecognized raw = true -> 
                match raw with
                | JObj kv =>
                    if Json.has_key "components" kv then _convert_pseudo_cad_schema raw
                    else if Json.has_key "parts" kv || Json.has_key "nets" kv
                         then circuit_of_dict kv else Ok default_circuit
                | _ => Ok default_circuit
                end = Ok default_circuit).
  { intros Hu. destruct raw as [| | | | | | kv]; try reflexivity.
    unfold unrecognized in Hu.
    destruct (Json.has_key "components" kv); [discriminate Hu |].
    cbn [orb] in Hu.
    destruct (Json.has_key "parts" kv || Json.has_key "nets" kv); [discriminate Hu |].
    reflexivity. }
  split; [exact Hun |]. split.
  - intros c Hc Hne. destruct (unrecognized raw) eqn:Hu; [| reflexivity].
    rewrite (Hun eq_refl) in Hc. congruence.
  - intros kv -> Hu. unfold unrecognized in Hu.
    destruct (Json.has_key "components" kv); [reflexivity |].
    cbn [orb] in Hu.
    destruct (Json.has_key "parts" kv || Json.has_key "nets" kv); [reflexivity |].
    discriminate Hu.
Qed.

(** ** The convergence loop *)

Lemma with_progress_id st : with_progress st (progress st) = st.
Proof. destruct st; reflexivity. Qed.

Lemma with_progress_twice st p q : with_progress (with_progress st p) q = with_progress st q.
Proof. reflexivity. Qed.

Section Emit.
Context {W : World}.

(** A line is delivered, or the callback raises and the store stays. *)
Lemma emit_run cb msg st :
  (exists p, _emit cb msg st = (Ok tt, with_progress st p))
  \/ (exists e p, _emit cb msg st = (Raise e, with_progress st p) /\ callback_raises cb e).
Proof.
  unfold _emit. destruct cb.
  - destruct (progress_call (progress st) msg) as [e |] eqn:Hc.
    + right. exists e, (progress st). rewrite with_progress_id.
      split; [reflexivity |]. split; [reflexivity | eauto].
    + left. eexists. reflexivity.
  - left. exists (progress st). rewrite with_progress_id. reflexivity.
Qed.

Lemma emit_all_run cb lines : forall st,
  (exists p, emit_all cb lines st = (Ok tt, with_progress st p))
  \/ (exists e p, emit_all cb lines st = (Raise e, with_progress st p)
                  /\ callback_raises cb e).
Proof.
  induction lines as [| l lines IH]; intros st; cbn [emit_all].
  - left. exists (progress st). rewrite with_progress_id. reflexivity.
  - unfold bind. destruct (emit_run cb l st) as [[p ->] | (e & p & -> & Hc)].
    + destruct (IH (with_progress st p)) as [[q ->] | (e & q & -> & Hc)].
      * left. exists q. reflexivity.
      * right. exists e, q. auto.
    + right. exists e, p. auto.
Qed.


End Emit.

(** Closes the case in which the callback has just raised. *)
Ltac callback_raised :=
  solve [ right; do 2 eexists; split; [reflexivity | assumption] ].

(** Runs the next step that reports progress. *)
Ltac run_emit :=
  cbv beta iota;
  match goal with
  | |- context [_emit ?cb ?msg ?st] =>
      let p := fresh "p" in
      let e := fresh "e" in
      let H := fresh "H" in
      let Hc := fresh "Hc" in
      destruct (emit_run cb msg st) as [[p H] | (e & p & H & Hc)];
      rewrite H; clear H;
      cbv beta iota; rewrite ?with_progress_twice;
      [| callback_raised]
  | |- context [emit_all ?cb ?l ?st] =>
      let p := fresh "p" in
      let e := fresh "e" in
      let H := fresh "H" in
      let Hc := fresh "Hc" in
      destruct (emit_all_run cb l st) as [[p H] | (e & p & H & Hc)];
      rewrite H; clear H;
      cbv beta iota; rewrite ?with_progress_twice;
      [| callback_raised]
  end.

Section Loop.
Context {L : PyLib} {W : World}.

Lemma checking_run cfg cb i prev st :
  (exists p,
     checking cfg cb i prev st
     = (combined_issues cfg i (files st) prev, with_progress st p))
  \/ (exists e p, checking cfg cb i prev st = (Raise e, with_progress st p)
                  /\ callback_raises cb e).
Proof.
  unfold checking, combined_issues, missing_refs_message.
  unfold bind, get_store, lift, ret. run_emit.
  cbn [files with_progress].
  destruct (validate (validator cfg) i (files st) (sch_path cfg)) as [found | e];
    [| left; eexists; reflexivity].
  cbn [rbind].
  destruct found as [| f found]; run_emit.
  - destruct prev as [t |]; [destruct (Py.truthy t) |];
      try (left; eexists; reflexivity).
    destruct (List.filter _ (expected_refs cfg)) as [| m ms];
      [left; eexists; reflexivity |].
    run_emit. left; eexists; reflexivity.
  - destruct prev as [t |]; [destruct (Py.truthy t) |];
      try (rewrite app_nil_r; left; eexists; reflexivity).
    destruct (List.filter _ (expected_refs cfg)) as [| m ms];
      [rewrite app_nil_r; left; eexists; reflexivity |].
    run_emit. left; eexists; reflexivity.
Qed.

Lemma rule_checking_run cfg cb i st :
  (exists p,
     rule_checking cfg cb i st = (erc_outcome i (sch_path cfg), with_progress st p))
  \/ (exists e p, rule_checking cfg cb i st = (Raise e, with_progress st p)
                  /\ callback_raises cb e).
Proof.
  unfold rule_checking, erc_outcome, run_erc_with_json, run_erc.
  unfold bind, lift, ret. run_emit.
  destruct (kicad_cli i); cbn [negb]; [| left; eexists; reflexivity].
  destruct (erc_json_run i (sch_path cfg)) as [[proc report] |].
  - destruct (summarize_erc_json report 15) as [lines | e]; [| left; eexists; reflexivity].
    run_emit. cbn [rbind]. destruct report; left; eexists; reflexivity.
  - destruct (erc_text_run i (sch_path cfg)) as [erc |]; [| left; eexists; reflexivity].
    run_emit.
    destruct (Py.truthy (stdout erc)); destruct (Py.truthy (stderr erc));
      repeat run_emit; left; eexists; reflexivity.
Qed.

(** An iteration is its outcome with some progress lines, unless the
    callback stops it; the counter of the writer has then moved by one at
    most. *)
Lemma iteration_body_run cfg cb i loc st :
  (exists p,
     iteration_body cfg cb i loc st
     = let '(r, f, g) := iteration_outcome cfg i loc (files st) (gpt_generator st) in
       (r, {| files := f; gpt_generator := g; progress := p |}))
  \/ (exists e st',
        iteration_body cfg cb i loc st = (Raise e, st')
        /\ callback_raises cb e
        /\ (_iter_counter (gpt_generator st') <= S (_iter_counter (gpt_generator st)))%nat).
Proof.
  cut (forall x, x = iteration_body cfg cb i loc st ->
         (exists p,
            x = let '(r, f, g) :=
                  iteration_outcome cfg i loc (files st) (gpt_generator st) in
                (r, {| files := f; gpt_generator := g; progress := p |}))
         \/ (exists e st',
               x = (Raise e, st')
               /\ callback_raises cb e
               /\ (_iter_counter (gpt_generator st')
                   <= S (_iter_counter (gpt_generator st)))%nat)).
  { intros Hx. exact (Hx _ eq_refl). }
  intros x Hx. unfold iteration_outcome.
  unfold iteration_body in Hx. unfold bind at 1 in Hx. cbv beta in Hx.
  match type of Hx with
  | context [_emit cb ?msg st] =>
      destruct (emit_run cb msg st) as [[p H] | (e & p & H & Hc)];
        rewrite H in Hx; clear H
  end.
  2:{ right. exists e, (with_progress st p).
      split; [exact Hx |]. split; [exact Hc | cbn; lia]. }
  unfold bind at 1 in Hx. unfold generating at 1 in Hx. cbv beta iota zeta in Hx.
  cbv zeta.
  cbn [files gpt_generator with_progress progress] in Hx.
  destruct (debug_dir_mkdir (S (_iter_counter (gpt_generator st))) (sch_path cfg))
    as [[] | e]; [| left; eexists; exact Hx].
  pose proof (write_counter (gpt_generator st) (files st) (raw_text cfg) (allowed cfg)
                (sch_path cfg) (prev_text loc) (Some (issues loc)) (reference_text cfg))
    as Hw.
  destruct (write (gpt_generator st) (files st) (raw_text cfg) (allowed cfg)
              (sch_path cfg) (prev_text loc) (Some (issues loc)) (reference_text cfg))
    as [g1 f1].
  cbn [fst] in Hw.
  destruct (output_write_text (S (_iter_counter (gpt_generator st))) (sch_path cfg))
    as [[] | e]; [| left; eexists; exact Hx].
  set (st1 := {| files := f1; gpt_generator := g1; progress := p |}) in Hx.
  unfold bind at 1 in Hx. cbv beta iota in Hx.
  destruct (checking_run cfg cb i (f1 !! sch_path cfg) st1)
    as [[p1 H] | (e & p1 & H & Hc)]; rewrite H in Hx; clear H.
  2:{ right. eexists _, _. split; [exact Hx |].
      split; [exact Hc | cbn; lia]. }
  cbn [files st1] in Hx.
  destruct (combined_issues cfg i f1 (f1 !! sch_path cfg)) as [found | e];
    [| left; eexists; exact Hx].
  unfold bind at 1 in Hx. cbv beta iota in Hx.
  destruct (rule_checking_run cfg cb i (with_progress st1 p1))
    as [[p2 H] | (e & p2 & H & Hc)]; rewrite H in Hx; clear H.
  2:{ right. eexists _, _. split; [exact Hx |].
      split; [exact Hc | cbn; lia]. }
  destruct (erc_outcome i (sch_path cfg)) as [[[rc violations] summary] | e];
    [| left; eexists; exact Hx].
  cbv beta iota in Hx.
  destruct (accepted found rc violations).
  - unfold bind, ret in Hx. cbv beta iota in Hx.
    match type of Hx with
    | context [_emit cb ?msg ?s0] =>
        destruct (emit_run cb msg s0) as [[p3 H] | (e & p3 & H & Hc)];
          rewrite H in Hx; clear H
    end.
    + left; eexists; exact Hx.
    + right. eexists _, _. split; [exact Hx |].
      split; [exact Hc | cbn; lia].
  - unfold bind, ret, add_feedback in Hx. left; eexists; exact Hx.
Qed.

(** An iteration that returns is its outcome. *)
Lemma iteration_body_returns cfg cb i loc st r st' :
  iteration_body cfg cb i loc st = (Ok r, st') ->
  exists p,
    (Ok r, st')
    = let '(r0, f, g) := iteration_outcome cfg i loc (files st) (gpt_generator st) in
      (r0, {| files := f; gpt_generator := g; progress := p |}).
Proof.
  intros H. destruct (iteration_body_run cfg cb i loc st) as [[p Hp] | (e & st2 & He & _)].
  - exists p. rewrite <- Hp. symmetry. exact H.
  - rewrite H in He. discriminate He.
Qed.

(** An iteration that the callback lets through is its outcome. *)
Lemma iteration_body_through cfg cb i loc st :
  callback_returns cb ->
  exists p,
    iteration_body cfg cb i loc st
    = let '(r, f, g) := iteration_outcome cfg i loc (files st) (gpt_generator st) in
      (r, {| files := f; gpt_generator := g; progress := p |}).
Proof.
  intros Hret.
  destruct (iteration_body_run cfg cb i loc st)
    as [H | (e & st2 & _ & (Hcb & h & m & Hc) & _)]; [exact H | exfalso].
  rewrite (Hret Hcb h m) in Hc. discriminate Hc.
Qed.

(** On a file system that lets [write] through, the outcome is that of the
    checks on what [write] persisted. *)
Lemma outcome_written cfg i loc (fs : gmap string string) g :
  file_system_accepts cfg ->
  iteration_outcome cfg i loc fs g
  = let '(g1, f1) :=
      write g fs (raw_text cfg) (allowed cfg) (sch_path cfg)
            (prev_text loc) (Some (issues loc)) (reference_text cfg) in
    match combined_issues cfg i f1 (f1 !! sch_path cfg) with
    | Raise e => (Raise e, f1, g1)
    | Ok found =>
        match erc_outcome i (sch_path cfg) with
        | Raise e => (Raise e, f1, g1)
        | Ok (rc, violations, summary) =>
            let loc' :=
              {| prev_text := f1 !! sch_path cfg; issues := found; erc_rc := rc;
                 erc_violations := violations; erc_summary_lines := summary |} in
            if accepted found rc violations then (Ok (true, loc'), f1, g1)
            else (Ok (false, loc'), f1,
                  _add_history g1 "user" (json_dumps (feedback loc')))
        end
    end.
Proof.
  intros Hfs. unfold iteration_outcome. cbv zeta.
  destruct (Hfs (S (_iter_counter g))) as [-> Ho].
  destruct (write _ _ _ _ _ _ _ _) as [g1 f1]. rewrite Ho. reflexivity.
Qed.


End Loop.

Section Decisions.
Context {L : PyLib} {W : World}.


Lemma iterate_unfold cfg cb n i loc st :
  iterate cfg cb (S n) i loc st
  = match iteration_body cfg cb i loc st with
    | (Ok (true, loc'), st') => (Ok (true, loc'), st')
    | (Ok (false, loc'), st') => iterate cfg cb n (S i) loc' st'
    | (Raise e, st') => (Raise e, st')
    end.
Proof.
  cbn [iterate]. unfold bind.
  destruct (iteration_body cfg cb i loc st) as [[[[] loc'] | e] st']; reflexivity.
Qed.


End Decisions.

Section Exhaustion.
Context {L : PyLib} {W : World}.

Lemma llm_probe_ok self i (fs : gmap string string) p :
  (use_llm self = true ->
     forall i msgs, exists reply, validator_chat i msgs = Some reply) ->
  exists l, _check_kicad_text_llm self i fs p = Ok l.
Proof.
  intros Hchat. unfold _check_kicad_text_llm.
  destruct (use_llm self) eqn:Hu; cbn [negb]; [| eauto].
  destruct (read_text fs p) as [text | e]; [| eauto].
  match goal with
  | |- context [validator_chat i ?m] => destruct (Hchat eq_refl i m) as [reply ->]
  end.
  destruct (negb (Py.truthy reply)); [eauto |].
  destruct (_ && _); [| eauto].
  destruct (json_loads _) as [[| | | | | | kv] |]; eauto.
  destruct (Json.assoc "issues" kv) as [[| | | | | l |] |]; eauto.
Qed.

Lemma combined_issues_ok cfg i (fs : gmap string string) prev :
  collaborators_total cfg ->
  exists found, combined_issues cfg i fs prev = Ok found.
Proof.
  intros [Hchat _]. unfold combined_issues, validate.
  destruct (probes_never_raise fs (sch_path cfg))
    as ([l1 ->] & [l2 ->] & [l3 ->] & [l4 ->]).
  cbn [rbind].
  destruct (use_llm (validator cfg)) eqn:Hu; [| cbn; eauto].
  destruct (llm_probe_ok (validator cfg) i fs (sch_path cfg)) as [l5 ->].
  - rewrite Hu. exact Hchat.
  - cbn. eauto.
Qed.

Lemma erc_outcome_ok cfg i :
  collaborators_total cfg -> exists r, erc_outcome i (sch_path cfg) = Ok r.
Proof.
  intros [_ Hsum]. unfold erc_outcome.
  destruct (negb (kicad_cli i)); [eauto |].
  destruct (erc_json_run i (sch_path cfg)) as [[proc report] |] eqn:Hrun.
  - destruct (Hsum i proc report Hrun) as [lines ->]. cbn. eauto.
  - destruct (erc_text_run i (sch_path cfg)); eauto.
Qed.

(** The writer an outcome leaves has been through one call of [write]. *)
Lemma outcome_counter cfg i loc (fs : gmap string string) g :
  _iter_counter (snd (iteration_outcome cfg i loc fs g)) = S (_iter_counter g).
Proof.
  unfold iteration_outcome. cbv zeta.
  destruct (debug_dir_mkdir _ _) as [[] | e]; [| reflexivity].
  pose proof (write_counter g fs (raw_text cfg) (allowed cfg)
                (sch_path cfg) (prev_text loc) (Some (issues loc)) (reference_text cfg))
    as Hw.
  destruct (write _ _ _ _ _ _ _ _) as [g1 f1]. cbn [fst] in Hw.
  destruct (output_write_text _ _) as [[] | e]; [| exact Hw].
  destruct (combined_issues _ _ _ _); [| exact Hw].
  destruct (erc_outcome _ _) as [[[rc v] s] |]; [| exact Hw].
  destruct (accepted _ _ _); exact Hw.
Qed.


(** An iteration that returns has called [write] once. *)
Lemma iteration_counter_returns cfg cb i loc st r st' :
  iteration_body cfg cb i loc st = (Ok r, st') ->
  _iter_counter (gpt_generator st') = S (_iter_counter (gpt_generator st)).
Proof.
  intros H. destruct (iteration_body_returns cfg cb i loc st r st' H) as [p Hp].
  pose proof (outcome_counter cfg i loc (files st) (gpt_generator st)) as Ho.
  destruct (iteration_outcome _ _ _ _ _) as [[r0 f] g].
  injection Hp as _ ->. exact Ho.
Qed.






Lemma iterate_exhausted cfg cb : forall n i loc st loc' st',
  iterate cfg cb n i loc st = (Ok (false, loc'), st') ->
  _iter_counter (gpt_generator st') = (_iter_counter (gpt_generator st) + n)%nat.
Proof.
  induction n as [| n IH]; intros i loc st loc' st' H.
  - cbn in H. injection H as <- <-. lia.
  - rewrite iterate_unfold in H.
    destruct (iteration_body cfg cb i loc st) as [[[[] loc1] | e] st1] eqn:Hb;
      [discriminate H | | discriminate H].
    pose proof (iteration_counter_returns cfg cb i loc st _ _ Hb) as Hc.
    rewrite (IH _ _ _ _ _ H). lia.
Qed.



End Exhaustion.

Section Run.
Context {L : PyLib} {W : World}.

(** What a setup that returns has done. *)
Lemma setup_returns json_path out_dir use cfg st st1 :
  setup json_path out_dir use st = (Ok cfg, st1) ->
  st1 = {| files := files st; gpt_generator := new_writer; progress := progress st |}
  /\ use_llm (validator cfg) = use
  /\ exists circuit,
       load_circuit_spec (files st) json_path = Ok circuit
       /\ allowed cfg = candidates_for_parts (parts circuit) 10.
Proof.
  unfold setup, bind, get_store, lift, ret. intros H. cbv beta iota in H.
  destruct (out_dir_mkdir out_dir); cbv beta iota in H; [| discriminate H].
  destruct (load_circuit_spec (files st) json_path) as [circuit |];
    cbv beta iota in H; [| discriminate H].
  destruct (read_json_text (files st) json_path); cbv beta iota in H; [| discriminate H].
  destruct new_llm_client; cbv beta iota in H; [| discriminate H].
  destruct use; cbv beta iota in H; injection H as <- <-; cbn; eauto.
Qed.

Lemma setup_writer json_path out_dir use cfg st st1 :
  setup json_path out_dir use st = (Ok cfg, st1) ->
  gpt_generator st1 = new_writer /\ files st1 = files st.
Proof.
  intros H. destruct (setup_returns _ _ _ _ _ _ H) as (-> & _). auto.
Qed.

Lemma run_after_setup json_path out_dir max_iters cb use cfg st st1 :
  setup json_path out_dir use st = (Ok cfg, st1) ->
  run_orchestration json_path out_dir max_iters cb use st
  = match iterate cfg cb (Z.to_nat max_iters) 1 first_locals st1 with
    | (Ok _, st2) => (Ok (sch_path cfg), st2)
    | (Raise e, st2) => (Raise e, st2)
    end.
Proof.
  intros H. unfold run_orchestration. unfold bind at 1. rewrite H.
  unfold bind, ret. destruct (iterate _ _ _ _ _ _) as [[r | e] st2]; reflexivity.
Qed.


End Run.

(** * The theorems at concrete inputs *)

(** The board converts to the nets VCC, N1 and 3V3 in the order of the scan,
    followed by GND. *)
Example board_nets :
  forall c,
    load_circuit_spec (L := Demo.lib) (files (Cases.store_of Cases.board_text)) "spec.json"
    = Ok c ->
    names (nets c) = ["VCC"; "N1"; "3V3"; "GND"].
Proof.
  intros c H. vm_compute in H. injection H as <-. reflexivity.
Qed.




Lemma offline_collaborators_total :
  collaborators_total (L := Demo.lib) (W := Demo.offline) Cases.board_setup.
Proof.
  split.
  - intros H. discriminate H.
  - intros i proc report H. discriminate H.
Defined.

Lemma offline_file_system_accepts :
  file_system_accepts (W := Demo.offline) Cases.board_setup.
Proof. intros n. split; reflexivity. Defined.

Lemma no_callback_returns : callback_returns (W := Demo.offline) false.
Proof. intros H. discriminate H. Defined.


(** C7: two resistors whose positions are read as (20, 0) and (t, 0), where
    t is the float nearest to 10 ^ (-15).  Their distance is 20 - t, which is
    strictly below 20; but the difference 20 - t that the probe computes on
    floats is rounded to 20, its square is 400, which is not below 400, and
    the probe reports nothing about the pair.  One unit nearer, at (19, 0),
    the pair is reported. *)
Lemma rounding_hides_a_close_pair :
  float_of (PyLib := Demo.lib) ".000000000000001" = Some Cases.tiny
  /\ PrimFloat.ltb 0 Cases.tiny = true
  /\ _extract_instances (L := Demo.lib) Cases.drawing "a.kicad_sch"
     = [placed "R1" 20 0; placed "R2" Cases.tiny 0]
  /\ exactly_below_spacing 20 0 Cases.tiny 0 = true
  /\ PrimFloat.sub 20 Cases.tiny = 20%float
  /\ too_close 20 0 Cases.tiny 0 = false
  /\ too_close 19 0 Cases.tiny 0 = true
  /\ List.filter closer_than_spacing
       (pairs (_extract_instances (L := Demo.lib) Cases.drawing "a.kicad_sch"))
     = []
  /\ _check_instance_positions_and_refs (L := Demo.lib) Cases.drawing "a.kicad_sch"
     = Ok [].
Proof.
  repeat split; vm_compute; reflexivity.
Qed.

(** C4: the completeness probe says nothing about a file that is not there,
    and neither does the heuristic checker as a whole. *)
Lemma completeness_probe_is_silent :
  _check_missing_embedded_symbols ∅ "out/design.kicad_sch" = Ok []
  /\ validate (L := Demo.lib) (W := Demo.offline) heuristic 1 ∅ "out/design.kicad_sch"
     = Ok [].
Proof.
  split; vm_compute; reflexivity.
Qed.

Lemma candidates_table_witness :
  NoDup (map ref Cases.four_parts)
  /\ 1 <= 10
  /\ candidates_for_parts (W := Demo.bench) Cases.four_parts 10
     = [("R1", ["Device:R"]);
        ("U1", ["Device:NE555"; "RF_Module:ESP32-WROOM-32"]);
        ("X1", ["Custom:X1"]);
        ("J1", ["Connector_Generic:Conn_01x02"; "Connector_Generic:Conn_01x04"])]
  /\ map fst (candidates_for_parts (W := Demo.bench) Cases.four_parts 10)
     = map ref Cases.four_parts
  /\ Forall
       (fun entry : string * list string =>
          snd entry <> []
          /\ Z.of_nat (length (snd entry)) <= 10
          /\ NoDup (snd entry)
          /\ Forall not_sentinel (snd entry))
       (candidates_for_parts (W := Demo.bench) Cases.four_parts 10).
Proof.
  assert (Hnd : NoDup (map ref Cases.four_parts)).
  { apply (bool_decide_eq_true_1 (NoDup (map ref Cases.four_parts))).
    vm_compute. reflexivity. }
  assert (Hcap : 1 <= 10) by lia.
  pose proof (candidates_table_is_total_and_valid Demo.bench Cases.four_parts 10 Hnd Hcap)
    as H.
  cbv zeta in H. destruct H as (Hkeys & _ & _ & Hall).
  split; [exact Hnd |]. split; [exact Hcap |].
  split; [vm_compute; reflexivity |].
  split; [exact Hkeys | exact Hall].
Defined.

(** C8: a content that is not JSON makes loading raise. *)
Lemma malformed_content_raises :
  json_loads (PyLib := Demo.lib) "{" = None
  /\ load_circuit_spec (L := Demo.lib) (files (Cases.store_of "{")) "spec.json"
     = Raise JSONDecodeError
  /\ load_circuit_spec (L := Demo.lib) (files (Cases.store_of "parts: none")) "spec.json"
     = Raise JSONDecodeError.
Proof.
  repeat split; vm_compute; reflexivity.
Qed.

Lemma validate_function_witness :
  ({[ "a.kicad_sch" := Demo.clean_document; "notes.txt" := "x" ]} : gmap string string)
    !! "a.kicad_sch"
  = ({[ "b/c.kicad_sch" := Demo.clean_document ]} : gmap string string) !! "b/c.kicad_sch"
  /\ validate (L := Demo.lib) (W := Demo.offline) heuristic 1
       {[ "a.kicad_sch" := Demo.clean_document; "notes.txt" := "x" ]} "a.kicad_sch"
     = validate (L := Demo.lib) (W := Demo.bench) heuristic 7
         {[ "b/c.kicad_sch" := Demo.clean_document ]} "b/c.kicad_sch".
Proof.
  assert (H : ({[ "a.kicad_sch" := Demo.clean_document; "notes.txt" := "x" ]}
                : gmap string string) !! "a.kicad_sch"
              = ({[ "b/c.kicad_sch" := Demo.clean_document ]} : gmap string string)
                  !! "b/c.kicad_sch")
    by (vm_compute; reflexivity).
  split; [exact H |].
  exact (proj1 (validate_is_a_function_of_the_text Demo.lib Demo.offline Demo.bench
                  1%nat 7%nat _ _ _ _ H)).
Defined.

(** * Further properties of the code *)

(** ** Lists, strings and matches *)

Lemma in_firstn {A} (x : A) : forall n l, In x (firstn n l) -> In x l.
Proof.
  induction n as [| n IH]; intros l H; destruct l as [| y l]; cbn in H; try contradiction.
  destruct H as [-> | H]; [left; reflexivity | right; apply IH; exact H].
Qed.

Lemma lookup_map {A B} (f : A -> B) : forall (l : list A) (i : nat),
  map f l !! i = match l !! i with Some x => Some (f x) | None => None end.
Proof.
  induction l as [| x l IH]; intros [| i]; cbn; try reflexivity. apply IH.
Qed.

Lemma imap_map {A B C} (f : nat -> A -> B) (g : B -> C) (h : A -> C) (l : list A) :
  (forall i x, g (f i x) = h x) -> map g (imap f l) = map h l.
Proof.
  revert f. induction l as [| x l IH]; intros f H; [reflexivity |].
  cbn [imap map]. rewrite H. f_equal. apply IH. intros i y. apply H.
Qed.


Lemma fold_left_same {A B} (f g : B -> A -> B) :
  (forall acc x, f acc x = g acc x) ->
  forall l acc, fold_left f l acc = fold_left g l acc.
Proof.
  intros H. induction l as [| x l IH]; intros acc; cbn [fold_left]; [reflexivity |].
  rewrite H. apply IH.
Qed.

Lemma fold_left_nested {A B C} (f : C -> B -> C) (g : A -> list B) (l : list A) :
  forall acc,
    fold_left (fun acc x => fold_left f (g x) acc) l acc
    = fold_left f (flat_map g l) acc.
Proof.
  induction l as [| x l IH]; intros acc; cbn [fold_left flat_map]; [reflexivity |].
  rewrite fold_left_app. apply IH.
Qed.

Lemma fold_left_omap {A B} (f : A -> option B) (l : list A) : forall acc,
  fold_left (fun acc x => match f x with Some y => acc ++ [y] | None => acc end) l acc
  = acc ++ omap f l.
Proof.
  induction l as [| x l IH]; intros acc; cbn [fold_left].
  - cbn. rewrite app_nil_r. reflexivity.
  - rewrite IH.
    change (omap f (x :: l))
      with (match f x with Some y => y :: omap f l | None => omap f l end).
    destruct (f x); [rewrite <- app_assoc |]; reflexivity.
Qed.

Lemma omap_length {A B} (f : A -> option B) (l : list A) :
  (length (omap f l) <= length l)%nat.
Proof.
  induction l as [| x l IH]; [cbn; lia |].
  change (omap f (x :: l))
    with (match f x with Some y => y :: omap f l | None => omap f l end).
  destruct (f x); cbn [length]; lia.
Qed.

Lemma find_nowhere {A} (f : A -> bool) :
  (forall x, f x = false) -> forall l, List.find f l = None.
Proof.
  intros H. induction l as [| x l IH]; [reflexivity |]. cbn. rewrite H. exact IH.
Qed.

Lemma rmapM_ok {A B} (f : A -> result B) (g : A -> B) : forall l,
  Forall (fun x => f x = Ok (g x)) l -> rmapM f l = Ok (map g l).
Proof.
  induction l as [| x l IH]; intros H; [reflexivity |].
  apply Forall_cons in H as [Hx Hl]. cbn [rmapM map]. rewrite Hx, (IH Hl). reflexivity.
Qed.


Lemma rmapM_lookup {A B} (f : A -> result B) : forall l r,
  rmapM f l = Ok r ->
  forall i x, l !! i = Some x -> exists y, r !! i = Some y /\ f x = Ok y.
Proof.
  induction l as [| x l IH]; intros r H; cbn [rmapM] in H.
  - injection H as <-. intros i y Hi. discriminate Hi.
  - destruct (f x) as [b |] eqn:Hx; [| discriminate H]. cbn [rbind] in H.
    destruct (rmapM f l) as [bs |]; [| discriminate H]. cbn [rbind] in H.
    injection H as <-. specialize (IH bs eq_refl).
    intros [| i] y Hi; cbn in Hi |- *.
    + injection Hi as <-. eauto.
    + apply IH. exact Hi.
Qed.

Lemma rmapM_map {A B C} (f : A -> result B) (g : A -> C) (h : B -> C) : forall l r,
  (forall x y, f x = Ok y -> h y = g x) ->
  rmapM f l = Ok r -> map h r = map g l.
Proof.
  intros l r Hf. revert r. induction l as [| x l IH]; intros r H; cbn [rmapM] in H.
  - injection H as <-. reflexivity.
  - destruct (f x) as [b |] eqn:Hx; [| discriminate H]. cbn [rbind] in H.
    destruct (rmapM f l) as [bs |]; [| discriminate H]. cbn [rbind] in H.
    injection H as <-. cbn [map]. rewrite (Hf _ _ Hx), (IH bs eq_refl). reflexivity.
Qed.

Lemma rfold_ok {A B} (f : B -> A -> result B) : forall l acc,
  Forall (fun x => forall acc, exists r, f acc x = Ok r) l ->
  exists r, rfold f l acc = Ok r.
Proof.
  induction l as [| x l IH]; intros acc H; cbn [rfold]; [eauto |].
  apply Forall_cons in H as [Hx Hl]. destruct (Hx acc) as [r ->]. cbn [rbind].
  apply IH. exact Hl.
Qed.

Lemma rfold_prefix {A} (f : list string -> A -> result (list string)) :
  (forall acc x r, f acc x = Ok r -> exists line, r = acc ++ [line]) ->
  forall l acc r, rfold f l acc = Ok r -> exists rest, r = acc ++ rest /\ length rest = length l.
Proof.
  intros Hf. induction l as [| x l IH]; intros acc r H; cbn [rfold] in H.
  - injection H as <-. exists []. rewrite app_nil_r. auto.
  - destruct (f acc x) as [a |] eqn:Hx; [| discriminate H].
    cbn [rbind] in H. apply IH in H as (rest & -> & Hl).
    destruct (Hf _ _ _ Hx) as [line ->].
    exists (line :: rest). rewrite <- app_assoc. cbn. auto.
Qed.



Lemma assoc_dict_set {V} (k r : string) (v : V) (t : list (string * V)) :
  Json.assoc r (Json.dict_set k v t) = if String.eqb r k then Some v else Json.assoc r t.
Proof.
  induction t as [| [k' v'] t IH]; cbn [Json.dict_set Json.assoc].
  - reflexivity.
  - destruct (String.eqb_spec k k') as [-> | Hk]; cbn [Json.assoc].
    + destruct (String.eqb r k'); reflexivity.
    + rewrite IH. destruct (String.eqb_spec r k') as [-> | Hr]; [| reflexivity].
      destruct (String.eqb_spec k' k) as [-> | _]; [congruence | reflexivity].
Qed.

Lemma substring_all : forall s, String.substring 0 (String.length s) s = s.
Proof. induction s as [| c s IH]; [reflexivity |]. cbn. rewrite IH. reflexivity. Qed.

Lemma length_list_ascii : forall s, length (list_ascii_of_string s) = String.length s.
Proof. induction s as [| c s IH]; [reflexivity |]. cbn. rewrite IH. reflexivity. Qed.

Lemma list_ascii_app a : forall b,
  list_ascii_of_string (a +:+ b) = list_ascii_of_string a ++ list_ascii_of_string b.
Proof.
  induction a as [| c a IH]; intros b; [reflexivity |].
  change (String c a +:+ b) with (String c (a +:+ b)).
  cbn [list_ascii_of_string]. rewrite IH. reflexivity.
Qed.

Lemma prefix_length : forall n s,
  String.length (String.substring 0 n s) = Nat.min n (String.length s).
Proof.
  induction n as [| n IH]; intros s; destruct s as [| c s]; try reflexivity.
  cbn. rewrite IH. reflexivity.
Qed.

Lemma prefix_to_length n s : 0 <= n -> Z.of_nat (String.length (Py.prefix_to n s)) <= n.
Proof.
  intros Hn. unfold Py.prefix_to. rewrite prefix_length. lia.
Qed.

Lemma starts_contains p s : Py.startswith s p = true -> Py.contains p s = true.
Proof.
  unfold Py.startswith, Py.contains, Py.find. intros H.
  destruct s; cbn [Py.find_from]; rewrite H; reflexivity.
Qed.

Lemma startswith_first (s : string) (a b : ascii) :
  Py.startswith s (String a "") = true -> a <> b -> Py.startswith s (String b "") = false.
Proof.
  unfold Py.startswith. destruct s as [| c s]; [discriminate |].
  cbn [String.prefix]. intros H Hne.
  destruct (ascii_dec a c) as [-> | Hac]; [| discriminate H].
  destruct (ascii_dec b c) as [-> | Hbc]; [congruence | reflexivity].
Qed.

(** A match starts inside what is left of the text. *)
Lemma search_from_start ci r : forall s prev pos m,
  Re.search_from ci r prev s pos = Some m ->
  (pos <= Re.m_start m <= pos + length s)%nat.
Proof.
  induction s as [| c s IH]; intros prev pos m H; cbn [Re.search_from] in H.
  - destruct (Re.matcher ci r prev [] pos [] Re.accept) as [[e caps] |];
      [| discriminate H].
    injection H as <-. cbn. lia.
  - destruct (Re.matcher ci r prev (c :: s) pos [] Re.accept) as [[e caps] |].
    + injection H as <-. cbn. lia.
    + apply IH in H. cbn [length]. lia.
Qed.

Lemma finditer_from_start ci r :
  (forall prev pos, Re.search_from ci r prev [] pos = None) ->
  forall fuel prev s pos N,
    (pos + length s <= N)%nat ->
    Forall (fun m => (Re.m_start m <= N)%nat) (Re.finditer_from fuel ci r prev s pos).
Proof.
  intros Hnil. induction fuel as [| fuel IH]; intros prev s pos N Hb;
    cbn [Re.finditer_from]; [constructor |].
  destruct (Re.search_from ci r prev s pos) as [m |] eqn:Hs; [| constructor].
  pose proof (search_from_start ci r s prev pos m Hs) as Hm.
  constructor; [lia |].
  set (e := if (Re.m_start m <? Re.m_end m)%nat then Re.m_end m else S (Re.m_end m)).
  destruct (skipn (e - pos) s) as [| c s'] eqn:Hskip.
  - destruct fuel; cbn [Re.finditer_from]; [constructor |].
    rewrite Hnil. constructor.
  - apply IH.
    assert (Hl : length (skipn (e - pos) s) = S (length s')) by (rewrite Hskip; reflexivity).
    rewrite length_skipn in Hl. cbn [length]. lia.
Qed.

Lemma char_eq_refl ci c : Re.char_eq ci c c = true.
Proof. unfold Re.char_eq. destruct ci; apply Ascii.eqb_refl. Qed.

(** A literal matches itself. *)
Lemma lit_self ci : forall l prev rest pos,
  Re.lit ci l prev (l ++ rest) pos = Some (last_read prev l, rest, (pos + length l)%nat).
Proof.
  induction l as [| c l IH]; intros prev rest pos.
  - cbn. rewrite Nat.add_0_r. reflexivity.
  - cbn [app Re.lit]. rewrite char_eq_refl, IH. cbn [last_read fold_left length].
    replace (S pos + length l)%nat with (pos + S (length l))%nat by lia. reflexivity.
Qed.

(** A greedy repetition takes a whole run that the next character ends. *)
Lemma rep_run p min k r : forall l count prev pos rest,
  forallb p l = true ->
  match rest with c :: _ => p c = false | [] => True end ->
  (min <= count + length l)%nat ->
  k (last_read prev l) rest (pos + length l)%nat = Some r ->
  Re.rep p min count prev (l ++ rest) pos k = Some r.
Proof.
  induction l as [| c l IH]; intros count prev pos rest Hall Hstop Hmin Hk.
  - cbn [app length last_read fold_left] in *. rewrite Nat.add_0_r in Hk, Hmin.
    destruct rest as [| c rest]; cbn [Re.rep].
    + apply Nat.leb_le in Hmin. rewrite Hmin. exact Hk.
    + rewrite Hstop. apply Nat.leb_le in Hmin. rewrite Hmin. exact Hk.
  - cbn [forallb] in Hall. apply andb_prop in Hall as [Hc Hall].
    cbn [app Re.rep]. rewrite Hc.
    rewrite (IH (S count) (Some c) (S pos) rest Hall Hstop).
    + reflexivity.
    + cbn [length] in Hmin. lia.
    + cbn [length last_read fold_left] in Hk.
      replace (S pos + length l)%nat with (pos + S (length l))%nat by lia. exact Hk.
Qed.

(** The search skips what cannot start a match. *)
Lemma search_skips ci r : forall pre prev pos rest,
  Forall (fun c => forall prev' s pos',
            Re.matcher ci r prev' (c :: s) pos' [] Re.accept = None) pre ->
  Re.search_from ci r prev (pre ++ rest) pos
  = Re.search_from ci r (last_read prev pre) rest (pos + length pre)%nat.
Proof.
  induction pre as [| c pre IH]; intros prev pos rest Hpre.
  - cbn [app length last_read fold_left]. rewrite Nat.add_0_r. reflexivity.
  - apply Forall_cons in Hpre as [Hc Hpre].
    cbn [app Re.search_from]. rewrite Hc.
    rewrite (IH (Some c) (S pos) rest Hpre).
    cbn [length last_read fold_left].
    replace (S pos + length pre)%nat with (pos + S (length pre))%nat by lia. reflexivity.
Qed.

(** ** The placed instances of a short document *)

Lemma reference_needs_text prev pos :
  Re.search_from false Pat.reference prev [] pos = None.
Proof. reflexivity. Qed.

Lemma fold_left_each {A B} (P : A -> Prop) (f : list B -> A -> list B) (g : A -> list B) :
  (forall acc x, P x -> f acc x = acc ++ g x) ->
  forall l acc, Forall P l -> fold_left f l acc = acc ++ flat_map g l.
Proof.
  intros Hf. induction l as [| x l IH]; intros acc Hl; cbn [fold_left flat_map].
  - rewrite app_nil_r. reflexivity.
  - apply Forall_cons in Hl as [Hx Hl]. rewrite (Hf acc x Hx), (IH _ Hl).
    rewrite <- app_assoc. reflexivity.
Qed.

Lemma flat_map_singleton {A B} (g : A -> B) (l : list A) :
  flat_map (fun x => [g x]) l = map g l.
Proof. induction l as [| x l IH]; [reflexivity |]. cbn. rewrite IH. reflexivity. Qed.

Lemma flat_map_nothing {A B} (l : list A) : flat_map (fun _ : A => @nil B) l = [].
Proof. induction l as [| x l IH]; [reflexivity | exact IH]. Qed.

(** X1.  A document of at most 2000 characters is, for every reference it
    holds, its own search window.  [_extract_instances] then returns one
    instance for each reference of the document, in their order, and every
    one of them carries the position, the rotation, the library identifier
    and the unique-id flag that are found first in the whole text; it
    returns no instance at all when the text has no position or no library
    identifier.  All the instances of a short document therefore differ in
    their references only. *)
Theorem short_document_instances_coincide :
  forall (L : PyLib) (files : gmap string string) (path text : string),
    files !! path = Some text ->
    (String.length text <= 2000)%nat ->
    _extract_instances files path
    = match first_placement text with
      | Some (x, y, rot, lib_id, has_uuid) =>
          map (fun m => (default "" (Re.group 1 (Re.m_groups m)),
                         x, y, rot, lib_id, has_uuid))
              (Re.finditer Pat.reference text)
      | None => []
      end.
Proof.
  intros L files path text Hread Hlen.
  unfold _extract_instances, read_text, first_placement. rewrite Hread.
  assert (Hstarts : Forall (fun m => (Re.m_start m <= String.length text)%nat)
                      (Re.finditer Pat.reference text)).
  { unfold Re.finditer. apply finditer_from_start.
    - apply reference_needs_text.
    - rewrite length_list_ascii. lia. }
  assert (Hwin : forall m, (Re.m_start m <= String.length text)%nat ->
            Py.slice text (Z.max 0 (Z.of_nat (Re.m_start m) - 2000))
              (Z.min (Z.of_nat (String.length text)) (Z.of_nat (Re.m_end m) + 2000))
            = text).
  { intros m Hm. unfold Py.slice.
    replace (Z.max 0 (Z.of_nat (Re.m_start m) - 2000)) with 0 by lia.
    replace (Z.min (Z.of_nat (String.length text)) (Z.of_nat (Re.m_end m) + 2000))
      with (Z.of_nat (String.length text)) by lia.
    rewrite Z.sub_0_r, Nat2Z.id. apply substring_all. }
  destruct (Re.search false Pat.at_ text) as [a |] eqn:Ha;
    [destruct (Re.search false Pat.lib_id text) as [l |] eqn:Hl |].
  - destruct (try_except
                (at_floats (default "" (Re.group 1 (Re.m_groups a)))
                           (default "" (Re.group 2 (Re.m_groups a)))
                           (Re.group 3 (Re.m_groups a)))
                (0%float, 0%float, 0%float)) as [[x y] rot] eqn:Hxy.
    rewrite <- flat_map_singleton.
    etransitivity;
      [apply (fold_left_each (fun m => (Re.m_start m <= String.length text)%nat) _
                (fun m => [(default "" (Re.group 1 (Re.m_groups m)),
                            x, y, rot, default "" (Re.group 1 (Re.m_groups l)),
                            match Re.search false Pat.uuid text with
                            | Some _ => true | None => false end)]));
       [| exact Hstarts]
      | reflexivity].
    intros acc m Hm. cbv beta zeta. rewrite (Hwin m Hm), Ha, Hl, Hxy. reflexivity.
  - etransitivity;
      [apply (fold_left_each (fun m => (Re.m_start m <= String.length text)%nat) _
                (fun _ => []));
       [| exact Hstarts]
      | rewrite flat_map_nothing; reflexivity].
    intros acc m Hm. cbv beta zeta. rewrite (Hwin m Hm), Ha, Hl, app_nil_r. reflexivity.
  - etransitivity;
      [apply (fold_left_each (fun m => (Re.m_start m <= String.length text)%nat) _
                (fun _ => []));
       [| exact Hstarts]
      | rewrite flat_map_nothing; reflexivity].
    intros acc m Hm. cbv beta zeta. rewrite (Hwin m Hm), Ha, app_nil_r. reflexivity.
Qed.

(** ** The prefix the checker expects *)

(** X2.  The tests of [_desired_prefix_for_lib] are tried in order, so a
    library identifier that starts with "device:l" in any case of letters
    (the LED of the Device library among them) is expected to carry R, C or
    L, never D: an instance of such a symbol whose reference starts with D
    always gets the issue about its prefix, followed by the one about the
    unique id when that is missing. *)
Theorem led_with_diode_reference_is_flagged :
  forall (r lib_id : string) (x y rot : float) (has_uuid : bool),
    Py.startswith (Py.lower lib_id) "device:l" = true ->
    Py.startswith (Py.upper r) "D" = true ->
    In (_desired_prefix_for_lib lib_id) ["R"; "C"; "L"]
    /\ instance_issues [(r, x, y, rot, lib_id, has_uuid)]
       = ("Reference prefix mismatch for " +:+ r +:+ ": expected to start with '"
          +:+ _desired_prefix_for_lib lib_id +:+ "' based on lib_id " +:+ lib_id +:+ ".")
         :: (if has_uuid then []
             else ["Placed instance " +:+ r
                   +:+ " is missing (uuid ...). Add a UUID to each (symbol ...) instance."]).
Proof.
  intros r lib_id x y rot has_uuid Hlib Href.
  assert (Hp : In (_desired_prefix_for_lib lib_id) ["R"; "C"; "L"]).
  { unfold _desired_prefix_for_lib.
    rewrite (starts_contains "device:l" _ Hlib).
    destruct (_ || _); [left; reflexivity |].
    destruct (_ || _); [right; left; reflexivity |].
    cbn [orb]. right. right. left. reflexivity. }
  split; [exact Hp |].
  unfold instance_issues, spacing_loop, naming_loop. cbn [length seq fold_left lookup].
  cbn -[_desired_prefix_for_lib String.append Py.upper Py.startswith].
  assert (Hm : Py.startswith (Py.upper r) (_desired_prefix_for_lib lib_id) = false).
  { destruct Hp as [<- | [<- | [<- | []]]];
      apply (startswith_first _ "D"%char); try exact Href; discriminate. }
  rewrite Hm. cbn [negb app]. destruct has_uuid; reflexivity.
Qed.

(** ** When the checker raises *)

Section Raises.
Context {L : PyLib} {W : World}.

Lemma llm_probe_raises self call (files : gmap string string) path e :
  _check_kicad_text_llm self call files path = Raise e
  <-> use_llm self = true
      /\ (exists text, files !! path = Some text
                       /\ validator_chat call (validator_request text) = None)
      /\ e = RetryError.
Proof.
  unfold _check_kicad_text_llm, read_text, validator_request.
  destruct (use_llm self); cbn [negb].
  2:{ split; [discriminate | intros (H & _); discriminate H]. }
  destruct (files !! path) as [text |].
  2:{ split; [discriminate | intros (_ & (t & H & _) & _); discriminate H]. }
  destruct (validator_chat call _) as [reply |] eqn:Hc.
  - split.
    + intros H. exfalso.
      destruct (negb (Py.truthy reply)); [discriminate H |].
      destruct (_ && _); [| discriminate H].
      destruct (json_loads _) as [[| | | | | | kv] |]; try discriminate H.
      destruct (Json.assoc "issues" kv) as [[| | | | | l |] |]; discriminate H.
    + intros (_ & (t & Ht & Hn) & _). injection Ht as <-. congruence.
  - split.
    + intros H. injection H as <-. split; [reflexivity |]. split; [| reflexivity].
      exists text. auto.
    + intros (_ & _ & ->). reflexivity.
Qed.

(** X3.  [validate] raises in one case only: the completion service is
    enabled, the file can be read and the call to the service raises; the
    error is the one of that call.  With the service enabled an unreadable
    file gives the single issue that says so, and in every other case the
    issues of the service follow those of the heuristic probes. *)
Theorem validate_raises_only_with_the_service :
  forall self call (files : gmap string string) path,
    (forall e,
       validate self call files path = Raise e
       <-> use_llm self = true
           /\ (exists text, files !! path = Some text
                            /\ validator_chat call (validator_request text) = None)
           /\ e = RetryError)
    /\ (use_llm self = true -> files !! path = None ->
        validate self call files path = Ok ["Cannot read schematic file: " +:+ path])
    /\ (forall found llm,
          validate heuristic call files path = Ok found ->
          _check_kicad_text_llm self call files path = Ok llm ->
          validate self call files path = Ok (found ++ llm)).
Proof.
  intros self call files path.
  destruct (probes_never_raise files path) as ([l1 H1] & [l2 H2] & [l3 H3] & [l4 H4]).
  assert (Hv : validate self call files path
               = if use_llm self
                 then let* i5 := _check_kicad_text_llm self call files path in
                      Ok ((((l1 ++ l2) ++ l3) ++ l4) ++ i5)
                 else Ok (((l1 ++ l2) ++ l3) ++ l4)).
  { unfold validate. rewrite H1, H2, H3, H4. reflexivity. }
  assert (Hh : validate heuristic call files path = Ok (((l1 ++ l2) ++ l3) ++ l4)).
  { unfold validate. rewrite H1, H2, H3, H4. reflexivity. }
  split; [| split].
  - intros e. rewrite Hv. rewrite <- llm_probe_raises.
    destruct (use_llm self) eqn:Hu.
    + destruct (_check_kicad_text_llm self call files path); cbn [rbind];
        split; congruence.
    + unfold _check_kicad_text_llm. rewrite Hu. cbn. split; discriminate.
  - intros Hu Hnone. rewrite Hv, Hu.
    assert (Hl : l1 = [] /\ l2 = [] /\ l3 = [] /\ l4 = []).
    { unfold _check_missing_embedded_symbols, _check_symbol_pins_and_graphics,
        _check_invalid_lib_ids_and_sheet, _check_instance_positions_and_refs,
        _extract_instances, read_text in H1, H2, H3, H4.
      rewrite Hnone in H1, H2, H3, H4. cbn in H4.
      repeat split; congruence. }
    destruct Hl as (-> & -> & -> & ->).
    unfold _check_kicad_text_llm, read_text. rewrite Hu, Hnone. reflexivity.
  - intros found llm Hf Hl. rewrite Hh in Hf. injection Hf as <-.
    rewrite Hv, Hl. destruct (use_llm self) eqn:Hu; [reflexivity |].
    unfold _check_kicad_text_llm in Hl. rewrite Hu in Hl. injection Hl as <-.
    rewrite app_nil_r. reflexivity.
Qed.

End Raises.

(** ** The output of the rule checker *)

Lemma int_of_digits_nonneg : forall s acc,
  digits s = true -> 0 <= acc -> 0 <= int_of_digits acc s.
Proof.
  unfold digits.
  induction s as [| c s IH]; intros acc Hall Hacc; cbn [int_of_digits]; [exact Hacc |].
  cbn [list_ascii_of_string forallb] in Hall. apply andb_prop in Hall as [Hc Hall].
  apply IH; [exact Hall |].
  unfold Py.isdigit, Py.in_range in Hc. apply andb_prop in Hc as [Hlo _].
  apply Nat.leb_le in Hlo. lia.
Qed.

Lemma found_needs_f c :
  Re.char_eq true "F" c = false ->
  forall prev s pos, Re.matcher true Pat.found_violations prev (c :: s) pos [] Re.accept = None.
Proof.
  intros Hc prev s pos. cbn -[Re.char_eq]. rewrite Hc. reflexivity.
Qed.

Lemma first_needs_space (c : ascii) (ds : list ascii) :
  forallb Py.isdigit (c :: ds) = true -> Py.isspace c = false.
Proof.
  cbn [forallb]. intros H. apply andb_prop in H as [H _].
  unfold Py.isdigit, Py.isspace, Py.in_range in *.
  apply andb_prop in H as [H1 H2]. apply Nat.leb_le in H1. apply Nat.leb_le in H2.
  apply orb_false_intro; apply andb_false_intro2; apply Nat.leb_gt; lia.
Qed.

Lemma firstn_exact {A} (l : list A) r n : n = length l -> firstn n (l ++ r) = l.
Proof.
  intros ->. rewrite firstn_app, Nat.sub_diag, firstn_all. cbn. apply app_nil_r.
Qed.

Lemma found_phrase prev pos (ds rest : list ascii) :
  forallb Py.isdigit ds = true ->
  ds <> [] ->
  exists e,
    Re.matcher true Pat.found_violations prev
      (list_ascii_of_string "Found" ++ [" "%char] ++ ds ++ [" "%char]
       ++ list_ascii_of_string "violations" ++ rest)
      pos [] Re.accept
    = Some (e, [(1%nat, string_of_list_ascii ds)]).
Proof.
  intros Hds Hne. eexists.
  unfold Pat.found_violations, Re.seq, Re.ws. cbn [fold_right Re.matcher].
  rewrite lit_self.
  erewrite (rep_run Py.isspace 1 _ _ [" "%char]); [reflexivity | reflexivity | | cbn; lia |].
  { destruct ds as [| d ds]; [congruence |]. exact (first_needs_space d ds Hds). }
  erewrite (rep_run Py.isdigit 1 _ _ ds); [reflexivity | exact Hds | reflexivity | |].
  { destruct ds; [congruence | cbn; lia]. }
  erewrite (rep_run Py.isspace 1 _ _ [" "%char]);
    [reflexivity | reflexivity | reflexivity | cbn; lia |].
  rewrite lit_self. cbn [Re.lit list_ascii_of_string]. unfold Re.accept.
  rewrite firstn_exact by lia. reflexivity.
Qed.

(** X4.  [parse_erc_violations] reads back the count of the first line that
    says "Found N violations": whatever follows the phrase, and whatever
    precedes it as long as that holds no letter F that could start the
    phrase, the result is the number that the digits write when there are at
    most 4300 of them, and 0 when there are more, since [int] then refuses
    the conversion and the error is swallowed.  The result is never
    negative. *)
Theorem violation_count_is_read_back :
  forall (pre ds rest : string),
    no_f pre = true ->
    digits ds = true ->
    ds <> "" ->
    parse_erc_violations (pre +:+ "Found " +:+ ds +:+ " violations" +:+ rest)
    = (if (4300 <? String.length ds)%nat then 0 else int_of_digits 0 ds)
    /\ 0 <= parse_erc_violations
              (pre +:+ "Found " +:+ ds +:+ " violations" +:+ rest).
Proof.
  intros pre ds rest Hpre Hds Hne.
  cut (parse_erc_violations (pre +:+ "Found " +:+ ds +:+ " violations" +:+ rest)
       = (if (4300 <? String.length ds)%nat then 0 else int_of_digits 0 ds)).
  { intros ->. split; [reflexivity |].
    destruct (4300 <? String.length ds)%nat; [lia |].
    apply int_of_digits_nonneg; [exact Hds | lia]. }
  unfold parse_erc_violations.
  assert (Ht : Py.truthy (pre +:+ "Found " +:+ ds +:+ " violations" +:+ rest) = true)
    by (destruct pre; reflexivity).
  rewrite Ht. cbn [negb].
  unfold Re.search. rewrite list_ascii_app.
  rewrite search_skips.
  2:{ apply List.Forall_forall. intros c Hc. apply found_needs_f.
      unfold no_f in Hpre. rewrite forallb_forall in Hpre. specialize (Hpre c Hc).
      apply negb_true_iff in Hpre. exact Hpre. }
  set (prev := last_read None (list_ascii_of_string pre)).
  set (pos := (0 + length (list_ascii_of_string pre))%nat).
  rewrite !list_ascii_app.
  destruct (found_phrase prev pos (list_ascii_of_string ds) (list_ascii_of_string rest) Hds)
    as [e He].
  { destruct ds; [congruence | discriminate]. }
  change (list_ascii_of_string "Found ")
    with (list_ascii_of_string "Found" ++ [" "%char]).
  change (list_ascii_of_string " violations")
    with ([" "%char] ++ list_ascii_of_string "violations").
  rewrite <- !app_assoc.
  change (list_ascii_of_string "Found" ++ ?x)
    with ("F"%char :: "o"%char :: "u"%char :: "n"%char :: "d"%char :: x) in *.
  cbn [Re.search_from].
  rewrite He. cbn [Re.m_groups Re.group Nat.eqb].
  rewrite string_of_list_ascii_of_string.
  change (default "" (Some ds)) with ds. unfold int_of_text.
  destruct (4300 <? String.length ds)%nat; reflexivity.
Qed.

Section Summary.
Context {L : PyLib} {W : World}.

Lemma designator_ok r :
  reference_ok r = true -> designator_of r = Ok (JStr (designator_text r)).
Proof.
  destruct r as [| | | | | | kv]; try discriminate. cbn [reference_ok designator_text].
  intros H. apply andb_prop in H as [Hr Hu].
  unfold designator_of, Json.get, Json.get_default. cbn [rbind].
  destruct (Json.assoc "ref" kv) as [[| | | | [| c s] | |] |]; try discriminate Hr;
    cbn [Json.truthy Py.truthy]; try reflexivity;
    destruct (Json.assoc "uuid" kv) as [[| | | | [| c' s'] | |] |]; try discriminate Hu;
    reflexivity.
Qed.

Lemma join_texts (l : list string) :
  join_truthy (map JStr l) = Ok (String.concat "," (List.filter Py.truthy l)).
Proof.
  unfold join_truthy.
  assert (H : List.filter Json.truthy (map JStr l) = map JStr (List.filter Py.truthy l)).
  { induction l as [| s l IH]; [reflexivity |]. cbn [map List.filter Json.truthy].
    destruct (Py.truthy s); cbn [map]; rewrite IH; reflexivity. }
  rewrite H.
  rewrite (rmapM_ok _ (fun r => match r with JStr t => t | _ => "" end)).
  - cbn [rbind]. rewrite List.map_map. cbn. rewrite List.map_id. reflexivity.
  - apply List.Forall_forall. intros x Hx. apply in_map_iff in Hx as (s & <- & _). reflexivity.
Qed.

Lemma summary_total (data : JSON) (max_items : nat) :
  report_ok data = true -> exists lines, summarize_erc_json data max_items = Ok lines.
Proof.
  intros Hok. unfold summarize_erc_json.
  destruct (negb (Json.truthy data)); [eauto |].
  destruct data as [| | | | | | kv]; try discriminate Hok. cbn [report_ok] in Hok.
  unfold Json.get, Json.get_default at 1. cbn [rbind].
  assert (Hv : exists vs, Json.or_else (match Json.assoc "violations" kv with
                                          | Some v => v | None => JNull end) (JArr [])
                            = JArr vs /\ forallb violation_ok vs = true).
  { destruct (Json.assoc "violations" kv) as [[| | | | | [| v vs] |] |];
      try discriminate Hok; cbn; eauto. }
  destruct Hv as (vs & -> & Hvs). cbn [Json.len Json.take Json.iter rbind].
  apply rfold_ok. apply List.Forall_forall. intros v Hin acc.
  assert (Hvo : violation_ok v = true).
  { rewrite forallb_forall in Hvs. apply Hvs. eapply in_firstn. exact Hin. }
  destruct v as [| | | | | | vkv]; try discriminate Hvo. cbn [violation_ok] in Hvo.
  unfold Json.get_default. cbn [rbind].
  assert (Hr : exists rs, Json.iter (Json.or_else (match Json.assoc "references" vkv with
                                                     | Some v => v | None => JArr [] end)
                                        (JArr [])) = Ok rs
                          /\ forallb reference_ok rs = true).
  { destruct (Json.assoc "references" vkv) as [[| | | | | [| r rs] |] |];
      try discriminate Hvo; cbn; eauto. }
  destruct Hr as (rs & -> & Hrs). cbn [rbind].
  rewrite (rmapM_ok _ (fun r => JStr (designator_text r))).
  - cbn [rbind]. rewrite <- List.map_map, join_texts. cbn [rbind]. eauto.
  - apply List.Forall_forall. intros r Hr. apply designator_ok.
    rewrite forallb_forall in Hrs. apply Hrs. exact Hr.
Qed.

(** X5.  [summarize_erc_json] gives no line for an empty report.  For any
    other report, whenever it returns, the first line states the number of
    all the violations and one line follows for each of the first
    [max_items] of them, so that there are never more than [max_items + 1]
    lines; and it does return on every report whose violations are objects
    and whose references are objects with textual designators. *)
Theorem erc_summary_is_capped :
  forall (data : JSON) (max_items : nat),
    (Json.truthy data = false -> summarize_erc_json data max_items = Ok [])
    /\ (forall lines,
          Json.truthy data = true ->
          summarize_erc_json data max_items = Ok lines ->
          exists violations n shown,
            Json.get data "violations" = Ok violations
            /\ Json.len (Json.or_else violations (JArr [])) = Ok n
            /\ lines = ("ERC JSON violations: " +:+ pretty n) :: shown
            /\ length shown = Nat.min max_items (Z.to_nat n)
            /\ (length lines <= S max_items)%nat)
    /\ (report_ok data = true -> exists lines, summarize_erc_json data max_items = Ok lines).
Proof.
  intros data max_items. split; [| split; [| apply summary_total]].
  - intros Hf. unfold summarize_erc_json. rewrite Hf. reflexivity.
  - intros lines Ht H. unfold summarize_erc_json in H. rewrite Ht in H. cbn [negb] in H.
    destruct (Json.get data "violations") as [v |] eqn:Hv; [| discriminate H].
    cbn [rbind] in H.
    destruct (Json.len (Json.or_else v (JArr []))) as [n |] eqn:Hn; [| discriminate H].
    cbn [rbind] in H.
    destruct (Json.take max_items (Json.or_else v (JArr []))) as [t |] eqn:Htake;
      [| discriminate H].
    cbn [rbind] in H.
    destruct (Json.iter t) as [items |] eqn:Hit; [| discriminate H].
    cbn [rbind app] in H.
    apply rfold_prefix in H.
    + destruct H as (rest & -> & Hl).
      assert (Hlen : length items = Nat.min max_items (Z.to_nat n)).
      { destruct (Json.or_else v (JArr [])) as [| | | | s | l | kv]; try discriminate Htake.
        - cbn in Htake, Hn. injection Htake as <-. injection Hn as <-.
          cbn in Hit. injection Hit as <-.
          rewrite length_map, length_list_ascii. unfold Py.prefix_to.
          rewrite prefix_length, !Nat2Z.id. reflexivity.
        - cbn in Htake, Hn. injection Htake as <-. injection Hn as <-.
          cbn in Hit. injection Hit as <-.
          rewrite length_firstn, Nat2Z.id. reflexivity. }
      exists v, n, rest. repeat split; try assumption; try reflexivity.
      * cbn [app]. congruence.
      * cbn [app length]. rewrite Hl, Hlen. lia.
    + intros acc x r Hx.
      destruct (Json.get_default x "severity" (JStr "?")); [| discriminate Hx].
      cbn [rbind] in Hx.
      destruct (Json.get_default x "message" (JStr "")); [| discriminate Hx].
      cbn [rbind] in Hx.
      destruct (Json.get_default x "references" (JArr [])); [| discriminate Hx].
      cbn [rbind] in Hx.
      match type of Hx with context [Json.iter ?a] => destruct (Json.iter a) end;
        [| discriminate Hx].
      cbn [rbind] in Hx.
      destruct (rmapM designator_of _); [| discriminate Hx].
      cbn [rbind] in Hx.
      destruct (join_truthy _); [| discriminate Hx].
      cbn [rbind] in Hx. injection Hx as <-. eexists. reflexivity.
Qed.

End Summary.

(** ** The candidates of a part *)

Lemma sub_non_word_words : forall text in_run,
  word_only (sub_non_word in_run text) = true.
Proof.
  induction text as [| c text IH]; intros in_run; [reflexivity |].
  cbn [sub_non_word]. destruct (Py.isword c) eqn:Hc.
  - unfold word_only. cbn [list_ascii_of_string forallb]. rewrite Hc. apply IH.
  - destruct in_run; [apply IH |].
    unfold word_only. cbn [list_ascii_of_string forallb]. apply IH.
Qed.

Lemma prefix_words : forall n s,
  word_only s = true -> word_only (String.substring 0 n s) = true.
Proof.
  unfold word_only.
  induction n as [| n IH]; intros s H; destruct s as [| c s]; try reflexivity.
  cbn [String.substring list_ascii_of_string forallb] in *.
  apply andb_prop in H as [Hc H]. rewrite Hc. apply IH. exact H.
Qed.

Lemma prefix_length_le : forall n s, (String.length (String.substring 0 n s) <= n)%nat.
Proof.
  induction n as [| n IH]; intros s; destruct s as [| c s]; cbn; try lia.
  specialize (IH s). lia.
Qed.

(** X6.  Whatever the value of a part, [_sanitize_value_for_custom] gives a
    name in the Custom library whose symbol part is made of 1 to 48 letters,
    digits and underscores: it is the cleaned value cut to 48 characters, or
    CustomPart when nothing of the value is left.  The result is never one of
    the placeholder names. *)
Theorem custom_name_is_sanitized :
  forall value : string,
    exists base,
      _sanitize_value_for_custom value = "Custom:" +:+ base
      /\ word_only base = true
      /\ (1 <= String.length base <= 48)%nat
      /\ not_sentinel (_sanitize_value_for_custom value)
      /\ (base = "CustomPart"
          \/ base = Py.prefix_to 48 (sub_non_word false (Py.strip value))).
Proof.
  intros value. unfold _sanitize_value_for_custom, Py.or_else.
  set (b := Py.prefix_to 48 (sub_non_word false (Py.strip value))).
  assert (Hw : word_only b = true)
    by (apply prefix_words, sub_non_word_words).
  assert (Hl : (String.length b <= 48)%nat) by apply prefix_length_le.
  clearbody b. destruct b as [| c t]; cbn [Py.truthy].
  - exists "CustomPart".
    split; [reflexivity |]. split; [reflexivity |]. split; [cbn; lia |].
    split; [apply custom_not_sentinel | left; reflexivity].
  - exists (String c t).
    split; [reflexivity |]. split; [exact Hw |]. split; [cbn in *; lia |].
    split; [apply custom_not_sentinel | right; reflexivity].
Qed.


Section Chroma.
Context {W : World}.



End Chroma.

Section Passive.
Context {W : World}.

(** X8.  The reference alone decides the candidates of a resistor: for a
    part whose reference starts with R or r and a limit of at least 1,
    [candidates_for_part] returns the single identifier Device:R when the
    catalog has that symbol, and the custom fallback made from the value or
    the reference when it does not.  The type and the symbol the part asks
    for play no role, and the similarity search is not consulted. *)
Theorem reference_prefix_decides_the_candidates :
  forall (part : PartSpec) (max_per_lib : Z),
    1 <= max_per_lib ->
    Py.startswith (Py.upper (ref part)) "R" = true ->
    candidates_for_part part max_per_lib
    = if in_index symbol_index "Device" "R" then ["Device:R"] else custom_fallback part.
Proof.
  intros part cap Hcap Href. unfold candidates_for_part, custom_fallback.
  rewrite Href, orb_true_r.
  unfold _list_if_exists, in_index.
  destruct (Json.assoc "Device" symbol_index) as [names |].
  - cbn [List.filter]. destruct (Py.mem "R" names).
    + cbn [map]. unfold Py.take_to.
      replace (0 <=? cap) with true by (symmetry; apply Z.leb_le; lia).
      replace (Z.to_nat cap) with (S (Z.to_nat cap - 1)) by lia.
      cbn [firstn]. rewrite firstn_nil.
      change ("Device" +:+ ":" +:+ "R") with "Device:R".
      cbn [dedup_cap]. change (sentinel (Py.lower "Device:R")) with false. cbv iota.
      case_bool_decide as Hin; [apply elem_of_empty in Hin; contradiction |].
      cbn [app length]. destruct (cap <=? Z.of_nat 1); reflexivity.
    + cbn [map]. unfold Py.take_to. destruct (0 <=? cap); rewrite firstn_nil; reflexivity.
  - unfold Py.take_to. destruct (0 <=? cap); rewrite firstn_nil; reflexivity.
Qed.

End Passive.

(** ** The catalog of symbols *)

Section Search.
Context {W : World}.

(** X9.  [search_symbols_by_substrings] returns nothing for an empty list of
    substrings.  For any other list it returns exactly the symbols of the
    catalog whose name contains every non-empty substring, case ignored; when
    all the substrings are empty that is the whole catalog. *)
Theorem symbol_search_is_sound_and_complete :
  forall (substrings : list string) (lib name : string),
    (substrings = [] -> search_symbols_by_substrings substrings = [])
    /\ (substrings <> [] ->
        (In (lib, name) (search_symbols_by_substrings substrings)
         <-> (exists syms, In (lib, syms) symbol_index /\ In name syms)
             /\ forall tok, In tok substrings -> tok <> "" ->
                  Py.contains (Py.lower tok) (Py.lower name) = true))
    /\ (substrings <> [] -> Forall (fun tok => tok = "") substrings ->
        (In (lib, name) (search_symbols_by_substrings substrings)
         <-> exists syms, In (lib, syms) symbol_index /\ In name syms)).
Proof.
  intros substrings lib name.
  assert (Hmain : substrings <> [] ->
            (In (lib, name) (search_symbols_by_substrings substrings)
             <-> (exists syms, In (lib, syms) symbol_index /\ In name syms)
                 /\ forall tok, In tok substrings -> tok <> "" ->
                      Py.contains (Py.lower tok) (Py.lower name) = true)).
  { intros Hne. unfold search_symbols_by_substrings.
    destruct substrings as [| s0 rest] eqn:Es; [congruence |]. rewrite <- Es. clear Hne.
    rewrite in_flat_map. split.
    - intros ([lib' syms] & Hidx & Hin). apply in_flat_map in Hin as (nm & Hnm & Hin).
      destruct (forallb _ _) eqn:Hall; [| contradiction].
      destruct Hin as [Heq | []]. injection Heq as -> ->.
      split; [eauto |].
      intros tok Htok Hnz. rewrite forallb_forall in Hall. apply Hall.
      apply in_map. apply filter_In. split; [exact Htok |].
      destruct tok; [congruence | reflexivity].
    - intros [(syms & Hidx & Hnm) Hall]. exists (lib, syms). split; [exact Hidx |].
      apply in_flat_map. exists name. split; [exact Hnm |].
      replace (forallb _ _) with true; [left; reflexivity |].
      symmetry. apply forallb_forall. intros t Ht.
      apply in_map_iff in Ht as (tok & <- & Ht). apply filter_In in Ht as [Ht Htr].
      apply Hall; [exact Ht |]. destruct tok; [discriminate Htr | discriminate]. }
  split; [intros ->; reflexivity |]. split; [exact Hmain |].
  intros Hne Hempty. rewrite (Hmain Hne). split; [tauto |].
  intros H. split; [exact H |]. intros tok Htok Hnz.
  rewrite List.Forall_forall in Hempty. specialize (Hempty tok Htok). contradiction.
Qed.

End Search.






Section LibraryFacts.
Context {W : World}.

(** X11.  [resolve_lib_id] returns a preferred identifier that holds a colon
    as it is, without looking it up.  In every case the result is that
    preferred identifier, or a library and a symbol that the catalog holds,
    or the placeholder Device:Unknown; with an empty catalog and no
    preferred identifier holding a colon it is always the placeholder. *)
Theorem resolved_identifier_is_never_invented :
  forall (preferred : option string) (part_type : string) (value : option string),
    let r := resolve_lib_id preferred part_type value in
    (forall p, preferred = Some p -> p <> "" -> Py.contains ":" p = true -> r = p)
    /\ ((preferred = Some r /\ Py.contains ":" r = true)
        \/ (exists lib sym names,
              r = lib +:+ ":" +:+ sym
              /\ Json.assoc lib symbol_index = Some names /\ In sym names)
        \/ r = "Device:Unknown")
    /\ (symbol_index = [] ->
        (forall p, preferred = Some p -> p = "" \/ Py.contains ":" p = false) ->
        r = "Device:Unknown" /\ sentinel (Py.lower r) = true).
Proof.
  intros preferred part_type value r.
  assert (Hin : forall lib sym, in_index symbol_index lib sym = true ->
            exists names, Json.assoc lib symbol_index = Some names /\ In sym names).
  { intros lib sym H. unfold in_index in H.
    destruct (Json.assoc lib symbol_index) as [names |]; [| discriminate H].
    exists names. split; [reflexivity | apply mem_In; exact H]. }
  split; [| split].
  - intros p -> Hp Hc. subst r. unfold resolve_lib_id.
    rewrite Hc. destruct p; [congruence | reflexivity].
  - subst r. unfold resolve_lib_id.
    destruct (match preferred with Some p => Py.truthy p && Py.contains ":" p | None => false end)
      eqn:Hq.
    + left. destruct preferred as [p |]; [| discriminate Hq].
      apply andb_prop in Hq as [_ Hc]. auto.
    + right.
      match goal with
      | |- context [List.find ?f ?l] => destruct (List.find f l) as [[lib sym] |] eqn:Hf
      end.
      * left. apply find_some in Hf as [_ Hf]. cbn [fst snd] in Hf.
        destruct (Hin lib sym Hf) as (names & Ha & Hs). eauto 6.
      * destruct preferred as [p |]; [| right; reflexivity].
        destruct (Py.truthy p && in_index symbol_index "Device" p) eqn:Hd;
          [| right; reflexivity].
        left. apply andb_prop in Hd as [_ Hd].
        destruct (Hin "Device" p Hd) as (names & Ha & Hs). eauto 6.
  - intros Hidx Hpref. subst r. unfold resolve_lib_id.
    assert (Hq : match preferred with
                 | Some p => Py.truthy p && Py.contains ":" p | None => false end = false).
    { destruct preferred as [p |]; [| reflexivity].
      destruct (Hpref p eq_refl) as [-> | ->]; [reflexivity | apply andb_false_r]. }
    rewrite Hq, Hidx.
    match goal with
    | |- context [List.find ?f ?l] =>
        assert (Hf : List.find f l = None)
          by (apply find_nowhere; intros [lib sym]; reflexivity)
    end.
    rewrite Hf.
    destruct preferred as [p |]; [| split; reflexivity].
    unfold in_index. cbn [Json.assoc]. rewrite andb_false_r. split; reflexivity.
Qed.

End LibraryFacts.

(** ** The parts of a pseudo-CAD file *)

Section Components.
Context {L : PyLib}.

Lemma map_component_shape comp index p :
  _map_component_to_partspec comp index = Ok p ->
  ref p = reference_of index comp
  /\ In (type p, symbol p) guesses
  /\ pins p = [] /\ position p = None /\ rotation p = Some 0.
Proof.
  unfold _map_component_to_partspec. intros H.
  destruct comp as [| | | | | | kv]; try discriminate H.
  cbn [Json.get_default Json.get rbind] in H.
  destruct (lower_of _) as [category |]; [| discriminate H]. cbn [rbind] in H.
  match type of H with
  | context [if ?c then _ else _] => set (guess := if c then _ else _) in H
  end.
  assert (Hg : In guess guesses).
  { subst guess. unfold guesses.
    repeat match goal with
           | |- context [if ?c then _ else _] => destruct c
           end; cbn; tauto. }
  destruct guess as [type_guess symbol_guess].
  destruct (optional_str _) as [v |]; [| discriminate H]. cbn [rbind] in H.
  injection H as <-. cbn [ref type symbol pins position rotation reference_of].
  split; [| auto].
  destruct (Json.assoc "id" kv); reflexivity.
Qed.

Lemma map_component_ok comp index :
  component_ok comp = true ->
  exists p, _map_component_to_partspec comp index = Ok p.
Proof.
  unfold component_ok, _map_component_to_partspec. intros H.
  destruct comp as [| | | | | | kv]; try discriminate H.
  apply andb_prop in H as [Hc Hv].
  cbn [Json.get_default Json.get rbind].
  assert (Hlow : exists category,
            lower_of (Json.or_else (match Json.assoc "category" kv with
                                    | Some v => v | None => JNull end) (JStr ""))
            = Ok category).
  { unfold Json.or_else.
    destruct (Json.assoc "category" kv) as [[| | | | | |] |]; cbn in Hc |- *;
      try (apply negb_true_iff in Hc; rewrite Hc); cbn; eauto.
    destruct (Py.truthy s); cbn; eauto. }
  destruct Hlow as [category ->]. cbn [rbind].
  match goal with
  | |- context [let '(_, _) := ?g in _] => destruct g as [type_guess symbol_guess]
  end.
  destruct (Json.assoc "value" kv) as [[| | | | | |] |]; try discriminate Hv; cbn; eauto.
Qed.

(** X12.  When [_convert_pseudo_cad_schema] returns a circuit, its parts are
    the components that could be mapped, in the order of the file: a
    component whose mapping raises is dropped without an error.  Every part
    has one of the six type and symbol guesses, no pins, no position and
    rotation 0; and when every component has fields of the expected kinds,
    none is dropped and the references are the identifiers of the
    components, or U and the position counted from 1. *)
Theorem pseudo_cad_parts_are_the_mapped_components :
  forall (data : JSON) (c : CircuitSpec),
    _convert_pseudo_cad_schema data = Ok c ->
    let components := entries_of data "components" in
    parts c = omap mapped (imap (fun idx comp => (idx, comp)) components)
    /\ (length (parts c) <= length components)%nat
    /\ Forall (fun p => In (type p, symbol p) guesses
                        /\ pins p = [] /\ position p = None /\ rotation p = Some 0)
              (parts c)
    /\ (forallb component_ok components = true ->
        map ref (parts c) = imap reference_of components).
Proof.
  intros data c H components.
  assert (Hparts : parts c = omap mapped (imap (fun idx comp => (idx, comp)) components)).
  { unfold _convert_pseudo_cad_schema in H.
    destruct data as [| | | | | | kv]; try discriminate H.
    step_ok H device Hdev. step_ok H device_name Hname.
    step_ok H comps Hcomps. step_ok H items Hitems.
    step_ok H netv Hnetv. step_ok H net_items Hnets.
    step_ok H acc1 Hscan1.
    step_ok H domv Hdomv. step_ok H domains Hdoms.
    step_ok H acc2 Hscan2.
    destruct acc2 as [nets2 seen2].
    step_ok H t Ht. injection H as <-. cbn [parts].
    subst components.
    rewrite (entries_of_iter kv "components" [] comps items Hcomps Hitems eq_refl).
    rewrite <- (app_nil_l (omap _ _)), <- fold_left_omap.
    apply fold_left_same. intros acc [idx comp]. unfold mapped. cbn [fst snd].
    destruct (_map_component_to_partspec comp idx); reflexivity. }
  split; [exact Hparts |]. split; [| split].
  - rewrite Hparts. etransitivity; [apply omap_length |]. rewrite length_imap. lia.
  - rewrite Hparts. apply List.Forall_forall. intros p Hp.
    apply list_elem_of_In, list_elem_of_omap in Hp as ([idx comp] & _ & Hp).
    unfold mapped in Hp. cbn [fst snd] in Hp.
    destruct (_map_component_to_partspec comp idx) as [q |] eqn:Hq; [| discriminate Hp].
    injection Hp as ->. apply map_component_shape in Hq. tauto.
  - intros Hok. rewrite Hparts.
    assert (Hgen : forall (l : list JSON) (k : nat),
              forallb component_ok l = true ->
              map ref (omap mapped (imap (fun idx comp => (k + idx, comp)%nat) l))
              = imap (fun idx => reference_of (k + idx)) l).
    { induction l as [| comp l IH]; intros k Hl; [reflexivity |].
      cbn [forallb] in Hl. apply andb_prop in Hl as [Hc Hl].
      cbn [imap].
      change (omap mapped ((k + 0, comp)%nat :: ?t))
        with (match mapped (k + 0, comp)%nat with
              | Some y => y :: omap mapped t | None => omap mapped t end).
      destruct (map_component_ok comp (k + 0) Hc) as [p Hp].
      unfold mapped at 1. cbn [fst snd]. rewrite Hp. cbn [map].
      rewrite (proj1 (map_component_shape _ _ _ Hp)). f_equal.
      specialize (IH (S k) Hl).
      erewrite imap_ext; [erewrite (imap_ext _ (fun idx => reference_of (S k + idx))) |].
      - exact IH.
      - intros i x _. cbn. f_equal. lia.
      - intros i x _. cbn. f_equal. lia. }
    apply (Hgen components 0%nat Hok).
Qed.

End Components.

(** ** The prompt of the writer *)

Section Prompt.
Context {L : PyLib} {W : World}.

(** X13.  The user message of [_build_prompt] is the serialised payload,
    whose keys are lld_json, allowed and refs, then previous_text,
    issues_to_fix and reference_schematic for those that are given and not
    empty, in this order.  The previous text is cut to 12000 characters, the
    issues to the first 100 and the reference schematic to 20000 characters;
    a specification that is not valid JSON is passed as its first 4000
    characters under the key raw. *)
Theorem prompt_payload_is_bounded :
  forall spec allowed prev issues reference,
    let payload := prompt_payload spec allowed prev issues reference in
    _build_prompt spec allowed prev issues reference
    = (writer_system, json_dumps (JObj payload))
    /\ map fst payload
       = ["lld_json"; "allowed"; "refs"]
         ++ (if given prev then ["previous_text"] else [])
         ++ (match issues with Some (_ :: _) => ["issues_to_fix"] | _ => [] end)
         ++ (if given reference then ["reference_schematic"] else [])
    /\ Json.assoc "refs" payload = Some (Json.of_strings (map fst allowed))
    /\ (forall t, text_at payload "previous_text" = Some t ->
          Z.of_nat (String.length t) <= 12000
          /\ exists p, prev = Some p /\ t = Py.prefix_to 12000 p)
    /\ (forall l, items_at payload "issues_to_fix" = Some l ->
          Z.of_nat (length l) <= 100
          /\ exists found, issues = Some found /\ l = map JStr (firstn 100 found))
    /\ (forall t, text_at payload "reference_schematic" = Some t ->
          Z.of_nat (String.length t) <= 20000
          /\ exists r, reference = Some r /\ t = Py.prefix_to 20000 r)
    /\ (json_loads spec = None ->
        Json.assoc "lld_json" payload
        = Some (JObj [("raw", JStr (Py.prefix_to 4000 spec))])).
Proof.
  intros spec allowed prev issues reference payload.
  split; [reflexivity |].
  assert (Hp : forall p, Z.of_nat (String.length (Py.prefix_to 12000 p)) <= 12000)
    by (intros p; apply prefix_to_length; lia).
  assert (Hr : forall p, Z.of_nat (String.length (Py.prefix_to 20000 p)) <= 20000)
    by (intros p; apply prefix_to_length; lia).
  subst payload. unfold prompt_payload, given, text_at, items_at, Json.of_strings.
  destruct prev as [[| c p] |]; destruct issues as [[| i l] |];
    destruct reference as [[| c' r] |];
    cbn [Py.truthy Json.dict_set String.eqb Ascii.eqb Bool.eqb map fst app Json.assoc];
    repeat match goal with
           | |- _ /\ _ => split
           | |- _ = _ => reflexivity
           | |- forall t, None = Some _ -> _ => intros ? Hx; discriminate Hx
           | |- forall t, Some _ = Some _ -> _ => intros ? Hx; injection Hx as <-
           | |- Z.of_nat (String.length (Py.prefix_to 12000 _)) <= _ => apply Hp
           | |- Z.of_nat (String.length (Py.prefix_to 20000 _)) <= _ => apply Hr
           | |- Z.of_nat (length _) <= 100 =>
               cbn [length]; rewrite length_map, length_firstn; lia
           | |- exists _, _ => eexists
           | |- json_loads _ = None -> _ => intros Hj; rewrite Hj
           end.
Qed.

End Prompt.

(** ** The run *)

Section Offline.
Context {L : PyLib} {W : World}.

Lemma offline_write self (fs : gmap string string) spec allowed out_path prev found reference :
  writer_offline ->
  prev = None \/ prev = Some seed ->
  snd (write self fs spec allowed out_path prev found reference)
  = <[out_path := seed]> fs.
Proof.
  intros Hoff Hprev. rewrite write_files.
  replace (candidate_of _) with ""
    by (destruct (Hoff (S (_iter_counter self))
                    (request_of self spec allowed prev found reference)) as [-> | ->];
        reflexivity).
  destruct Hprev as [-> | ->]; vm_compute; reflexivity.
Qed.

Lemma seed_has_issues self i (fs : gmap string string) path found :
  fs !! path = Some seed ->
  validate self i fs path = Ok found -> found <> [].
Proof.
  intros Hread H. unfold validate in H.
  assert (H1 : _check_missing_embedded_symbols fs path = Ok []).
  { unfold _check_missing_embedded_symbols, read_text. rewrite Hread. vm_compute. reflexivity. }
  assert (H2 : _check_symbol_pins_and_graphics fs path = Ok []).
  { unfold _check_symbol_pins_and_graphics, read_text. rewrite Hread. vm_compute. reflexivity. }
  assert (H3 : _check_invalid_lib_ids_and_sheet fs path = Ok [Cases.sheet_issue]).
  { unfold _check_invalid_lib_ids_and_sheet, read_text. rewrite Hread. vm_compute. reflexivity. }
  rewrite H1, H2, H3 in H. cbn [rbind app] in H.
  unfold _check_instance_positions_and_refs in H. cbn [rbind] in H.
  destruct (use_llm self).
  - destruct (_check_kicad_text_llm self i fs path); [| discriminate H].
    cbn [rbind] in H. injection H as <-. discriminate.
  - injection H as <-. discriminate.
Qed.

Lemma offline_iteration cfg cb i loc st :
  writer_offline ->
  collaborators_total cfg ->
  file_system_accepts cfg ->
  callback_returns cb ->
  prev_text loc = None \/ prev_text loc = Some seed ->
  exists loc' st',
    iteration_body cfg cb i loc st = (Ok (false, loc'), st')
    /\ files st' = <[sch_path cfg := seed]> (files st)
    /\ prev_text loc' = Some seed
    /\ issues loc' <> [].
Proof.
  intros Hoff Htot Hfs Hret Hprev.
  destruct (iteration_body_through cfg cb i loc st Hret) as [p ->].
  rewrite (outcome_written cfg i loc _ _ Hfs).
  pose proof (offline_write (gpt_generator st) (files st) (raw_text cfg) (allowed cfg)
                (sch_path cfg) (prev_text loc) (Some (issues loc)) (reference_text cfg)
                Hoff Hprev) as Hw.
  destruct (write _ _ _ _ _ _ _ _) as [g1 f1]. cbn [snd] in Hw. subst f1.
  rewrite lookup_insert_eq.
  destruct (combined_issues_ok cfg i (<[sch_path cfg := seed]> (files st)) (Some seed) Htot)
    as [found Hc].
  rewrite Hc.
  assert (Hne : found <> []).
  { unfold combined_issues in Hc.
    destruct (validate _ _ _ _) as [v |] eqn:Hv; [| discriminate Hc].
    cbn [rbind] in Hc. injection Hc as <-.
    apply seed_has_issues in Hv; [| apply lookup_insert_eq].
    destruct v; [congruence | discriminate]. }
  destruct (erc_outcome_ok cfg i Htot) as [[[rc v] s] ->].
  replace (accepted found rc v) with false
    by (unfold accepted; destruct found; [congruence | reflexivity]).
  eexists _, _. split; [reflexivity |]. cbn. auto.
Qed.

(** X14.  With a completion service that is offline, so that every call of
    the writer raises or gives the empty reply, and with nothing else
    raising (neither the other collaborators, nor the file system under
    [write], nor the progress callback), a run of at least one iteration
    never accepts: it uses its whole budget, leaves the seed schematic in the
    output file, ends with recorded issues and still returns the path of
    that file. *)
Theorem offline_service_leaves_the_seed :
  forall json_path out_dir max_iters cb use st cfg st1,
    setup json_path out_dir use st = (Ok cfg, st1) ->
    writer_offline ->
    collaborators_total cfg ->
    file_system_accepts cfg ->
    callback_returns cb ->
    1 <= max_iters ->
    exists loc st2,
      iterate cfg cb (Z.to_nat max_iters) 1 first_locals st1 = (Ok (false, loc), st2)
      /\ run_orchestration json_path out_dir max_iters cb use st = (Ok (sch_path cfg), st2)
      /\ files st2 !! sch_path cfg = Some (_seed_schematic "Untitled")
      /\ Z.of_nat (_iter_counter (gpt_generator st2)) = max_iters
      /\ prev_text loc = Some (_seed_schematic "Untitled")
      /\ issues loc <> [].
Proof.
  intros json_path out_dir max_iters cb use st cfg st1 Hsetup Hoff Htot Hfs Hret Hmax.
  assert (Hloop : forall n i loc st0,
            prev_text loc = None \/ prev_text loc = Some seed ->
            exists loc' st',
              iterate cfg cb (S n) i loc st0 = (Ok (false, loc'), st')
              /\ files st' = <[sch_path cfg := seed]> (files st0)
              /\ prev_text loc' = Some seed
              /\ issues loc' <> []).
  { induction n as [| n IH]; intros i loc st0 Hprev.
    - rewrite iterate_unfold.
      destruct (offline_iteration cfg cb i loc st0 Hoff Htot Hfs Hret Hprev)
        as (loc1 & st1' & -> & Hf & Hp & Hi).
      cbn [iterate ret]. eauto 6.
    - rewrite iterate_unfold.
      destruct (offline_iteration cfg cb i loc st0 Hoff Htot Hfs Hret Hprev)
        as (loc1 & st1' & -> & Hf & Hp & Hi).
      destruct (IH (S i) loc1 st1' (or_intror Hp)) as (loc2 & st2 & Hit & Hf2 & Hp2 & Hi2).
      exists loc2, st2. split; [exact Hit |].
      split; [| auto].
      rewrite Hf2, Hf. apply insert_insert_eq. }
  destruct (Z.to_nat max_iters) as [| n] eqn:En; [lia |].
  destruct (Hloop n 1%nat first_locals st1 (or_introl eq_refl))
    as (loc & st2 & Hit & Hf & Hp & Hi).
  destruct (setup_writer _ _ _ _ _ _ Hsetup) as [Hgen Hfiles].
  exists loc, st2. split; [exact Hit |].
  split.
  { rewrite (run_after_setup _ _ _ _ _ _ _ _ Hsetup), En, Hit. reflexivity. }
  split; [rewrite Hf; apply lookup_insert_eq |].
  split.
  { rewrite (iterate_exhausted cfg cb _ _ _ _ _ _ Hit), Hgen. cbn [_iter_counter new_writer]. lia. }
  auto.
Qed.

End Offline.

Section Never.
Context {L : PyLib} {W : World}.

Lemma erc_outcome_absent i path :
  kicad_cli i = false -> erc_outcome i path = Ok (None, None, []).
Proof. intros H. unfold erc_outcome. rewrite H. reflexivity. Qed.

Lemma iteration_without_checker cfg cb i loc st :
  kicad_cli i = false ->
  (use_llm (validator cfg) = true ->
     forall i msgs, exists reply, validator_chat i msgs = Some reply) ->
  file_system_accepts cfg ->
  callback_returns cb ->
  exists loc' st',
    iteration_body cfg cb i loc st = (Ok (false, loc'), st')
    /\ erc_rc loc' = None /\ erc_violations loc' = None.
Proof.
  intros Hk Hchat Hfs Hret.
  destruct (iteration_body_through cfg cb i loc st Hret) as [p ->].
  rewrite (outcome_written cfg i loc _ _ Hfs).
  destruct (write _ _ _ _ _ _ _ _) as [g1 f1].
  assert (Hc : exists found, combined_issues cfg i f1 (f1 !! sch_path cfg) = Ok found).
  { unfold combined_issues, validate.
    destruct (probes_never_raise f1 (sch_path cfg))
      as ([l1 ->] & [l2 ->] & [l3 ->] & [l4 ->]).
    cbn [rbind].
    destruct (use_llm (validator cfg)) eqn:Hu; [| cbn; eauto].
    destruct (llm_probe_ok (validator cfg) i f1 (sch_path cfg)) as [l5 ->].
    - rewrite Hu. exact Hchat.
    - cbn. eauto. }
  destruct Hc as [found ->].
  rewrite (erc_outcome_absent i (sch_path cfg) Hk).
  replace (accepted found None None) with false
    by (unfold accepted; destruct found; reflexivity).
  eexists _, _. split; [reflexivity |]. cbn. auto.
Qed.

(** X15.  Without the rule checker installed no run ever accepts, whatever
    the writer produces: when nothing raises (the service of the validator
    is disabled or answers every call, the file system lets [write]
    through, the progress callback returns), every iteration is rejected,
    the run uses its whole budget, records neither a return code nor a
    violation count, and still returns the path of the output file.  With a
    budget of zero or less the output file is not touched and no progress
    line is added. *)
Theorem no_rule_checker_no_acceptance :
  forall json_path out_dir max_iters cb use st cfg st1,
    setup json_path out_dir use st = (Ok cfg, st1) ->
    (forall i, kicad_cli i = false) ->
    (use = true -> forall i msgs, exists reply, validator_chat i msgs = Some reply) ->
    file_system_accepts cfg ->
    callback_returns cb ->
    exists loc st2,
      iterate cfg cb (Z.to_nat max_iters) 1 first_locals st1 = (Ok (false, loc), st2)
      /\ run_orchestration json_path out_dir max_iters cb use st = (Ok (sch_path cfg), st2)
      /\ Z.of_nat (_iter_counter (gpt_generator st2)) = Z.max 0 max_iters
      /\ erc_rc loc = None /\ erc_violations loc = None
      /\ (max_iters <= 0 ->
          files st2 !! sch_path cfg = files st !! sch_path cfg
          /\ progress st2 = progress st).
Proof.
  intros json_path out_dir max_iters cb use st cfg st1 Hsetup Hk Hchat Hfs Hret.
  destruct (setup_returns _ _ _ _ _ _ Hsetup) as (Hst1 & Hval & _).
  assert (Hchat' : use_llm (validator cfg) = true ->
                   forall i msgs, exists reply, validator_chat i msgs = Some reply)
    by (rewrite Hval; exact Hchat).
  assert (Hloop : forall n i loc st0,
            (erc_rc loc = None /\ erc_violations loc = None) ->
            exists loc' st',
              iterate cfg cb n i loc st0 = (Ok (false, loc'), st')
              /\ erc_rc loc' = None /\ erc_violations loc' = None).
  { induction n as [| n IH]; intros i loc st0 Hloc.
    - cbn. eexists _, _. split; [reflexivity | exact Hloc].
    - rewrite iterate_unfold.
      destruct (iteration_without_checker cfg cb i loc st0 (Hk i) Hchat' Hfs Hret)
        as (loc1 & st1' & -> & Hloc1).
      apply IH. exact Hloc1. }
  destruct (Hloop (Z.to_nat max_iters) 1%nat first_locals st1) as (loc & st2 & Hit & Hrc & Hv).
  { split; reflexivity. }
  exists loc, st2. split; [exact Hit |].
  split.
  { rewrite (run_after_setup _ _ _ _ _ _ _ _ Hsetup), Hit. reflexivity. }
  destruct (setup_writer _ _ _ _ _ _ Hsetup) as [Hgen Hfiles].
  split.
  { rewrite (iterate_exhausted cfg cb _ _ _ _ _ _ Hit), Hgen. cbn [_iter_counter new_writer]. lia. }
  split; [exact Hrc |]. split; [exact Hv |].
  intros Hle. replace (Z.to_nat max_iters) with 0%nat in Hit by lia.
  cbn in Hit. injection Hit as _ <-.
  rewrite Hst1. split; reflexivity.
Qed.

End Never.

(** ** The progress callback *)

Lemma reports_ret {A} cb (a : A) : reports cb (ret a).
Proof. intros st. exists []. cbn. rewrite app_nil_r. auto. Qed.

Lemma reports_lift {A} cb (r : result A) : reports cb (lift r).
Proof. intros st. exists []. cbn. rewrite app_nil_r. auto. Qed.

Lemma reports_get cb : reports cb get_store.
Proof. intros st. exists []. cbn. rewrite app_nil_r. auto. Qed.

Lemma reports_bind {A B} cb (m : M A) (f : A -> M B) :
  reports cb m -> (forall a, reports cb (f a)) -> reports cb (bind m f).
Proof.
  intros Hm Hf st. unfold bind.
  destruct (Hm st) as (l1 & H1 & N1).
  destruct (m st) as [[a | e] st1]; cbn [snd] in H1.
  - destruct (Hf a st1) as (l2 & H2 & N2).
    exists (l1 ++ l2). rewrite H2, H1, app_assoc. split; [reflexivity |].
    intros Hcb. rewrite (N1 Hcb), (N2 Hcb). reflexivity.
  - exists l1. auto.
Qed.

Section Observation.
Context {L : PyLib} {W : World}.

Lemma reports_emit cb msg : reports cb (_emit cb msg).
Proof.
  intros st. unfold _emit. destruct cb.
  - destruct (progress_call (progress st) msg); cbn.
    + exists []. rewrite app_nil_r. split; [reflexivity | discriminate].
    + exists [msg]. split; [reflexivity | discriminate].
  - exists []. cbn. rewrite app_nil_r. auto.
Qed.

Lemma reports_emit_all cb lines : reports cb (emit_all cb lines).
Proof.
  induction lines as [| l lines IH]; cbn [emit_all].
  - apply reports_ret.
  - apply reports_bind; [apply reports_emit | intros _; exact IH].
Qed.

Lemma reports_iteration cfg cb i loc : reports cb (iteration_body cfg cb i loc).
Proof.
  unfold iteration_body.
  apply reports_bind; [apply reports_emit | intros _].
  apply reports_bind.
  { intros st. exists []. unfold generating. cbv zeta.
    destruct (debug_dir_mkdir _ _); [| cbn; rewrite app_nil_r; auto].
    destruct (write _ _ _ _ _ _ _ _).
    destruct (output_write_text _ _); cbn; rewrite app_nil_r; auto. }
  intros prev. apply reports_bind.
  { unfold checking.
    apply reports_bind; [apply reports_emit | intros _].
    apply reports_bind; [apply reports_get | intros st0].
    apply reports_bind; [apply reports_lift | intros found].
    apply reports_bind.
    { destruct found; [apply reports_emit | apply reports_emit_all]. }
    intros _. destruct prev as [t |]; [destruct (Py.truthy t) |];
      try apply reports_ret.
    destruct (List.filter _ _); [apply reports_ret |].
    apply reports_bind; [apply reports_emit | intros _; apply reports_ret]. }
  intros found. apply reports_bind.
  { unfold rule_checking.
    apply reports_bind; [apply reports_emit | intros _].
    destruct (run_erc_with_json i (sch_path cfg)) as [[proc |] report].
    - apply reports_bind.
      + apply reports_bind; [apply reports_lift | intros lines].
        apply reports_bind; [apply reports_emit_all | intros _; apply reports_ret].
      + intros [[rc v] s]. apply reports_ret.
    - apply reports_bind.
      + destruct (run_erc i (sch_path cfg)) as [erc |]; [| apply reports_ret].
        apply reports_bind; [apply reports_emit | intros _].
        apply reports_bind.
        { destruct (Py.truthy (stdout erc)); [apply reports_emit | apply reports_ret]. }
        intros _. apply reports_bind; [| intros _; apply reports_ret].
        destruct (Py.truthy (stderr erc)); [apply reports_emit | apply reports_ret].
      + intros [[rc v] s]. apply reports_ret. }
  intros [[rc v] s].
  destruct (accepted found rc v).
  - apply reports_bind; [apply reports_emit | intros _; apply reports_ret].
  - apply reports_bind; [| intros _; apply reports_ret].
    intros st. exists []. cbn. rewrite app_nil_r. auto.
Qed.

Lemma reports_iterate cfg cb : forall n i loc, reports cb (iterate cfg cb n i loc).
Proof.
  induction n as [| n IH]; intros i loc; cbn [iterate].
  - apply reports_ret.
  - apply reports_bind; [apply reports_iteration |].
    intros r. destruct (fst r); [apply reports_ret | apply IH].
Qed.

Lemma reports_setup json_path out_dir use cb : reports cb (setup json_path out_dir use).
Proof.
  unfold setup.
  apply reports_bind; [apply reports_lift | intros _].
  apply reports_bind; [apply reports_get | intros st0].
  apply reports_bind; [apply reports_lift | intros circuit].
  apply reports_bind; [apply reports_lift | intros raw].
  apply reports_bind; [apply reports_lift | intros _].
  apply reports_bind; [destruct use; [apply reports_lift | apply reports_ret] | intros _].
  intros st. exists []. cbn. rewrite app_nil_r. auto.
Qed.

Lemma reports_run json_path out_dir max_iters cb use :
  reports cb (run_orchestration json_path out_dir max_iters cb use).
Proof.
  unfold run_orchestration.
  apply reports_bind; [apply reports_setup | intros cfg].
  apply reports_bind; [apply reports_iterate | intros _; apply reports_ret].
Qed.

Lemma quiet_returns : callback_returns false.
Proof. intros H. discriminate H. Qed.

(** An iteration with a callback goes as the one without, or the callback
    stops it. *)
Lemma iteration_observed cfg i loc st1 st2 :
  same_state st1 st2 ->
  (fst (iteration_body cfg true i loc st1) = fst (iteration_body cfg false i loc st2)
   /\ same_state (snd (iteration_body cfg true i loc st1))
                 (snd (iteration_body cfg false i loc st2)))
  \/ (exists e, fst (iteration_body cfg true i loc st1) = Raise e
                /\ callback_raises true e).
Proof.
  intros [Hf Hg].
  destruct (iteration_body_run cfg true i loc st1)
    as [[p1 ->] | (e & st' & -> & Hc & _)]; [| right; eauto].
  destruct (iteration_body_through cfg false i loc st2 quiet_returns) as [p2 ->].
  rewrite Hf, Hg.
  destruct (iteration_outcome cfg i loc (files st2) (gpt_generator st2)) as [[r f] g].
  left. split; [reflexivity | split; reflexivity].
Qed.

Lemma iterate_observed cfg : forall n i loc st1 st2,
  same_state st1 st2 ->
  (fst (iterate cfg true n i loc st1) = fst (iterate cfg false n i loc st2)
   /\ same_state (snd (iterate cfg true n i loc st1)) (snd (iterate cfg false n i loc st2)))
  \/ (exists e, fst (iterate cfg true n i loc st1) = Raise e /\ callback_raises true e).
Proof.
  induction n as [| n IH]; intros i loc st1 st2 Hs.
  - left. cbn. auto.
  - rewrite !iterate_unfold.
    destruct (iteration_observed cfg i loc st1 st2 Hs) as [[Hr Hs'] | (e & Hr & Hc)].
    + destruct (iteration_body cfg true i loc st1) as [r1 st1'].
      destruct (iteration_body cfg false i loc st2) as [r2 st2'].
      cbn [fst snd] in Hr, Hs'. subst r2.
      destruct r1 as [[[] loc'] | e]; cbn [fst snd]; auto.
    + right. exists e.
      destruct (iteration_body cfg true i loc st1) as [r1 st1'].
      cbn [fst] in Hr. subst r1. auto.
Qed.

(** X16.  The progress callback steers a run in one way only, by raising.
    A run with a callback either returns the same result, writes the same
    files and leaves the same writer as the run without one, or raises an
    exception that the callback raised; so a callback that returns from
    every call changes nothing of these.  Without a callback no progress
    line is added; with one, the lines it returned from are added after
    those already there.  (A callback is taken to act on nothing that the
    run reads.) *)
Theorem callback_observes_or_stops :
  forall json_path out_dir max_iters use st,
    let loud := run_orchestration json_path out_dir max_iters true use st in
    let quiet := run_orchestration json_path out_dir max_iters false use st in
    ((fst loud = fst quiet
      /\ files (snd loud) = files (snd quiet)
      /\ gpt_generator (snd loud) = gpt_generator (snd quiet))
     \/ (exists e, fst loud = Raise e /\ callback_raises true e))
    /\ (callback_returns true ->
        fst loud = fst quiet
        /\ files (snd loud) = files (snd quiet)
        /\ gpt_generator (snd loud) = gpt_generator (snd quiet))
    /\ progress (snd quiet) = progress st
    /\ exists lines, progress (snd loud) = progress st ++ lines.
Proof.
  intros json_path out_dir max_iters use st loud quiet.
  assert (Hsame : (fst loud = fst quiet /\ same_state (snd loud) (snd quiet))
                  \/ (exists e, fst loud = Raise e /\ callback_raises true e)).
  { subst loud quiet.
    destruct (setup json_path out_dir use st) as [[cfg | e] st1] eqn:Hs.
    - rewrite !(run_after_setup _ _ _ _ _ _ _ _ Hs).
      destruct (iterate_observed cfg (Z.to_nat max_iters) 1 first_locals st1 st1)
        as [[Hr Hs'] | (e & Hr & Hc)]; [split; reflexivity | |].
      + destruct (iterate cfg true _ _ _ st1) as [r1 s1].
        destruct (iterate cfg false _ _ _ st1) as [r2 s2].
        cbn [fst snd] in Hr, Hs'. subst r2. destruct r1; auto.
      + right. exists e.
        destruct (iterate cfg true _ _ _ st1) as [r1 s1].
        cbn [fst] in Hr. subst r1. auto.
    - left. unfold run_orchestration, bind. rewrite Hs.
      split; [reflexivity | split; reflexivity]. }
  split; [| split; [| split]].
  - destruct Hsame as [(Hr & Hf & Hg) | H]; [left | right]; auto.
  - intros Hret. destruct Hsame as [(Hr & Hf & Hg) | (e & _ & Hcb & h & m & Hc)]; [auto |].
    rewrite (Hret Hcb h m) in Hc. discriminate Hc.
  - destruct (reports_run json_path out_dir max_iters false use st) as (l & Hl & Hn).
    fold quiet in Hl. rewrite Hl, (Hn eq_refl), app_nil_r. reflexivity.
  - destruct (reports_run json_path out_dir max_iters true use st) as (l & Hl & _).
    exists l. exact Hl.
Qed.

End Observation.

Lemma last_snoc_window {A} (l : list A) (x : A) : last (last_n 10 (l ++ [x])) = Some x.
Proof.
  unfold last_n. rewrite length_app. cbn [length].
  rewrite skipn_app.
  replace (length l + 1 - 10 - length l)%nat with 0%nat by lia.
  cbn [skipn]. apply last_snoc.
Qed.

Section Feedback.
Context {L : PyLib} {W : World}.

(** X17.  An iteration that stops leaves the writer as the generation left
    it.  An iteration that is rejected adds one user message to the history
    of the writer, the serialised feedback, and that message is the last of
    the history.  The feedback starts with the issues under
    validator_feedback, followed by the return code, the violation count and
    the summary of the rule checker for those that are there. *)
Theorem rejection_feeds_back :
  forall cfg cb i loc st stop loc' st',
    iteration_body cfg cb i loc st = (Ok (stop, loc'), st') ->
    let written :=
      fst (write (gpt_generator st) (files st) (raw_text cfg) (allowed cfg)
             (sch_path cfg) (prev_text loc) (Some (issues loc)) (reference_text cfg)) in
    (stop = true -> gpt_generator st' = written)
    /\ (stop = false ->
        gpt_generator st' = _add_history written "user" (json_dumps (feedback loc'))
        /\ last (_history (gpt_generator st'))
           = Some {| role := "user"; content := json_dumps (feedback loc') |})
    /\ (exists rest,
          feedback loc'
          = JObj (("validator_feedback", Json.of_strings (issues loc')) :: rest)
          /\ map fst rest
             = (match erc_rc loc' with Some _ => ["erc_returncode"] | None => [] end)
               ++ (match erc_violations loc' with Some _ => ["erc_violations"] | None => [] end)
               ++ (match erc_summary_lines loc' with _ :: _ => ["erc_summary"] | [] => [] end)).
Proof.
  intros cfg cb i loc st stop loc' st' H written.
  destruct (iteration_body_returns cfg cb i loc st _ _ H) as [p Hrun].
  unfold iteration_outcome in Hrun. cbv zeta in Hrun. subst written.
  destruct (debug_dir_mkdir _ _) as [[] | e]; [| discriminate Hrun].
  destruct (write _ _ _ _ _ _ _ _) as [g1 f1]. cbn [fst].
  destruct (output_write_text _ _) as [[] | e]; [| discriminate Hrun].
  destruct (combined_issues _ _ _ _) as [found |]; [| discriminate Hrun].
  destruct (erc_outcome _ _) as [[[rc v] s] |]; [| discriminate Hrun].
  split; [| split].
  - intros ->. destruct (accepted found rc v); [| discriminate Hrun].
    injection Hrun as _ ->. reflexivity.
  - intros ->. destruct (accepted found rc v); [discriminate Hrun |].
    injection Hrun as -> ->. cbn [gpt_generator]. split; [reflexivity |].
    rewrite add_history_last_n. apply last_snoc_window.
  - unfold feedback.
    destruct (erc_rc loc'), (erc_violations loc'), (erc_summary_lines loc');
      eexists; split; reflexivity.
Qed.

End Feedback.

(** ** The placement of the architect *)

Lemma grid_clear_sound n :
  grid_clear n = true ->
  forall i j, (i < n)%nat -> (j < n)%nat -> i <> j ->
    too_close (float_of_nat (Z.to_nat (fst (_grid_position i))))
              (float_of_nat (Z.to_nat (snd (_grid_position i))))
              (float_of_nat (Z.to_nat (fst (_grid_position j))))
              (float_of_nat (Z.to_nat (snd (_grid_position j))))
    = false.
Proof.
  unfold grid_clear. intros H i j Hi Hj Hne.
  pose proof (forallb_below _ _ H i Hi) as H1. cbv beta in H1.
  pose proof (forallb_below _ _ H1 j Hj) as H2. cbv beta in H2.
  apply orb_prop in H2 as [H2 | H2].
  - apply Nat.eqb_eq in H2. contradiction.
  - apply negb_true_iff in H2. exact H2.
Qed.

Lemma grid_clear_60 : grid_clear 60 = true.
Proof. vm_compute. reflexivity. Qed.

(** X18.  The default positions of [_grid_position] start at (50, 50) and
    any two of them are at least 25 apart, more than the minimum spacing of
    20 of the checker: its spacing test never fires on two parts placed by
    default, in exact arithmetic for all of them and in the floats of the
    checker for the first 60. *)
Theorem grid_positions_keep_their_distance :
  forall i j : nat,
    i <> j ->
    let '(xi, yi) := _grid_position i in
    let '(xj, yj) := _grid_position j in
    50 <= xi /\ 50 <= yi
    /\ 25 * 25 <= (xi - xj) * (xi - xj) + (yi - yj) * (yi - yj)
    /\ exactly_closer (Z.to_nat xi) (Z.to_nat yi) (Z.to_nat xj) (Z.to_nat yj) = false
    /\ ((i < 60)%nat -> (j < 60)%nat ->
        too_close (float_of_nat (Z.to_nat xi)) (float_of_nat (Z.to_nat yi))
                  (float_of_nat (Z.to_nat xj)) (float_of_nat (Z.to_nat yj)) = false).
Proof.
  intros i j Hne.
  pose proof (grid_clear_sound 60 grid_clear_60 i j) as Hfloat.
  unfold _grid_position in *. cbv zeta in *. cbn [fst snd] in Hfloat.
  set (a := Z.of_nat i) in *. set (b := Z.of_nat j) in *.
  assert (Hab : a <> b) by (subst a b; lia).
  assert (Ha : 0 <= a) by (subst a; lia).
  assert (Hb : 0 <= b) by (subst b; lia).
  pose proof (Z.div_mod a 6 ltac:(lia)) as Ea.
  pose proof (Z.div_mod b 6 ltac:(lia)) as Eb.
  pose proof (Z.mod_pos_bound a 6 ltac:(lia)) as Ma.
  pose proof (Z.mod_pos_bound b 6 ltac:(lia)) as Mb.
  pose proof (Z.div_pos a 6 Ha ltac:(lia)) as Da.
  pose proof (Z.div_pos b 6 Hb ltac:(lia)) as Db.
  set (ra := a mod 6) in *. set (rb := b mod 6) in *.
  set (qa := a / 6) in *. set (qb := b / 6) in *.
  clearbody ra rb qa qb. clearbody a b.
  assert (Hdist : 25 * 25 <= (50 + ra * 30 - (50 + rb * 30)) * (50 + ra * 30 - (50 + rb * 30))
                             + (50 + qa * 25 - (50 + qb * 25)) * (50 + qa * 25 - (50 + qb * 25))).
  { replace ((50 + ra * 30 - (50 + rb * 30)) * (50 + ra * 30 - (50 + rb * 30))
             + (50 + qa * 25 - (50 + qb * 25)) * (50 + qa * 25 - (50 + qb * 25)))
      with (900 * ((ra - rb) * (ra - rb)) + 625 * ((qa - qb) * (qa - qb))) by ring.
    pose proof (Z.square_nonneg (ra - rb)) as Hu.
    pose proof (Z.square_nonneg (qa - qb)) as Hv.
    assert (Hone : forall d, d <> 0 -> 1 <= d * d).
    { intros d Hd. destruct (Z.lt_trichotomy d 0) as [H | [H | H]]; [| lia |].
      - replace (d * d) with ((- d) * (- d)) by ring.
        change 1 with (1 * 1). apply Z.mul_le_mono_nonneg; lia.
      - change 1 with (1 * 1). apply Z.mul_le_mono_nonneg; lia. }
    destruct (Z.eq_dec qa qb) as [Hq | Hq].
    - pose proof (Hone (ra - rb) ltac:(lia)) as H1.
      set (U := (ra - rb) * (ra - rb)) in *. set (V := (qa - qb) * (qa - qb)) in *. lia.
    - pose proof (Hone (qa - qb) ltac:(lia)) as H1.
      set (U := (ra - rb) * (ra - rb)) in *. set (V := (qa - qb) * (qa - qb)) in *. lia. }
  split; [lia |]. split; [lia |]. split; [exact Hdist |]. split.
  - unfold exactly_closer. rewrite !Z2Nat.id by lia. apply Z.ltb_ge. lia.
  - intros Hi Hj. apply Hfloat; assumption.
Qed.

Lemma add_pin_nets_spec (l : list string) : forall nets,
  exists extra,
    fold_left add_pin_net l nets = nets ++ extra
    /\ (forall net, In net l -> net <> "" -> In net (nets ++ extra))
    /\ (forall net, In net extra -> In net l /\ net <> "")
    /\ (NoDup nets -> NoDup (nets ++ extra)).
Proof.
  induction l as [| x l IH]; intros nets; cbn [fold_left].
  - exists []. rewrite app_nil_r. split; [reflexivity |].
    split; [intros net [] |]. split; [intros net [] | auto].
  - unfold add_pin_net at 2.
    destruct (Py.truthy x && negb (Py.mem x nets)) eqn:Hx.
    + destruct (IH (nets ++ [x])) as (extra & -> & Hin & Hex & Hnd).
      exists (x :: extra). rewrite <- app_assoc. cbn [app].
      apply andb_prop in Hx as [Ht Hm]. apply negb_true_iff in Hm.
      split; [reflexivity |]. split; [| split].
      * intros net [-> | Hn] Hne.
        -- apply in_or_app. right. left. reflexivity.
        -- specialize (Hin net Hn Hne). rewrite <- app_assoc in Hin. exact Hin.
      * intros net [<- | Hn].
        -- split; [left; reflexivity |]. destruct x; [discriminate Ht | discriminate].
        -- destruct (Hex net Hn) as [H1 H2]. split; [right; exact H1 | exact H2].
      * intros Hnets. rewrite <- app_assoc in Hnd. apply Hnd.
        apply NoDup_app. split; [exact Hnets |]. split; [| apply NoDup_singleton].
        intros y Hy Hy'. apply list_elem_of_singleton in Hy'. subst y.
        apply list_elem_of_In, mem_In in Hy. congruence.
    + destruct (IH nets) as (extra & -> & Hin & Hex & Hnd).
      exists extra. split; [reflexivity |]. split; [| split; [| exact Hnd]].
      * intros net [-> | Hn] Hne; [| exact (Hin net Hn Hne)].
        apply in_or_app. left.
        apply andb_false_iff in Hx as [Ht | Hm].
        -- destruct net; [congruence | discriminate Ht].
        -- apply negb_false_iff in Hm. apply mem_In. exact Hm.
      * intros net Hn. destruct (Hex net Hn) as [H1 H2]. split; [right; exact H1 | exact H2].
Qed.

Section BaseDesign.
Context {L : PyLib} {W : World}.

Lemma base_design_roster (circuit : CircuitSpec) :
  map Design.ref (Design.parts (_base_design circuit)) = map ref (parts circuit)
  /\ map Design.value (Design.parts (_base_design circuit)) = map value (parts circuit).
Proof.
  unfold _base_design. cbn [Design.parts]. split; apply imap_map; reflexivity.
Qed.

(** X19.  [_base_design] keeps the parts of the circuit in their order with
    their references, values and pins; a part keeps its own position when it
    has one and gets the grid position of its index otherwise, with the
    symbol that [_choose_symbol] picks and a box of 18 by 10 centred on the
    position.  The nets are the declared ones followed by the non-empty nets
    of the pins that are not yet there, without duplicates when the declared
    nets have none; the title is never empty. *)
Theorem base_design_keeps_the_circuit :
  forall circuit : CircuitSpec,
    let d := _base_design circuit in
    map Design.ref (Design.parts d) = map ref (parts circuit)
    /\ map Design.value (Design.parts d) = map value (parts circuit)
    /\ map Design.pins (Design.parts d) = map pins (parts circuit)
    /\ (forall i part,
          parts circuit !! i = Some part ->
          exists p,
            Design.parts d !! i = Some p
            /\ Design.position p
               = match position part with Some q => q | None => _grid_position i end
            /\ Design.symbol p = _choose_symbol (type part) (symbol part) (value part)
            /\ Design.bbox p
               = (fst (Design.position p) - 9, snd (Design.position p) - 5, 18, 10))
    /\ (exists extra,
          Design.nets d = map name (nets circuit) ++ extra
          /\ (forall net, In net extra -> In net (pin_nets circuit) /\ net <> ""))
    /\ (forall net, In net (pin_nets circuit) -> net <> "" -> In net (Design.nets d))
    /\ (NoDup (map name (nets circuit)) -> NoDup (Design.nets d))
    /\ Design.title d <> "".
Proof.
  intros circuit d. subst d. unfold _base_design. cbn [Design.parts Design.nets Design.title].
  split; [apply imap_map; reflexivity |].
  split; [apply imap_map; reflexivity |].
  split; [apply imap_map; reflexivity |].
  split.
  { intros i part Hi. rewrite list_lookup_imap, Hi. cbn. eexists. split; [reflexivity |].
    cbn. auto. }
  change (fun nets net => if Py.truthy net && negb (Py.mem net nets) then nets ++ [net] else nets)
    with add_pin_net.
  rewrite (fold_left_nested add_pin_net (fun p => map snd (Design.pins p))).
  assert (Hpins : flat_map (fun p => map snd (Design.pins p))
                    (imap (fun idx part =>
                             {| Design.ref := ref part;
                                Design.symbol := _choose_symbol (type part) (symbol part) (value part);
                                Design.value := value part;
                                Design.position :=
                                  match position part with Some p => p | None => _grid_position idx end;
                                Design.rotation := Design.Int (default 0 (rotation part));
                                Design.pins := pins part;
                                Design.bbox :=
                                  (fst match position part with Some p => p | None => _grid_position idx end
                                   - 18 / 2,
                                   snd match position part with Some p => p | None => _grid_position idx end
                                   - 10 / 2, 18, 10) |})
                          (parts circuit))
                  = pin_nets circuit).
  { unfold pin_nets. generalize (parts circuit) as l.
    assert (Hg : forall (l : list PartSpec) (k : nat),
              flat_map (fun p => map snd (Design.pins p))
                (imap (fun idx part =>
                         {| Design.ref := ref part;
                            Design.symbol := _choose_symbol (type part) (symbol part) (value part);
                            Design.value := value part;
                            Design.position :=
                              match position part with Some p => p | None => _grid_position (k + idx) end;
                            Design.rotation := Design.Int (default 0 (rotation part));
                            Design.pins := pins part;
                            Design.bbox :=
                              (fst match position part with Some p => p | None => _grid_position (k + idx) end
                               - 18 / 2,
                               snd match position part with Some p => p | None => _grid_position (k + idx) end
                               - 10 / 2, 18, 10) |}) l)
              = flat_map (fun part => map snd (pins part)) l).
    { induction l as [| x l IH]; intros k; [reflexivity |].
      cbn [imap flat_map Design.pins]. f_equal.
      specialize (IH (S k)).
      erewrite imap_ext; [exact IH |].
      intros i y _. cbn. replace (k + S i)%nat with (S (k + i)) by lia. reflexivity. }
    intros l. apply (Hg l 0%nat). }
  rewrite Hpins.
  destruct (add_pin_nets_spec (pin_nets circuit) (map name (nets circuit)))
    as (extra & -> & Hin & Hex & Hnd).
  split; [exists extra; auto |]. split; [exact Hin |]. split; [exact Hnd |].
  destruct (title circuit) as [t |]; [| discriminate].
  unfold Py.or_else. destruct t; cbn; discriminate.
Qed.

End BaseDesign.

Lemma entry_for_In (entries : list JSON) (r : string) (kv : list (string * JSON)) :
  entry_for entries r = Some kv -> In (JObj kv) entries.
Proof.
  unfold entry_for.
  assert (H : forall l found,
            fold_left
              (fun found p =>
                 match p with
                 | JObj kv =>
                     match Json.assoc "ref" kv with
                     | Some (JStr s) => if String.eqb s r then Some kv else found
                     | _ => found
                     end
                 | _ => found
                 end) l found = Some kv ->
            found = Some kv \/ In (JObj kv) l).
  { induction l as [| p l IH]; intros found Hf; cbn [fold_left] in Hf; [left; exact Hf |].
    apply IH in Hf as [Hf | Hf]; [| right; right; exact Hf].
    destruct p as [| | | | | | kv0]; try (left; exact Hf).
    destruct (Json.assoc "ref" kv0) as [[| | | | s | |] |]; try (left; exact Hf).
    destruct (String.eqb s r); [| left; exact Hf].
    injection Hf as <-. right. left. reflexivity. }
  intros Hf. destruct (H entries None Hf) as [Hn | Hin]; [discriminate Hn | exact Hin].
Qed.

Section Apply.
Context {L : PyLib} {W : World}.
Variable int_of : JSON -> result Z.

Lemma apply_entry_keeps entry allowed p p' :
  apply_entry int_of entry allowed p = Ok p' ->
  Design.ref p' = Design.ref p
  /\ Design.value p' = Design.value p
  /\ Design.pins p' = Design.pins p
  /\ (forall first rest,
        Json.assoc (Design.ref p) allowed = Some (first :: rest) ->
        In (Design.symbol p') (first :: rest)).
Proof.
  unfold apply_entry. intros H.
  match type of H with
  | rbind ?r _ = Ok _ => destruct r as [placed |]; [cbn [rbind] in H | discriminate H]
  end.
  injection H as <-. cbn [Design.ref Design.value Design.pins Design.symbol].
  repeat split.
  intros first rest Ha. rewrite Ha. cbn [default].
  change (id (first :: rest)) with (first :: rest).
  destruct (Json.or_else _ _) as [| | | | s | |]; try (left; reflexivity).
  destruct (Py.mem s (first :: rest)) eqn:Hm; [apply mem_In; exact Hm | left; reflexivity].
Qed.

Lemma add_reply_nets (l : list JSON) : forall nets,
  exists extra,
    fold_left
      (fun acc n => match n with
                    | JStr s => if Py.mem s acc then acc else acc ++ [s]
                    | _ => acc
                    end) l nets
    = nets ++ extra.
Proof.
  induction l as [| n l IH]; intros nets; cbn [fold_left].
  - exists []. rewrite app_nil_r. reflexivity.
  - destruct n as [| | | | s | |]; try apply IH.
    destruct (Py.mem s nets); [apply IH |].
    destruct (IH (nets ++ [s])) as [extra ->]. exists (s :: extra).
    rewrite <- app_assoc. reflexivity.
Qed.


Lemma apply_reply_spec :
  forall (design : Design.GeneratedDesign) (data : JSON)
         (allowed_by_ref : list (string * list string)) (d : Design.GeneratedDesign),
    _apply_positions_and_symbols_from_json int_of design data allowed_by_ref = Ok d ->
    Design.title d = Design.title design
    /\ map Design.ref (Design.parts d) = map Design.ref (Design.parts design)
    /\ map Design.value (Design.parts d) = map Design.value (Design.parts design)
    /\ map Design.pins (Design.parts d) = map Design.pins (Design.parts design)
    /\ (exists extra, Design.nets d = Design.nets design ++ extra)
    /\ (forall i p,
          Design.parts design !! i = Some p ->
          exists p',
            Design.parts d !! i = Some p'
            /\ (entry_for (reply_entries data) (Design.ref p) = None -> p' = p)
            /\ (forall first rest,
                  entry_for (reply_entries data) (Design.ref p) <> None ->
                  Json.assoc (Design.ref p) allowed_by_ref = Some (first :: rest) ->
                  In (Design.symbol p') (first :: rest))).
Proof.
  intros design data allowed d H.
  unfold _apply_positions_and_symbols_from_json in H.
  destruct data as [| | | | | | kv]; try discriminate H.
  step_ok H listed Hlisted. step_ok H items Hitems.
  destruct (negb (forallb hashable_ref (List.filter is_entry items))); [discriminate H |].
  step_ok H new_parts Hparts. step_ok H netv Hnets. injection H as <-.
  cbn [Design.title Design.parts Design.nets].
  assert (He : reply_entries (JObj kv) = List.filter is_entry items).
  { unfold reply_entries.
    rewrite (entries_of_iter kv "parts" [] listed items Hlisted Hitems eq_refl). reflexivity. }
  rewrite He.
  assert (Hkeep : forall x y,
            match entry_for (List.filter is_entry items) (Design.ref x) with
            | Some entry => apply_entry int_of entry allowed x
            | None => Ok x
            end = Ok y ->
            Design.ref y = Design.ref x /\ Design.value y = Design.value x
            /\ Design.pins y = Design.pins x).
  { intros x y Hxy. destruct (entry_for _ _) as [entry |].
    - apply apply_entry_keeps in Hxy. tauto.
    - injection Hxy as <-. auto. }
  split; [reflexivity |].
  split; [eapply rmapM_map; [| exact Hparts]; intros x y Hxy; apply (Hkeep x y Hxy) |].
  split; [eapply rmapM_map; [| exact Hparts]; intros x y Hxy; apply (Hkeep x y Hxy) |].
  split; [eapply rmapM_map; [| exact Hparts]; intros x y Hxy; apply (Hkeep x y Hxy) |].
  split.
  { destruct netv as [| | | | | l |]; try (exists []; rewrite app_nil_r; reflexivity).
    apply add_reply_nets. }
  intros i p Hi.
  pose proof (rmapM_lookup _ _ _ Hparts) as Hl.
  destruct (Hl i p Hi) as (p' & Hp' & Hf).
  exists p'. split; [exact Hp' |]. split.
  - intros Hnone. rewrite Hnone in Hf. injection Hf as <-. reflexivity.
  - intros first rest Hsome Ha.
    destruct (entry_for _ _) as [entry |]; [| congruence].
    apply apply_entry_keeps in Hf. apply Hf. exact Ha.
Qed.

Lemma apply_total design data allowed :
  reply_ok data = true ->
  (forall n, int_of (JInt n) = Ok n) ->
  exists d, _apply_positions_and_symbols_from_json int_of design data allowed = Ok d.
Proof.
  intros Hok Hint. unfold _apply_positions_and_symbols_from_json.
  destruct data as [| | | | | | kv]; try discriminate Hok. cbn [reply_ok] in Hok.
  cbn [Json.get_default Json.get rbind].
  assert (Hitems : exists items,
            Json.iter (match Json.assoc "parts" kv with Some v => v | None => JArr [] end)
            = Ok items /\ forallb entry_ok items = true).
  { destruct (Json.assoc "parts" kv) as [[| | | | | items |] |]; try discriminate Hok;
      cbn; eauto. }
  destruct Hitems as (items & -> & Hitems). cbn [rbind].
  assert (Hentries : forall p, In p (List.filter is_entry items) -> entry_ok p = true).
  { intros p Hp. apply filter_In in Hp as [Hp _].
    rewrite forallb_forall in Hitems. apply Hitems. exact Hp. }
  assert (Hhash : forallb hashable_ref (List.filter is_entry items) = true).
  { apply forallb_forall. intros p Hp. specialize (Hentries p Hp).
    destruct p as [| | | | | | kv0]; try reflexivity.
    cbn [entry_ok] in Hentries. apply andb_prop in Hentries as [Hh _]. exact Hh. }
  rewrite Hhash. cbn [negb].
  assert (Hparts : exists new_parts,
            rmapM (fun p => match entry_for (List.filter is_entry items) (Design.ref p) with
                            | Some entry => apply_entry int_of entry allowed p
                            | None => Ok p
                            end) (Design.parts design) = Ok new_parts).
  { induction (Design.parts design) as [| p ps IH]; cbn [rmapM]; [eauto |].
    destruct IH as [rest ->].
    destruct (entry_for _ (Design.ref p)) as [entry |] eqn:He; [| cbn; eauto].
    apply entry_for_In in He. specialize (Hentries _ He).
    cbn [entry_ok] in Hentries. apply andb_prop in Hentries as [_ Hpos].
    unfold apply_entry.
    destruct (Json.or_else (default JNull (Json.assoc "position" entry))
                           (default JNull (Json.assoc "pos" entry)))
      as [| | | | | [| a [| b [| c l]]] |]; cbn [rbind]; eauto.
    destruct a; try discriminate Hpos. destruct b; try discriminate Hpos.
    rewrite !Hint. cbn [rbind].
    destruct (Design.bbox p) as [[[bx by_] bw] bh].
    destruct ((bw =? 0) || (bh =? 0)); cbn [rbind]; eauto. }
  destruct Hparts as [new_parts ->]. cbn [rbind]. eauto.
Qed.

(** X20.  A reply of the service can move parts and choose symbols, and
    nothing else.  When [_apply_positions_and_symbols_from_json] returns a
    design, the title, the references, the values and the pins are those of
    the design it started from and the nets are the old ones, maybe followed
    by more; a part that the reply does not mention is unchanged, and a part
    that it mentions gets one of the candidates of its reference whenever
    there are any.  It does return a design for every reply that is an
    object whose parts, if listed, have references that can be hashed and
    positions made of two integers. *)
Theorem reply_changes_only_what_is_allowed :
  forall (design : Design.GeneratedDesign) (data : JSON)
         (allowed_by_ref : list (string * list string)),
    (forall d,
       _apply_positions_and_symbols_from_json int_of design data allowed_by_ref = Ok d ->
       Design.title d = Design.title design
       /\ map Design.ref (Design.parts d) = map Design.ref (Design.parts design)
       /\ map Design.value (Design.parts d) = map Design.value (Design.parts design)
       /\ map Design.pins (Design.parts d) = map Design.pins (Design.parts design)
       /\ (exists extra, Design.nets d = Design.nets design ++ extra)
       /\ (forall i p,
             Design.parts design !! i = Some p ->
             exists p',
               Design.parts d !! i = Some p'
               /\ (entry_for (reply_entries data) (Design.ref p) = None -> p' = p)
               /\ (forall first rest,
                     entry_for (reply_entries data) (Design.ref p) <> None ->
                     Json.assoc (Design.ref p) allowed_by_ref = Some (first :: rest) ->
                     In (Design.symbol p') (first :: rest))))
    /\ (reply_ok data = true ->
        (forall n, int_of (JInt n) = Ok n) ->
        exists d,
          _apply_positions_and_symbols_from_json int_of design data allowed_by_ref = Ok d).
Proof.
  intros design data allowed_by_ref. split.
  - intros d H. exact (apply_reply_spec design data allowed_by_ref d H).
  - intros Hok Hint. exact (apply_total design data allowed_by_ref Hok Hint).
Qed.

End Apply.

Section TableLookup.
Context {W : World}.

Lemma candidates_lookup (cap : Z) (parts : list PartSpec) (r : string) :
  (forall l, Json.assoc r (candidates_for_parts parts cap) = Some l ->
     exists part, In part parts /\ ref part = r /\ l = candidates_for_part part cap)
  /\ ((exists part, In part parts /\ ref part = r) ->
      exists l, Json.assoc r (candidates_for_parts parts cap) = Some l).
Proof.
  unfold candidates_for_parts.
  assert (H : forall (ps : list PartSpec) (table : list (string * list string)),
            (forall l, Json.assoc r
                         (fold_left (fun table p =>
                                       Json.dict_set (ref p) (candidates_for_part p cap) table)
                                    ps table) = Some l ->
               Json.assoc r table = Some l
               \/ exists part, In part ps /\ ref part = r /\ l = candidates_for_part part cap)
            /\ ((is_Some (Json.assoc r table) \/ exists part, In part ps /\ ref part = r) ->
                is_Some (Json.assoc r
                           (fold_left (fun table p =>
                                         Json.dict_set (ref p) (candidates_for_part p cap) table)
                                      ps table)))).
  { induction ps as [| p ps IH]; intros table; cbn [fold_left].
    - split; [auto |]. intros [Hs | (part & [] & _)]. exact Hs.
    - destruct (IH (Json.dict_set (ref p) (candidates_for_part p cap) table)) as [IH1 IH2].
      split.
      + intros l Hl. destruct (IH1 l Hl) as [Ht | (part & Hin & Hr & Hc)].
        * rewrite assoc_dict_set in Ht.
          destruct (String.eqb_spec r (ref p)) as [-> | Hne]; [| left; exact Ht].
          injection Ht as <-. right. exists p. split; [left; reflexivity | auto].
        * right. exists part. split; [right; exact Hin | auto].
      + intros Hs. apply IH2. rewrite assoc_dict_set.
        destruct (String.eqb_spec r (ref p)) as [-> | Hne]; [left; eauto |].
        destruct Hs as [Hs | (part & [<- | Hin] & Hr)];
          [left; exact Hs | congruence | right; eauto]. }
  destruct (H parts []) as [H1 H2]. split.
  - intros l Hl. destruct (H1 l Hl) as [Hn | Hp]; [discriminate Hn | exact Hp].
  - intros Hp. destruct H2 as [l Hl]; [right; exact Hp | eauto].
Qed.

End TableLookup.

Lemma shift_parts_keeps (parts : list Design.PlacedPart) :
  map Design.ref (shift_parts parts) = map Design.ref parts
  /\ map Design.symbol (shift_parts parts) = map Design.symbol parts
  /\ map Design.value (shift_parts parts) = map Design.value parts.
Proof.
  unfold shift_parts.
  assert (H : forall (f : nat -> nat) (l : list Design.PlacedPart),
            let g := fun idx part =>
              let '(x, y) := Design.position part in
              let nx := x + (Z.of_nat (f idx) mod 3) * 10 in
              let ny := y + (Z.of_nat (f idx) mod 3) * 8 in
              let '(bx, by_, bw, bh) := Design.bbox part in
              {| Design.ref := Design.ref part; Design.symbol := Design.symbol part;
                 Design.value := Design.value part; Design.position := (nx, ny);
                 Design.rotation := Design.rotation part; Design.pins := Design.pins part;
                 Design.bbox := (nx - bw / 2, ny - bh / 2, bw, bh) |} in
            map Design.ref (imap g l) = map Design.ref l
            /\ map Design.symbol (imap g l) = map Design.symbol l
            /\ map Design.value (imap g l) = map Design.value l).
  { intros f l. revert f. induction l as [| p l IH]; intros f g; [auto |].
    cbn [imap map]. destruct (IH (fun i => f (S i))) as (H1 & H2 & H3).
    cbv zeta in H1, H2, H3. unfold compose in *.
    subst g. cbv beta.
    destruct (Design.position p) as [x y]. destruct (Design.bbox p) as [[[bx by_] bw] bh].
    cbn [Design.ref Design.symbol Design.value].
    repeat split; f_equal; assumption. }
  apply (H (fun i => i) parts).
Qed.

Lemma shift_parts_lookup (parts : list Design.PlacedPart) (i : nat) (p : Design.PlacedPart) :
  parts !! i = Some p ->
  exists p',
    shift_parts parts !! i = Some p'
    /\ Design.position p'
       = (fst (Design.position p) + (Z.of_nat i mod 3) * 10,
          snd (Design.position p) + (Z.of_nat i mod 3) * 8)
    /\ (Z.of_nat i mod 3 = 0 -> Design.position p' = Design.position p).
Proof.
  intros Hi. unfold shift_parts. rewrite list_lookup_imap, Hi. cbn [fmap option_fmap option_map].
  destruct (Design.position p) as [x y] eqn:Hp. destruct (Design.bbox p) as [[[bx by_] bw] bh].
  eexists. split; [reflexivity |]. cbn [Design.position fst snd]. split; [reflexivity |].
  intros ->. f_equal; lia.
Qed.

Lemma add_unknown_nets_prefix (issues : list string) : forall nets,
  exists extra, add_unknown_nets issues nets = nets ++ extra.
Proof.
  unfold add_unknown_nets.
  induction issues as [| iss issues IH]; intros nets; cbn [fold_left].
  - exists []. rewrite app_nil_r. reflexivity.
  - destruct (Py.contains "unknown net" (Py.lower iss)); [| apply IH].
    destruct (_ && _); [| apply IH].
    destruct (_ && _); [| apply IH].
    match goal with
    | |- context [fold_left _ issues (nets ++ [?n])] =>
        destruct (IH (nets ++ [n])) as [extra ->]; exists (n :: extra)
    end.
    rewrite <- app_assoc. reflexivity.
Qed.

Section Roster.
Context {L : PyLib} {W : World}.
Variable int_of : JSON -> result Z.
Variable architect_chat : list Message -> option string.

Lemma from_reply_revision prompt design allowed d :
  from_reply int_of architect_chat prompt design allowed = Some d ->
  revision_of allowed design d.
Proof.
  unfold from_reply. intros H.
  destruct (architect_chat prompt) as [reply |]; [| discriminate H].
  destruct (_extract_json reply) as [data |]; [| discriminate H].
  destruct (Json.truthy data); [| discriminate H].
  destruct (_apply_positions_and_symbols_from_json int_of design data allowed)
    as [d' |] eqn:Ha; [| discriminate H].
  injection H as <-.
  destruct (apply_reply_spec int_of design data allowed d' Ha) as (Ht & Hr & Hv & Hp & Hn & Hs).
  repeat split; try assumption.
  intros i p Hi. destruct (Hs i p Hi) as (p' & Hp' & Hnone & Hsome).
  exists p'. split; [exact Hp' |].
  destruct (entry_for (reply_entries data) (Design.ref p)) eqn:He.
  - right. intros first rest. apply Hsome. discriminate.
  - left. rewrite (Hnone eq_refl). reflexivity.
Qed.

Lemma revision_refl allowed design : revision_of allowed design design.
Proof.
  repeat split; try reflexivity.
  - exists []. rewrite app_nil_r. reflexivity.
  - intros i p Hi. exists p. auto.
Qed.

(** X21.  Whatever the service replies, [produce_design] returns a design
    with the references and the values of the circuit's parts in their
    order, the title of the base design and its nets, maybe followed by
    more.  Every symbol is the one of the base design or a candidate of the
    part with that reference, computed with a limit of 5, and then never a
    placeholder.  Without the service the result is the base design. *)
Theorem produced_design_keeps_the_roster :
  forall (self : Architect.ArchitectAgent) (circuit : CircuitSpec),
    let base := _base_design circuit in
    let d := produce_design int_of architect_chat self circuit in
    (Architect.use_llm self = false -> d = base)
    /\ map Design.ref (Design.parts d) = map ref (parts circuit)
    /\ map Design.value (Design.parts d) = map value (parts circuit)
    /\ Design.title d = Design.title base
    /\ (exists extra, Design.nets d = Design.nets base ++ extra)
    /\ (forall i p,
          Design.parts base !! i = Some p ->
          exists p',
            Design.parts d !! i = Some p'
            /\ (Design.symbol p' = Design.symbol p
                \/ exists part,
                     In part (parts circuit) /\ ref part = Design.ref p
                     /\ In (Design.symbol p') (candidates_for_part part 5)
                     /\ not_sentinel (Design.symbol p'))).
Proof.
  intros self circuit base d.
  destruct (base_design_roster circuit) as (Hrefs & Hvals).
  fold base in Hrefs, Hvals.
  assert (Hrev : revision_of (candidates_for_parts (parts circuit) 5) base d).
  { subst d. unfold produce_design. fold base.
    destruct (negb (Architect.use_llm self)); [apply revision_refl |].
    destruct (from_reply _ _ _ _ _) as [d' |] eqn:Hf; [| apply revision_refl].
    apply from_reply_revision in Hf. exact Hf. }
  destruct Hrev as (Ht & Hr & Hv & _ & Hn & Hs).
  split.
  { intros Hoff. subst d. unfold produce_design. rewrite Hoff. reflexivity. }
  split; [rewrite Hr; exact Hrefs |].
  split; [rewrite Hv; exact Hvals |].
  split; [exact Ht |]. split; [exact Hn |].
  intros i p Hi. destruct (Hs i p Hi) as (p' & Hp' & [Hsame | Hin]).
  - exists p'. auto.
  - exists p'. split; [exact Hp' |]. right.
    assert (Hpart : exists part, In part (parts circuit) /\ ref part = Design.ref p).
    { assert (Hm : map Design.ref (Design.parts base) !! i = Some (Design.ref p))
        by (rewrite lookup_map, Hi; reflexivity).
      rewrite Hrefs, lookup_map in Hm.
      destruct (parts circuit !! i) as [part |] eqn:Hpi; [| discriminate Hm].
      injection Hm as Hm. exists part. split; [| exact Hm].
      apply list_elem_of_In. eapply list_elem_of_lookup_2. exact Hpi. }
    destruct (candidates_lookup 5 (parts circuit) (Design.ref p)) as [Hget Hhas].
    destruct (Hhas Hpart) as [l Hl].
    destruct (Hget l Hl) as (part & Hpin & Hpr & ->).
    destruct (candidates_for_part_valid part 5) as (Hne & _ & Hvalid & _).
    cbv zeta in Hne, Hvalid.
    destruct (candidates_for_part part 5) as [| first rest] eqn:Hc; [congruence |].
    specialize (Hin first rest Hl).
    exists part. split; [exact Hpin |]. split; [exact Hpr |].
    split; [rewrite Hc; exact Hin |].
    rewrite List.Forall_forall in Hvalid. apply Hvalid. exact Hin.
Qed.

(** X22.  Whatever the issues and whatever the service replies,
    [revise_design] keeps the title, the references and the values of the
    parts, and the nets, which it may extend.  Without the service it keeps
    every symbol too; it leaves the parts as they are unless an issue
    mentions an overlap, and then moves the part at index i by 10 and 8
    times the remainder of i by 3, so that every third part stays where it
    is. *)
Theorem revised_design_keeps_the_roster :
  forall (self : Architect.ArchitectAgent) (design : Design.GeneratedDesign)
         (issues : list string),
    let d := revise_design int_of architect_chat self design issues in
    Design.title d = Design.title design
    /\ map Design.ref (Design.parts d) = map Design.ref (Design.parts design)
    /\ map Design.value (Design.parts d) = map Design.value (Design.parts design)
    /\ (exists extra, Design.nets d = Design.nets design ++ extra)
    /\ (Architect.use_llm self = false ->
        d = heuristic_revision design issues
        /\ map Design.symbol (Design.parts d) = map Design.symbol (Design.parts design)
        /\ (existsb (fun i => Py.contains "overlap" (Py.lower i)) issues = false ->
            Design.parts d = Design.parts design)
        /\ (existsb (fun i => Py.contains "overlap" (Py.lower i)) issues = true ->
            forall i p,
              Design.parts design !! i = Some p ->
              exists p',
                Design.parts d !! i = Some p'
                /\ Design.position p'
                   = (fst (Design.position p) + (Z.of_nat i mod 3) * 10,
                      snd (Design.position p) + (Z.of_nat i mod 3) * 8)
                /\ (Z.of_nat i mod 3 = 0 -> Design.position p' = Design.position p))).
Proof.
  intros self design issues d.
  assert (Hh : Design.title (heuristic_revision design issues) = Design.title design
               /\ map Design.ref (Design.parts (heuristic_revision design issues))
                  = map Design.ref (Design.parts design)
               /\ map Design.symbol (Design.parts (heuristic_revision design issues))
                  = map Design.symbol (Design.parts design)
               /\ map Design.value (Design.parts (heuristic_revision design issues))
                  = map Design.value (Design.parts design)
               /\ (exists extra, Design.nets (heuristic_revision design issues)
                                 = Design.nets design ++ extra)).
  { unfold heuristic_revision. cbn [Design.title Design.parts Design.nets].
    destruct (shift_parts_keeps (Design.parts design)) as (H1 & H2 & H3).
    split; [reflexivity |].
    destruct (existsb _ issues); repeat split; try assumption; try reflexivity;
      apply add_unknown_nets_prefix. }
  destruct Hh as (Ht & Hr & Hs & Hv & Hn).
  subst d. unfold revise_design.
  destruct (Architect.use_llm self) eqn:Hu.
  - match goal with
    | |- context [from_reply int_of architect_chat ?pr design ?al] =>
        destruct (from_reply int_of architect_chat pr design al) as [d' |] eqn:Hf
    end.
    + apply from_reply_revision in Hf. destruct Hf as (Ht' & Hr' & Hv' & _ & Hn' & _).
      split; [exact Ht' |]. split; [exact Hr' |]. split; [exact Hv' |].
      split; [exact Hn' |]. intros Hoff. discriminate Hoff.
    + split; [exact Ht |]. split; [exact Hr |]. split; [exact Hv |].
      split; [exact Hn |]. intros Hoff. discriminate Hoff.
  - split; [exact Ht |]. split; [exact Hr |]. split; [exact Hv |]. split; [exact Hn |].
    intros _. split; [reflexivity |]. split; [exact Hs |]. split.
    + intros Hno. unfold heuristic_revision. rewrite Hno. reflexivity.
    + intros Hyes i p Hi. unfold heuristic_revision. rewrite Hyes.
      cbn [Design.parts]. apply shift_parts_lookup. exact Hi.
Qed.

End Roster.

(** * The further properties at concrete inputs *)

Lemma short_document_instances_coincide_witness :
  Samples.sheet !! "a.kicad_sch" = Some Samples.two_instances
  /\ (String.length Samples.two_instances <= 2000)%nat
  /\ first_placement (L := Demo.lib) Samples.two_instances
     = Some (10%float, 10%float, 0%float, "Device:R", true)
  /\ _extract_instances (L := Demo.lib) Samples.sheet "a.kicad_sch"
     = [("R1", 10%float, 10%float, 0%float, "Device:R", true);
        ("C2", 10%float, 10%float, 0%float, "Device:R", true)].
Proof.
  assert (H1 : Samples.sheet !! "a.kicad_sch" = Some Samples.two_instances)
    by (vm_compute; reflexivity).
  assert (H2 : (String.length Samples.two_instances <= 2000)%nat)
    by (apply Nat.leb_le; vm_compute; reflexivity).
  pose proof (short_document_instances_coincide Demo.lib _ _ _ H1 H2) as H.
  split; [exact H1 |]. split; [exact H2 |].
  split; [vm_compute; reflexivity |].
  rewrite H. vm_compute. reflexivity.
Defined.

Lemma led_with_diode_reference_is_flagged_witness :
  Py.startswith (Py.lower "Device:LED") "device:l" = true
  /\ Py.startswith (Py.upper "D1") "D" = true
  /\ _desired_prefix_for_lib "Device:LED" = "L"
  /\ instance_issues [("D1", 0%float, 0%float, 0%float, "Device:LED", true)]
     = ["Reference prefix mismatch for D1: expected to start with 'L' based on lib_id Device:LED."].
Proof.
  destruct (led_with_diode_reference_is_flagged "D1" "Device:LED" 0 0 0 true
              eq_refl eq_refl) as [_ H].
  split; [reflexivity |]. split; [reflexivity |]. split; [reflexivity |].
  rewrite H. reflexivity.
Defined.

Lemma violation_count_is_read_back_witness :
  no_f "ERC: " = true
  /\ digits "12" = true
  /\ "12" <> ""
  /\ parse_erc_violations ("ERC: " +:+ "Found " +:+ "12" +:+ " violations" +:+ ".") = 12.
Proof.
  assert (Hne : "12" <> "") by discriminate.
  destruct (violation_count_is_read_back "ERC: " "12" "." eq_refl eq_refl Hne) as [H _].
  split; [reflexivity |]. split; [reflexivity |]. split; [exact Hne |].
  rewrite H. reflexivity.
Defined.


Lemma reference_prefix_decides_the_candidates_witness :
  1 <= 5
  /\ Py.startswith (Py.upper (ref (Cases.part "R1" "MCU" (Some "esp32 module")))) "R" = true
  /\ candidates_for_part (W := Demo.bench) (Cases.part "R1" "MCU" (Some "esp32 module")) 5
     = ["Device:R"].
Proof.
  assert (Hn : 1 <= 5) by lia.
  pose proof (reference_prefix_decides_the_candidates (W := Demo.bench)
                (Cases.part "R1" "MCU" (Some "esp32 module")) 5 Hn eq_refl) as H.
  split; [exact Hn |]. split; [reflexivity |].
  rewrite H. reflexivity.
Defined.

Lemma pseudo_cad_parts_are_the_mapped_components_witness :
  _convert_pseudo_cad_schema (L := Demo.lib) Samples.board = Ok Samples.board_circuit
  /\ (length (parts Samples.board_circuit) <= length (entries_of Samples.board "components"))%nat
  /\ map ref (parts Samples.board_circuit) = ["R1"].
Proof.
  assert (Hc : _convert_pseudo_cad_schema (L := Demo.lib) Samples.board
               = Ok Samples.board_circuit) by (vm_compute; reflexivity).
  pose proof (pseudo_cad_parts_are_the_mapped_components (L := Demo.lib)
                Samples.board Samples.board_circuit Hc) as H.
  cbv zeta in H. destruct H as (_ & Hlen & _).
  split; [exact Hc |]. split; [exact Hlen |]. reflexivity.
Defined.

Lemma offline_writer : writer_offline (W := Demo.offline).
Proof. intros i msgs. left. reflexivity. Defined.

Lemma offline_service_leaves_the_seed_witness :
  setup (L := Demo.lib) (W := Demo.offline) "spec.json" "out" false
    (Cases.store_of Cases.board_text)
  = (Ok Cases.board_setup, Cases.store_of Cases.board_text)
  /\ writer_offline (W := Demo.offline)
  /\ collaborators_total (L := Demo.lib) (W := Demo.offline) Cases.board_setup
  /\ file_system_accepts (W := Demo.offline) Cases.board_setup
  /\ callback_returns (W := Demo.offline) false
  /\ 1 <= 3
  /\ exists loc st2,
       run_orchestration (L := Demo.lib) (W := Demo.offline) "spec.json" "out" 3 false false
         (Cases.store_of Cases.board_text)
       = (Ok "out/My_board.kicad_sch", st2)
       /\ files st2 !! "out/My_board.kicad_sch" = Some (_seed_schematic "Untitled")
       /\ Z.of_nat (_iter_counter (gpt_generator st2)) = 3
       /\ issues loc <> [].
Proof.
  assert (Hs : setup (L := Demo.lib) (W := Demo.offline) "spec.json" "out" false
                 (Cases.store_of Cases.board_text)
               = (Ok Cases.board_setup, Cases.store_of Cases.board_text))
    by (vm_compute; reflexivity).
  assert (Hn : 1 <= 3) by lia.
  destruct (offline_service_leaves_the_seed (L := Demo.lib) (W := Demo.offline)
              "spec.json" "out" 3 false false _ _ _ Hs offline_writer
              offline_collaborators_total offline_file_system_accepts
              no_callback_returns Hn)
    as (loc & st2 & _ & Hrun & Hfiles & Hcount & _ & Hissues).
  split; [exact Hs |]. split; [exact offline_writer |].
  split; [exact offline_collaborators_total |].
  split; [exact offline_file_system_accepts |].
  split; [exact no_callback_returns |]. split; [exact Hn |].
  exists loc, st2. auto.
Defined.

Lemma no_rule_checker_no_acceptance_witness :
  setup (L := Demo.lib) (W := Demo.offline) "spec.json" "out" false
    (Cases.store_of Cases.board_text)
  = (Ok Cases.board_setup, Cases.store_of Cases.board_text)
  /\ (forall i, kicad_cli (World := Demo.offline) i = false)
  /\ file_system_accepts (W := Demo.offline) Cases.board_setup
  /\ callback_returns (W := Demo.offline) false
  /\ exists loc st2,
       run_orchestration (L := Demo.lib) (W := Demo.offline) "spec.json" "out" 2 false false
         (Cases.store_of Cases.board_text)
       = (Ok "out/My_board.kicad_sch", st2)
       /\ Z.of_nat (_iter_counter (gpt_generator st2)) = Z.max 0 2
       /\ erc_rc loc = None /\ erc_violations loc = None.
Proof.
  assert (Hs : setup (L := Demo.lib) (W := Demo.offline) "spec.json" "out" false
                 (Cases.store_of Cases.board_text)
               = (Ok Cases.board_setup, Cases.store_of Cases.board_text))
    by (vm_compute; reflexivity).
  assert (Hk : forall i, kicad_cli (World := Demo.offline) i = false)
    by (intros i; reflexivity).
  assert (Hchat : false = true ->
                  forall i msgs, exists reply,
                    validator_chat (World := Demo.offline) i msgs = Some reply)
    by (intros H; discriminate H).
  destruct (no_rule_checker_no_acceptance (L := Demo.lib) (W := Demo.offline)
              "spec.json" "out" 2 false false _ _ _ Hs Hk Hchat
              offline_file_system_accepts no_callback_returns)
    as (loc & st2 & _ & Hrun & Hcount & Hrc & Hv & _).
  split; [exact Hs |]. split; [exact Hk |].
  split; [exact offline_file_system_accepts |].
  split; [exact no_callback_returns |]. exists loc, st2. auto.
Defined.

Lemma rejection_feeds_back_witness :
  iteration_body (L := Demo.lib) (W := Demo.offline)
    Cases.board_setup false 1 first_locals (Cases.store_of Cases.board_text)
  = (Ok (false, Cases.rejected_locals),
     snd (iteration_body (L := Demo.lib) (W := Demo.offline)
            Cases.board_setup false 1 first_locals (Cases.store_of Cases.board_text)))
  /\ last (_history
             (gpt_generator
                (snd (iteration_body (L := Demo.lib) (W := Demo.offline)
                        Cases.board_setup false 1 first_locals
                        (Cases.store_of Cases.board_text)))))
     = Some {| role := "user";
               content := json_dumps (PyLib := Demo.lib) (feedback Cases.rejected_locals) |}.
Proof.
  assert (H : iteration_body (L := Demo.lib) (W := Demo.offline)
                Cases.board_setup false 1 first_locals (Cases.store_of Cases.board_text)
              = (Ok (false, Cases.rejected_locals),
                 snd (iteration_body (L := Demo.lib) (W := Demo.offline)
                        Cases.board_setup false 1 first_locals
                        (Cases.store_of Cases.board_text))))
    by (vm_compute; reflexivity).
  pose proof (rejection_feeds_back (L := Demo.lib) (W := Demo.offline) _ _ _ _ _ _ _ _ H)
    as Hf.
  cbv zeta in Hf. destruct Hf as (_ & Hrej & _).
  destruct (Hrej eq_refl) as [_ Hlast].
  split; [exact H | exact Hlast].
Defined.

Lemma grid_positions_keep_their_distance_witness :
  (0 <> 1)%nat
  /\ _grid_position 0 = (50, 50)
  /\ _grid_position 1 = (80, 50)
  /\ exactly_closer (Z.to_nat 50) (Z.to_nat 50) (Z.to_nat 80) (Z.to_nat 50) = false.
Proof.
  assert (Hne : (0 <> 1)%nat) by discriminate.
  pose proof (grid_positions_keep_their_distance 0 1 Hne) as H.
  change (_grid_position 0) with (50, 50) in H.
  change (_grid_position 1) with (80, 50) in H.
  cbv iota beta in H. destruct H as (_ & _ & _ & Hex & _).
  split; [exact Hne |]. split; [reflexivity |]. split; [reflexivity |]. exact Hex.
Defined.

Lemma reply_changes_only_what_is_allowed_witness :
  reply_ok Samples.reply = true
  /\ (forall n, Samples.int_of (JInt n) = Ok n)
  /\ exists d,
       _apply_positions_and_symbols_from_json Samples.int_of
         (_base_design (W := Demo.bench) Samples.board_circuit) Samples.reply
         [("R1", ["Device:R"])]
       = Ok d
       /\ map Design.ref (Design.parts d) = ["R1"]
       /\ map Design.symbol (Design.parts d) = ["Device:R"]
       /\ map Design.position (Design.parts d) = [(120, 80)].
Proof.
  assert (Hint : forall n, Samples.int_of (JInt n) = Ok n) by (intros n; reflexivity).
  destruct (reply_changes_only_what_is_allowed Samples.int_of
              (_base_design (W := Demo.bench) Samples.board_circuit) Samples.reply
              [("R1", ["Device:R"])]) as [Hspec Htotal].
  destruct (Htotal eq_refl Hint) as [d Hd].
  destruct (Hspec d Hd) as (_ & Hrefs & _).
  split; [reflexivity |]. split; [exact Hint |].
  exists d. split; [exact Hd |]. split; [rewrite Hrefs; reflexivity |].
  vm_compute in Hd. injection Hd as <-. split; reflexivity.
Defined.
